(** * sktime.container.array: the TimeArray container

    A shallow embedding of [sktime/container/array.py]: the two parallel
    matrices of a [TimeArray], the constructors [from_list], [from_pandas],
    [from_ts], the text form [to_ts], and the methods of the container.
    numpy arrays are modelled as lists of rows with an explicit column
    count, cells as IEEE binary64 values ([spec_float]), Python exceptions as
    the [Raise] branch of a result type. *)

From Stdlib Require Import String Ascii.
From Stdlib Require Import ZArith List Bool Lia PeanoNat Sorted.
From Stdlib Require Import Floats.SpecFloat DecimalString.
Import ListNotations.

Set Implicit Arguments.

(** ** Exceptions and the error monad *)

Inductive exn := TypeError | ValueError | IndexError | NotImplementedError.

Inductive result (A : Type) : Type :=
| Ok (a : A)
| Raise (e : exn).
Arguments Ok {A} a.
Arguments Raise {A} e.

Definition bind {A B} (r : result A) (k : A -> result B) : result B :=
  match r with
  | Ok a => k a
  | Raise e => Raise e
  end.

Declare Scope py_scope.
Delimit Scope py_scope with py.
Notation "x <- c ;; k" := (bind c (fun x => k))
  (at level 61, c at next level, right associativity) : py_scope.
Notation "' p <- c ;; k" := (bind c (fun x => let p := x in k))
  (at level 61, p pattern, c at next level, right associativity) : py_scope.
Notation "c ;;; k" := (bind c (fun _ => k))
  (at level 61, right associativity) : py_scope.
Open Scope py_scope.

Definition returns {A} (r : result A) : bool :=
  match r with Ok _ => true | Raise _ => false end.

Fixpoint mapM {A B} (f : A -> result B) (l : list A) : result (list B) :=
  match l with
  | [] => Ok []
  | a :: l' => b <- f a ;; bs <- mapM f l' ;; Ok (b :: bs)
  end.

(** ** Cells: numpy float64

    The matrices of the source are float64 arrays ([np.float]); the integer
    arrays that [np.arange] yields for a default time index are read as the
    same numbers in float64. *)

Definition cell := spec_float.

Definition prec : Z := 53.
Definition emax : Z := 1024.

(** [np.nan], the sentinel of a missing cell. *)
Definition nan : cell := S754_nan.

(** [np.isnan] on one cell. *)
Definition isnan (x : cell) : bool :=
  match x with S754_nan => true | _ => false end.

(** [==], [!=] and [+] on cells, as numpy applies them elementwise. *)
Definition cell_eq (x y : cell) : bool := SFeqb x y.
Definition cell_ne (x y : cell) : bool := negb (SFeqb x y).
Definition cell_add (x y : cell) : cell := SFadd prec emax x y.

(** The float64 value of an integer (integers up to 2^53 are exact). *)
Definition of_Z (z : Z) : cell := binary_normalize prec emax z 0 false.

(** ** numpy arrays *)

(** A 2-dimensional array of shape [(length rows, ncols)].  The column count
    is stored, so that the shapes [(0, w)] and [(n, 0)] are represented. *)
Record matrix := Matrix { ncols : nat; rows : list (list cell) }.

Definition nrows (m : matrix) : nat := length (rows m).
Definition shape (m : matrix) : nat * nat := (nrows m, ncols m).

(** Every row of a numpy array has as many cells as the array has columns. *)
Definition rectangular (m : matrix) : Prop :=
  Forall (fun r => length r = ncols m) (rows m).

Definition rectangularb (m : matrix) : bool :=
  forallb (fun r => length r =? ncols m) (rows m).

Definition shape_eqb (a b : matrix) : bool :=
  (nrows a =? nrows b) && (ncols a =? ncols b).

(** Arrays of dimension 0, 1 and 2, as far as the code tells them apart. *)
Inductive ndarray :=
| Nd0 (x : cell)
| Nd1 (xs : list cell)
| Nd2 (m : matrix).

Definition ndim (a : ndarray) : nat :=
  match a with Nd0 _ => 0 | Nd1 _ => 1 | Nd2 _ => 2 end.

Module Np.

(** [np.full((n, w), x)] *)
Definition full (n w : nat) (x : cell) : matrix :=
  Matrix w (repeat (repeat x w) n).

(** [np.arange(w)] *)
Definition arange (w : nat) : list cell :=
  map (fun j => of_Z (Z.of_nat j)) (seq 0 w).

(** [np.atleast_2d], which [np.vstack] applies to each argument. *)
Definition atleast_2d (a : ndarray) : matrix :=
  match a with
  | Nd0 x => Matrix 1 [[x]]
  | Nd1 xs => Matrix (length xs) [xs]
  | Nd2 m => m
  end.

(** [np.vstack]: at least one array, all of one column count. *)
Definition vstack (l : list ndarray) : result matrix :=
  match map atleast_2d l with
  | [] => Raise ValueError
  | m :: ms =>
      if forallb (fun m' => ncols m' =? ncols m) ms
      then Ok (Matrix (ncols m) (concat (map rows (m :: ms))))
      else Raise ValueError
  end.

(** [np.all] over a list of booleans; true on the empty list. *)
Definition all (l : list bool) : bool := forallb (fun b => b) l.

(** [np.any] *)
Definition any (l : list bool) : bool := existsb (fun b => b) l.

(** [np.isnan(arr)] on a matrix. *)
Definition isnan_grid (m : matrix) : list (list bool) :=
  map (map isnan) (rows m).

(** [np.all(np.isnan(arr))] *)
Definition all_isnan (m : matrix) : bool :=
  forallb (forallb isnan) (rows m).

(** [a & b] on two 1-dimensional boolean arrays, with broadcasting of a
    length-1 operand. *)
Definition and_ (a b : list bool) : result (list bool) :=
  if length a =? length b then Ok (map (fun p => fst p && snd p) (combine a b))
  else match a, b with
       | [x], _ => Ok (map (andb x) b)
       | _, [y] => Ok (map (fun x => x && y) a)
       | _, _ => Raise ValueError
       end.

End Np.

(** [empty(shape)] of the source: a matrix of sentinels. *)
Definition empty (n w : nat) : matrix := Np.full n w nan.

(** ** Series and containers *)

(** Modelled from the spec: [TimeBase], the Series class of
    [sktime.container], is not part of the source file.  It holds one row as a
    pair of 2-dimensional arrays [data] and [time_index]; the constructor
    [TimeBase(data, time_index)] takes the values first. *)
Record TimeBase := mkTimeBase { tb_data : matrix; tb_time_index : matrix }.

(** [TimeBase(d, i)] on two 1-dimensional rows. *)
Definition TimeBase_init (d i : list cell) : TimeBase :=
  mkTimeBase (Matrix (length d) [d]) (Matrix (length i) [i]).

Record TimeArray := mkTimeArray { data : matrix; time_index : matrix }.

(** Modelled from the spec: [check_data_index] of [sktime.container.base],
    the ShapeValidator, fails unless both arrays are 2-dimensional and
    have identical [(rows, cols)]. *)
Definition check_data_index (d i : ndarray) : result unit :=
  match d, i with
  | Nd2 a, Nd2 b => if shape_eqb a b then Ok tt else Raise ValueError
  | _, _ => Raise ValueError
  end.

(** Invariant I1. *)
Definition I1 (c : TimeArray) : Prop := shape (data c) = shape (time_index c).

(** A container as numpy stores it: both matrices rectangular, of one shape. *)
Definition well_formed (c : TimeArray) : Prop :=
  rectangular (data c) /\ rectangular (time_index c) /\ I1 c.

(** Python values at the places where the source inspects their type. *)
Inductive pyobj :=
| PyNone
| PyTimeArray (t : TimeArray)
| PyNdarray (a : ndarray)
| PyOther.

(** [TimeArray.__init__(data, time_index=None, copy=False)] *)
Definition TimeArray_init (d : pyobj) (ti : pyobj) (copy : bool)
  : result TimeArray :=
  '(d', tidx) <-
    match d with
    | PyNone => Ok (Np.full 1 0 nan, None)
    | PyTimeArray t => Ok (data t, Some (Nd2 (time_index t)))
    | PyNdarray (Nd2 m) => Ok (m, None)
    | PyNdarray _ => Raise ValueError
    | PyOther => Raise TypeError
    end ;;
  tidx' <-
    match ti with
    | PyNdarray a => Ok a
    | PyNone =>
        match tidx with
        | Some t => Ok t
        | None =>
            if nrows d' =? 1 then Ok (Nd2 (Matrix (ncols d') [Np.arange (ncols d')]))
            else if 1 <? nrows d' then
              m <- Np.vstack (map (fun _ => Nd1 (Np.arange (ncols d')))
                                  (seq 0 (nrows d'))) ;;
              Ok (Nd2 m)
            else Ok (Nd2 d')
        end
    | _ => Raise TypeError
    end ;;
  check_data_index (Nd2 d') tidx' ;;;
  match tidx' with
  | Nd2 t => Ok (mkTimeArray d' t)
  | _ => Raise ValueError
  end.

(** ** Indexing *)

(** An index after [pandas.api.indexers.check_array_indexer]: an integer, a
    slice, an integer array, a boolean array, or something else. *)
Inductive indexer :=
| IxInt (i : Z)
| IxSlice (start stop step : option Z)
| IxArray (l : list Z)
| IxMask (l : list bool)
| IxOther.

(** One integer position on an axis of length [n]: negative positions count
    from the end, anything outside [-n, n) is an [IndexError]. *)
Definition norm_index (n : nat) (i : Z) : result nat :=
  if ((0 <=? i) && (i <? Z.of_nat n))%Z then Ok (Z.to_nat i)
  else if ((- Z.of_nat n <=? i) && (i <? 0))%Z then Ok (Z.to_nat (i + Z.of_nat n))
  else Raise IndexError.

(** Python's [slice.indices(len)]. *)
Definition slice_indices (start stop step : option Z) (len : Z)
  : result (Z * Z * Z) :=
  let step := match step with Some s => s | None => 1%Z end in
  if (step =? 0)%Z then Raise ValueError
  else
    let lower := if (step <? 0)%Z then (-1)%Z else 0%Z in
    let upper := if (step <? 0)%Z then (len - 1)%Z else len in
    let clip v := if (v <? 0)%Z then Z.max (v + len) lower else Z.min v upper in
    let start := match start with
                 | None => if (step <? 0)%Z then upper else lower
                 | Some v => clip v
                 end in
    let stop := match stop with
                | None => if (step <? 0)%Z then lower else upper
                | Some v => clip v
                end in
    Ok (start, stop, step).

(** Python's [range(start, stop, step)] for a non-zero step. *)
Definition range_len (start stop step : Z) : Z :=
  if (0 <? step)%Z
  then if (start <? stop)%Z then ((stop - start - 1) / step + 1)%Z else 0%Z
  else if (stop <? start)%Z then ((start - stop - 1) / (- step) + 1)%Z else 0%Z.

Definition py_range (start stop step : Z) : list Z :=
  map (fun k => (start + Z.of_nat k * step)%Z)
      (seq 0 (Z.to_nat (range_len start stop step))).

(** The positions of the [true] entries of a mask. *)
Fixpoint mask_positions (from : nat) (l : list bool) : list nat :=
  match l with
  | [] => []
  | b :: l' => if b then from :: mask_positions (S from) l'
               else mask_positions (S from) l'
  end.

(** The rows an index selects on an axis of length [n], as numpy resolves
    it. *)
Definition positions (n : nat) (ix : indexer) : result (list nat) :=
  match ix with
  | IxInt i => p <- norm_index n i ;; Ok [p]
  | IxSlice a b c =>
      '(s, e, st) <- slice_indices a b c (Z.of_nat n) ;;
      Ok (map Z.to_nat (py_range s e st))
  | IxArray l => mapM (norm_index n) l
  | IxMask l => if length l =? n then Ok (mask_positions 0 l) else Raise IndexError
  | IxOther => Raise IndexError
  end.

Module NpIndex.

(** [arr[idx]] for an array-like index: the selected rows. *)
Definition getrows (arr : matrix) (ix : indexer) : result matrix :=
  ps <- positions (nrows arr) ix ;;
  Ok (Matrix (ncols arr) (map (fun p => nth p (rows arr) []) ps)).

(** [arr[i]] for an integer: one row, 1-dimensional. *)
Definition getrow (arr : matrix) (i : Z) : result (list cell) :=
  p <- norm_index (nrows arr) i ;; Ok (nth p (rows arr) []).

(** [np.broadcast_to(m, (n, w))] *)
Definition broadcast_to (m : matrix) (n w : nat) : result matrix :=
  if ((nrows m =? n) || (nrows m =? 1)) && ((ncols m =? w) || (ncols m =? 1))
  then
    let rs := if nrows m =? n then rows m else repeat (hd [] (rows m)) n in
    Ok (Matrix w (map (fun r => if ncols m =? w then r else repeat (hd nan r) w) rs))
  else Raise ValueError.

Fixpoint replace_nth {A} (p : nat) (x : A) (l : list A) : list A :=
  match l, p with
  | [], _ => []
  | _ :: l', 0 => x :: l'
  | y :: l', S p' => y :: replace_nth p' x l'
  end.

(** [arr[key] = v]: the value is broadcast to the selected rows and written
    in place; the array keeps its shape; where a position is selected
    twice the last write stays. *)
Definition setitem (arr : matrix) (key : indexer) (v : matrix) : result matrix :=
  ps <- positions (nrows arr) key ;;
  v' <- broadcast_to v (length ps) (ncols arr) ;;
  Ok (Matrix (ncols arr)
        (fold_left (fun acc pr => replace_nth (fst pr) (snd pr) acc)
                   (combine ps (rows v')) (rows arr))).

(** [arr[:, sel]] for a boolean column mask. *)
Fixpoint compress {A} (sel : list bool) (l : list A) : list A :=
  match sel, l with
  | b :: sel', x :: l' => if b then x :: compress sel' l' else compress sel' l'
  | _, _ => []
  end.

Definition getcols (arr : matrix) (sel : list bool) : result matrix :=
  if length sel =? ncols arr
  then Ok (Matrix (length (filter (fun b => b) sel)) (map (compress sel) (rows arr)))
  else Raise IndexError.

(** The common length of two axes under numpy's broadcasting rule. *)
Definition bcast_dim (a b : nat) : option nat :=
  if a =? b then Some a
  else if a =? 1 then Some b
  else if b =? 1 then Some a
  else None.

Fixpoint map2 {A B C} (f : A -> B -> C) (l : list A) (l' : list B) : list C :=
  match l, l' with
  | a :: t, b :: t' => f a b :: map2 f t t'
  | _, _ => []
  end.

(** An elementwise binary operation on two matrices; [None] when the shapes
    cannot be broadcast together. *)
Definition elementwise {B} (f : cell -> cell -> B) (a b : matrix)
  : option (nat * list (list B)) :=
  match bcast_dim (nrows a) (nrows b), bcast_dim (ncols a) (ncols b) with
  | Some n, Some w =>
      match broadcast_to a n w, broadcast_to b n w with
      | Ok a', Ok b' => Some (w, map2 (map2 f) (rows a') (rows b'))
      | _, _ => None
      end
  | _, _ => None
  end.

(** [np.all(a == b)].  On shapes that cannot be broadcast the comparison of
    the numpy versions that still have [np.float] gives the scalar [False]. *)
Definition all_eq (a b : matrix) : bool :=
  match elementwise cell_eq a b with
  | Some (_, g) => forallb Np.all g
  | None => false
  end.

(** [np.all(a != b)]; the scalar [True] on shapes that cannot be broadcast. *)
Definition all_ne (a b : matrix) : bool :=
  match elementwise cell_ne a b with
  | Some (_, g) => forallb Np.all g
  | None => true
  end.

(** [a + b] *)
Definition add (a b : matrix) : result matrix :=
  match elementwise cell_add a b with
  | Some (w, g) => Ok (Matrix w g)
  | None => Raise ValueError
  end.

End NpIndex.

(** ** Missingness *)

Definition isna_grid (arr : matrix) : list (list bool) := Np.isnan_grid arr.

(** [np.apply_over_axes(np.all, isna_grid(arr), 1).flatten()] *)
Definition isna_row (arr : matrix) : list bool := map Np.all (isna_grid arr).

Definition isna (self : TimeArray) : result (list bool) :=
  Np.and_ (isna_row (data self)) (isna_row (time_index self)).

(** ** [__getitem__] *)

Inductive item_result :=
| GotNone
| GotSeries (s : TimeBase)
| GotArray (t : TimeArray).

Definition getitem (self : TimeArray) (idx : indexer) : result item_result :=
  match idx with
  | IxInt i =>
      d <- NpIndex.getrow (data self) i ;;
      t <- NpIndex.getrow (time_index self) i ;;
      if forallb isnan d && forallb isnan t then Ok GotNone
      else Ok (GotSeries (TimeBase_init d t))
  | IxOther => Raise TypeError
  | _ =>
      d <- NpIndex.getrows (data self) idx ;;
      t <- NpIndex.getrows (time_index self) idx ;;
      c <- TimeArray_init (PyNdarray (Nd2 d)) (PyNdarray (Nd2 t)) false ;;
      Ok (GotArray c)
  end.

(** [self[idx]] at a place where the source goes on with a container. *)
Definition getitem_array (self : TimeArray) (idx : indexer) : result TimeArray :=
  r <- getitem self idx ;;
  match r with
  | GotArray c => Ok c
  | _ => Raise TypeError
  end.

(** ** [from_list] and [from_pandas] *)

(** One element of the input of [from_list], by the type tests of the loop. *)
Inductive item :=
| ItSeries (s : TimeBase)
| ItArray (t : TimeArray)
| ItPair (d i : ndarray)
| ItPdSeries (values index : list cell)
| ItNone
| ItOther.

(** Modelled from the spec: [ensure_2d] of [sktime.container.base] coerces its
    argument to a 1-row, n-column numeric row. *)
Definition ensure_2d (a : ndarray) : matrix := Np.atleast_2d a.

(** The body of the loop of [from_list]: what is appended to [out_d] and
    [out_i], and the entry of [widths] ([None] for [np.nan]). *)
Definition convert (ts : item)
  : result (option ndarray * option ndarray * option nat) :=
  match ts with
  | ItSeries s =>
      check_data_index (Nd2 (tb_data s)) (Nd2 (tb_time_index s)) ;;;
      Ok (Some (Nd2 (tb_data s)), Some (Nd2 (tb_time_index s)), Some (ncols (tb_data s)))
  | ItArray t =>
      check_data_index (Nd2 (data t)) (Nd2 (time_index t)) ;;;
      Ok (Some (Nd2 (data t)), Some (Nd2 (time_index t)), Some (ncols (data t)))
  | ItPair d i =>
      let d' := ensure_2d d in
      Ok (Some (Nd2 d'), Some (Nd2 (ensure_2d i)), Some (ncols d'))
  | ItPdSeries v i => Ok (Some (Nd1 v), Some (Nd1 i), Some (length v))
  | ItNone => Ok (None, None, None)
  | ItOther => Raise TypeError
  end.

Definition is_none {A} (o : option A) : bool :=
  match o with None => true | Some _ => false end.

(** [out_d[int(np.where(~mask)[0][0])].shape[1]] *)
Fixpoint first_width (mask : list bool) (out_d : list (option ndarray))
  : result nat :=
  match mask, out_d with
  | false :: _, Some (Nd2 m) :: _ => Ok (ncols m)
  | false :: _, _ :: _ => Raise IndexError
  | true :: mask', _ :: out' => first_width mask' out'
  | _, _ => Raise IndexError
  end.

(** [[np.full((1, w), np.nan) if m else d for m, d in zip(mask, out)]] *)
Definition pad_missing (w : nat) (mask : list bool) (out : list (option ndarray))
  : list (option ndarray) :=
  map (fun md : bool * option ndarray =>
         if fst md then Some (Nd2 (Np.full 1 w nan)) else snd md)
      (combine mask out).

(** [widths[~mask]] *)
Definition resolved_widths (widths : list (option nat)) : list nat :=
  flat_map (fun w => match w with Some k => [k] | None => [] end) widths.

(** [np.all(widths[~mask] == widths[~mask][0])] *)
Definition widths_agree (widths : list (option nat)) : bool :=
  match resolved_widths widths with
  | [] => true
  | w0 :: ws => forallb (fun w => w =? w0) (w0 :: ws)
  end.

(** The arrays handed to [np.vstack]; an entry still [None] there is an
    object that numpy cannot stack with numeric rows. *)
Definition stackable (out : list (option ndarray)) : result (list ndarray) :=
  mapM (fun o => match o with Some a => Ok a | None => Raise ValueError end) out.

Definition from_list (items : list item) : result TimeArray :=
  let n := length items in
  conv <- mapM convert items ;;
  let out_d := map (fun x => fst (fst x)) conv in
  let out_i := map (fun x => snd (fst x)) conv in
  let widths := map (fun x => snd x) conv in
  let mask := map is_none widths in
  if Np.all mask then
    c <- TimeArray_init (PyNdarray (Nd2 (Np.full n 0 nan))) PyNone false ;;
    getitem_array c (IxSlice None (Some (Z.of_nat n)) None)
  else
    out <- (if Np.any mask then
              w <- first_width mask out_d ;;
              Ok (pad_missing w mask out_d, pad_missing w mask out_i)
            else Ok (out_d, out_i)) ;;
    if negb (widths_agree widths) then Raise ValueError
    else
      ds <- stackable (fst out) ;;
      d <- Np.vstack ds ;;
      ts <- stackable (snd out) ;;
      t <- Np.vstack ts ;;
      TimeArray_init (PyNdarray (Nd2 d)) (PyNdarray (Nd2 t)) false.

Inductive pandas_obj :=
| PdSeries (items : list item)
| PdDataFrame (columns : list cell) (values : matrix)
| PdOther.

Definition from_pandas (d : pandas_obj) : result TimeArray :=
  match d with
  | PdSeries items => from_list items
  | PdDataFrame columns values =>
      let time_index := Matrix (length columns) (repeat columns (nrows values)) in
      TimeArray_init (PyNdarray (Nd2 values)) (PyNdarray (Nd2 time_index)) false
  | PdOther => Raise TypeError
  end.

(** ** Python string operations *)

Module Str.

Fixpoint rev_append (s acc : string) : string :=
  match s with
  | EmptyString => acc
  | String c s' => rev_append s' (String c acc)
  end.

Definition rev (s : string) : string := rev_append s EmptyString.

Definition in_chars (c : ascii) (chars : string) : bool :=
  existsb (Ascii.eqb c) (list_ascii_of_string chars).

Fixpoint lstrip (chars s : string) : string :=
  match s with
  | EmptyString => EmptyString
  | String c s' => if in_chars c chars then lstrip chars s' else s
  end.

(** [s.strip(chars)] *)
Definition strip (chars s : string) : string :=
  rev (lstrip chars (rev (lstrip chars s))).

(** [s.split(sep)] for a non-empty separator: the pieces between the
    occurrences of [sep], found from the left without overlap.  [skip] counts
    the characters of a separator still to pass over, [acc] is the piece
    read so far, reversed. *)
Fixpoint split_from (sep : string) (skip : nat) (acc : string) (s : string)
  : list string :=
  match s with
  | EmptyString => [rev acc]
  | String c s' =>
      match skip with
      | S k => split_from sep k acc s'
      | O =>
          if String.prefix sep s
          then rev acc :: split_from sep (String.length sep - 1) EmptyString s'
          else split_from sep 0 (String c acc) s'
      end
  end.

Definition split (sep s : string) : list string :=
  split_from sep 0 EmptyString s.

(** [sep.join(l)] *)
Definition join (sep : string) (l : list string) : string :=
  String.concat sep l.

End Str.

(** ** [__array__] and [astype] *)

(** [np.array(self)]: one Series per row. *)
Definition array_ (self : TimeArray) : result (list TimeBase) :=
  mapM (fun i =>
          d <- NpIndex.getrow (data self) (Z.of_nat i) ;;
          t <- NpIndex.getrow (time_index self) (Z.of_nat i) ;;
          Ok (TimeBase_init d t))
       (seq 0 (nrows (data self))).

(** [copy()] *)
Definition copy (self : TimeArray) : result TimeArray :=
  TimeArray_init (PyNdarray (Nd2 (data self))) (PyNdarray (Nd2 (time_index self))) false.

Inductive dtype := DtTime | DtStr | DtObject | DtOther.

(** The result of [astype]: a container, the object array of the rows, or the
    array of the strings [str(x)] of the rows [x]. *)
Inductive astype_result :=
| AsTimeArray (t : TimeArray)
| AsObjects (l : list TimeBase)
| AsStrOf (l : list TimeBase).

Definition astype (self : TimeArray) (dt : dtype) (copy_ : bool)
  : result astype_result :=
  match dt with
  | DtTime => if copy_ then c <- copy self ;; Ok (AsTimeArray c)
              else Ok (AsTimeArray self)
  | DtStr => l <- array_ self ;; Ok (AsStrOf l)
  | DtObject => l <- array_ self ;; Ok (AsObjects l)
  | DtOther => Raise ValueError
  end.

(** ** The text codec *)

Inductive ts_obj :=
| TsSeries (s : TimeBase)
| TsArray (t : TimeArray)
| TsOther.

Section TextCodec.

(** [str] of a float64 cell and the conversion of a string to float64 of
    [np.array(..., dtype=np.float)] belong to numpy. *)
Variable str : cell -> string.
Variable float_of_string : string -> option cell.

(** [x.data[0]] *)
Definition first_row (m : matrix) : result (list cell) := NpIndex.getrow m 0.

(** One element of the list comprehension of [to_ts]:
    ["(" + "),(".join([str(i) + "," + str(d)
                       for i, d in zip(x.data[0], x.time_index[0])]) + ")"] *)
Definition to_ts_line (x : TimeBase) : result string :=
  x_data_0 <- first_row (tb_data x) ;;
  x_time_index_0 <- first_row (tb_time_index x) ;;
  Ok ("(" ++ Str.join "),("
             (map (fun i_d => str (fst i_d) ++ "," ++ str (snd i_d))
                  (combine x_data_0 x_time_index_0))
          ++ ")")%string.

Definition to_ts (obj : ts_obj) (include_header : bool) : result (list string) :=
  if include_header then Raise NotImplementedError
  else
    objs <- match obj with
            | TsOther => Raise TypeError
            | TsArray t =>
                r <- astype t DtObject true ;;
                match r with
                | AsObjects l => Ok l
                | _ => Raise TypeError
                end
            | TsSeries s => Ok [s]
            end ;;
    mapM to_ts_line objs.

(** The transposition by [zip] of the points split at [","], unpacked into
    [index, data]: [zip] stops at the shortest split, and the unpacking
    fails unless that one has exactly two parts. *)
Definition unzip2 (parts : list (list string)) : result (list string * list string) :=
  match parts with
  | [] => Raise ValueError
  | p :: ps =>
      if fold_left Nat.min (map (@length string) ps) (length p) =? 2
      then Ok (map (fun x => nth 0 x EmptyString) parts,
               map (fun x => nth 1 x EmptyString) parts)
      else Raise ValueError
  end.

(** [np.array(strings, dtype=np.float)] *)
Definition float_array (l : list string) : result (list cell) :=
  mapM (fun s => match float_of_string s with
                 | Some x => Ok x
                 | None => Raise ValueError
                 end) l.

(** [parse_line] of [from_ts]; returns [(data, index)]. *)
Definition parse_line (line : string) : result (list cell * list cell) :=
  let line := Str.strip "()" line in
  let points := Str.split "),(" line in
  '(index, data_) <- unzip2 (map (Str.split ",") points) ;;
  d <- float_array data_ ;;
  i <- float_array index ;;
  Ok (d, i).

Definition from_ts (ts : list string) : result TimeArray :=
  l <- mapM (fun l => '(d, i) <- parse_line l ;; Ok (ItSeries (TimeBase_init d i))) ts ;;
  from_list l.

End TextCodec.

(** ** pandas helpers *)

Module Pd.

(** [pandas.api.extensions.take(arr, indices, allow_fill=...)] on the
    rows of a matrix, by the contract pandas documents for it.  With
    [allow_fill=False] it is [numpy.take]: negative positions count from the
    end and a position outside the array is an [IndexError].  With
    [allow_fill=True] negative values mark missing values: [-1] gives a row
    filled with [np.nan], any other negative value raises a [ValueError]
    (pandas checks this first), and a position at or after the row count is
    out of bounds and raises an [IndexError]. *)
Definition take (arr : matrix) (indices : list Z) (allow_fill : bool)
  : result matrix :=
  let n := nrows arr in
  if allow_fill then
    if existsb (fun i => (i <? -1)%Z) indices then Raise ValueError
    else if existsb (fun i => (Z.of_nat n <=? i)%Z) indices then Raise IndexError
    else Ok (Matrix (ncols arr)
               (map (fun i => if (i =? -1)%Z then repeat nan (ncols arr)
                              else nth (Z.to_nat i) (rows arr) [])
                    indices))
  else
    rs <- mapM (NpIndex.getrow arr) indices ;;
    Ok (Matrix (ncols arr) rs).

Fixpoint index_of (s : string) (l : list string) : option nat :=
  match l with
  | [] => None
  | x :: l' => if String.eqb s x then Some 0
               else match index_of s l' with
                    | Some k => Some (S k)
                    | None => None
                    end
  end.

(** [pandas.factorize(values)]: the codes and the distinct values, both in
    order of first appearance. *)
Fixpoint factorize_from (uniques : list string) (values : list string)
  : list nat * list string :=
  match values with
  | [] => ([], uniques)
  | v :: vs =>
      match index_of v uniques with
      | Some k => let r := factorize_from uniques vs in (k :: fst r, snd r)
      | None => let r := factorize_from (uniques ++ [v]) vs in
                (length uniques :: fst r, snd r)
      end
  end.

Definition factorize (values : list string) : list nat * list string :=
  factorize_from [] values.

End Pd.

Module NpSet.

Fixpoint insert (x : nat) (l : list nat) : list nat :=
  match l with
  | [] => [x]
  | y :: l' => if x <? y then x :: l
               else if x =? y then l
               else y :: insert x l'
  end.

(** [np.unique]: the distinct elements, ascending. *)
Definition unique (l : list nat) : list nat := fold_right insert [] l.

(** [np.isin(row, values)] *)
Definition isin (row values : list cell) : list bool :=
  map (fun x => existsb (cell_eq x) values) row.

End NpSet.

(** ** Methods of the container *)

Section Unique.

(** [str(x)] of a Series [x], which [np.array(self).astype(str)] applies to
    every row; it belongs to [TimeBase]. *)
Variable TimeBase_str : TimeBase -> string.

Definition unique (self : TimeArray) : result TimeArray :=
  objs <- array_ self ;;
  let rows_ := fst (Pd.factorize (map TimeBase_str objs)) in
  getitem_array self (IxArray (map Z.of_nat (NpSet.unique rows_))).

End Unique.

Inductive eq_other :=
| OtherArray (o : TimeArray)
| OtherPdSeries (values index : list cell).

(** [__eq__] *)
Definition TimeArray_eq (self : TimeArray) (other : eq_other) : result bool :=
  comp <- match other with
          | OtherPdSeries v i =>
              cd <- NpIndex.broadcast_to (Matrix (length v) [v])
                      (nrows (data self)) (ncols (data self)) ;;
              ci <- NpIndex.broadcast_to (Matrix (length i) [i])
                      (nrows (time_index self)) (ncols (time_index self)) ;;
              Ok (cd, ci)
          | OtherArray o => Ok (data o, time_index o)
          end ;;
  Ok (NpIndex.all_eq (data self) (fst comp)
      && NpIndex.all_eq (time_index self) (snd comp)).

(** [__add__] *)
Definition TimeArray_add (self o : TimeArray) : result TimeArray :=
  if NpIndex.all_ne (time_index self) (time_index o) then Raise ValueError
  else
    d <- NpIndex.add (data self) (data o) ;;
    TimeArray_init (PyNdarray (Nd2 d)) (PyNdarray (Nd2 (time_index self))) false.

Inductive fill :=
| FillNone
| FillSeries (s : TimeBase)
| FillOther.

(** [take(indices, allow_fill=False, fill_value=None)] *)
Definition take (self : TimeArray) (indices : list Z) (allow_fill : bool)
  (fill_value : fill) : result TimeArray :=
  d <- Pd.take (data self) indices allow_fill ;;
  t <- Pd.take (time_index self) indices allow_fill ;;
  dt <- match allow_fill, fill_value with
        | true, FillSeries s =>
            let out_of_range :=
              map (fun i => (i <? 0)%Z || (Z.of_nat (nrows d) <=? i)%Z) indices in
            md <- Np.and_ (isna_row d) out_of_range ;;
            d' <- NpIndex.setitem d (IxMask md) (tb_data s) ;;
            mt <- Np.and_ (isna_row t) out_of_range ;;
            t' <- NpIndex.setitem t (IxMask mt) (tb_time_index s) ;;
            Ok (d', t')
        | true, FillOther =>
            (* the [TypeError] object is built and dropped: no [raise] *)
            Ok (d, t)
        | _, _ => Ok (d, t)
        end ;;
  if negb (nrows (fst dt) =? 0) && Np.all_isnan (fst dt)
  then TimeArray_init (PyNdarray (Nd2 (Np.full (nrows (fst dt)) 0 nan))) PyNone false
  else TimeArray_init (PyNdarray (Nd2 (fst dt))) (PyNdarray (Nd2 (snd dt))) false.

(** [_concat_same_type] *)
Definition concat_same_type (to_concat : list pyobj) : result TimeArray :=
  xs <- mapM (fun x => match x with
                       | PyTimeArray t => Ok t
                       | _ => Raise TypeError
                       end) to_concat ;;
  let widths := map (fun x => ncols (data x)) xs in
  ref_width <- match NpSet.unique (filter (fun w => 0 <? w) widths) with
               | [] => Ok 0
               | [w] => Ok w
               | _ => Raise ValueError
               end ;;
  let pick (f : TimeArray -> matrix) (x : TimeArray) :=
    if ncols (data x) =? 0 then Nd2 (empty (nrows (data x)) ref_width)
    else Nd2 (f x) in
  d <- Np.vstack (map (pick data) xs) ;;
  t <- Np.vstack (map (pick time_index) xs) ;;
  TimeArray_init (PyNdarray (Nd2 d)) (PyNdarray (Nd2 t)) false.

(** [slice_time(time_index)] *)
Definition slice_time (self : TimeArray) (times : list cell) : result TimeArray :=
  row0 <- NpIndex.getrow (time_index self) 0 ;;
  let sel := NpSet.isin row0 times in
  d <- NpIndex.getcols (data self) sel ;;
  t <- NpIndex.getcols (time_index self) sel ;;
  TimeArray_init (PyNdarray (Nd2 d)) (PyNdarray (Nd2 t)) false.

(** ** [__setitem__] *)

Inductive setvalue :=
| SvNone
| SvSeries (s : TimeBase)
| SvArray (t : TimeArray)
| SvList (l : list item).

(** Modelled from the spec: [isna] of a Series, which [TimeBase] defines; a
    Series is missing when every value cell and every time cell is the
    sentinel. *)
Definition TimeBase_isna (s : TimeBase) : result (list bool) :=
  Np.and_ (isna_row (tb_data s)) (isna_row (tb_time_index s)).

(** The value after [value = from_list(value)]: [None], a Series or a
    container. *)
Inductive assigned :=
| AsgNone
| AsgSeries (s : TimeBase)
| AsgArray (t : TimeArray).

Definition normalize_value (value : setvalue) : result assigned :=
  match value with
  | SvNone => Ok AsgNone
  | SvSeries s => Ok (AsgSeries s)
  | SvArray t => Ok (AsgArray t)
  | SvList l => t <- from_list l ;; Ok (AsgArray t)
  end.

(** [value is None or np.all(value.isna())] *)
Definition sets_missing (value : assigned) : result bool :=
  match value with
  | AsgNone => Ok true
  | AsgSeries s => na <- TimeBase_isna s ;; Ok (Np.all na)
  | AsgArray t => na <- isna t ;; Ok (Np.all na)
  end.

(** [np.full((1, ), np.nan)], which broadcasts like a matrix of one cell. *)
Definition one_nan : matrix := Matrix 1 [[nan]].

Definition assigned_data (value : assigned) : matrix :=
  match value with
  | AsgNone => one_nan
  | AsgSeries s => tb_data s
  | AsgArray t => data t
  end.

Definition assigned_time_index (value : assigned) : matrix :=
  match value with
  | AsgNone => one_nan
  | AsgSeries s => tb_time_index s
  | AsgArray t => time_index t
  end.

(** The method mutates [self] in place: the result is the container after
    the call, and the exception if one was raised on the way.  The value
    matrix is assigned first; when the assignment of the time index raises,
    the value matrix stays assigned. *)
Definition setitem (self : TimeArray) (key : indexer) (value : setvalue)
  : TimeArray * result unit :=
  match (value' <- normalize_value value ;;
         missing <- sets_missing value' ;;
         Ok (if missing then (one_nan, one_nan)
             else (assigned_data value', assigned_time_index value'))) with
  | Raise e => (self, Raise e)
  | Ok (new_data, new_time_index) =>
      match NpIndex.setitem (data self) key new_data with
      | Raise e => (self, Raise e)
      | Ok d' =>
          match NpIndex.setitem (time_index self) key new_time_index with
          | Raise e => (mkTimeArray d' (time_index self), Raise e)
          | Ok t' => (mkTimeArray d' t', Ok tt)
          end
      end
  end.

(** ** A decimal rendering of cells, for running the codec

    numpy prints a float64 as the shortest decimal that reads back as the
    same cell.  [Repr.str] prints the exact decimal expansion instead, which
    is the same text whenever the exact expansion is that shortest one: the
    integers below 10^16 (["3.0"]), the halves, the quarters.
    [Repr.float_of_string] reads the plain decimal forms ["12.5"], ["-3"],
    ["nan"], ["inf"] and rounds to the nearest cell. *)

Module Repr.

Definition digits (n : N) : string := NilZero.string_of_uint (N.to_uint n).

(** The digits after the point of [f / p], where [p] is a power of ten above
    [f]; trailing zeros are dropped, one digit is kept. *)
Definition fraction (f p : N) : string :=
  let padded := match digits (f + p) with
                | String _ r => r
                | EmptyString => EmptyString
                end in
  match Str.rev (Str.lstrip "0" (Str.rev padded)) with
  | EmptyString => "0"%string
  | s => s
  end.

Definition str (x : cell) : string :=
  match x with
  | S754_nan => "nan"
  | S754_infinity s => if s then "-inf" else "inf"
  | S754_zero s => if s then "-0.0" else "0.0"
  | S754_finite s m e =>
      ((if s then "-" else "") ++
       match e with
       | Zneg k =>
           let p := (10 ^ Npos k)%N in
           let scaled := (Npos m * 5 ^ Npos k)%N in
           digits (scaled / p) ++ "." ++ fraction (scaled mod p) p
       | _ => digits (Npos m * 2 ^ Z.to_N e) ++ ".0"
       end)%string
  end.

(** The cell nearest to [n / 10^k], with the sign [neg]. *)
Definition of_ratio (neg : bool) (n : N) (k : nat) : cell :=
  match n, (10 ^ N.of_nat k)%N with
  | Npos m, Npos p => SFdiv prec emax (S754_finite neg m 0) (S754_finite false p 0)
  | _, _ => S754_zero neg
  end.

Definition number_of_digits (s : string) : option N :=
  option_map N.of_uint (NilEmpty.uint_of_string s).

Definition float_of_string (s : string) : option cell :=
  let signed := match s with
                | String "-" r => (true, r)
                | _ => (false, s)
                end in
  let body := snd signed in
  if String.eqb body "nan" then Some nan
  else if String.eqb body "inf" then Some (S754_infinity (fst signed))
  else
    match Str.split "." body with
    | [ip] =>
        if String.eqb ip "" then None
        else option_map (fun n => of_ratio (fst signed) n 0) (number_of_digits ip)
    | [ip; fp] =>
        if String.eqb (ip ++ fp) "" then None
        else option_map (fun n => of_ratio (fst signed) n (String.length fp))
                        (number_of_digits (ip ++ fp))
    | _ => None
    end.

(** The key of a row in [unique]: its line in the text form. *)
Definition TimeBase_str (x : TimeBase) : string :=
  match to_ts_line str x with
  | Ok s => s
  | Raise _ => EmptyString
  end.

End Repr.

(** ** Containers used in the examples *)

(** Rows, matrices and Series of integer-valued cells. *)
Definition row_of (l : list Z) : list cell := map of_Z l.

Definition matrix_of (w : nat) (l : list (list Z)) : matrix :=
  Matrix w (map row_of l).

Definition series_of (values times : list Z) : TimeBase :=
  TimeBase_init (row_of values) (row_of times).

(** One row with the values [1, 2, 3] at the times [0, 1, 2]; the same
    values at the times [0, 5, 6]; the rows A, A, B; two rows. *)
Definition c_123 : TimeArray :=
  mkTimeArray (matrix_of 3 [[1; 2; 3]]%Z) (matrix_of 3 [[0; 1; 2]]%Z).

Definition c_123_at_056 : TimeArray :=
  mkTimeArray (matrix_of 3 [[1; 2; 3]]%Z) (matrix_of 3 [[0; 5; 6]]%Z).

Definition c_aab : TimeArray :=
  mkTimeArray (matrix_of 2 [[1; 2]; [1; 2]; [5; 6]]%Z)
              (matrix_of 2 [[0; 1]; [0; 1]; [0; 1]]%Z).

Definition c_two_rows : TimeArray :=
  mkTimeArray (matrix_of 2 [[1; 2]; [5; 6]]%Z) (matrix_of 2 [[0; 1]; [0; 1]]%Z).

(** A cell of either matrix is the sentinel. *)
Definition has_nan (c : TimeArray) : bool :=
  existsb (existsb isnan) (rows (data c))
  || existsb (existsb isnan) (rows (time_index c)).

(** A position that [take] accepts when it fills: [-1] or a row. *)
Definition fill_index_ok (n : nat) (i : Z) : Prop :=
  (-1 <= i < Z.of_nat n)%Z.

(** The value matrix and the time matrix that [from_list] stacks for an
    element, in a batch of width [w]; those of [None] are one row of
    sentinels. *)
Definition item_data (w : nat) (it : item) : matrix :=
  match it with
  | ItSeries s => tb_data s
  | ItArray t => data t
  | ItPair d _ => ensure_2d d
  | _ => Np.full 1 w nan
  end.

Definition item_time_index (w : nat) (it : item) : matrix :=
  match it with
  | ItSeries s => tb_time_index s
  | ItArray t => time_index t
  | ItPair _ i => ensure_2d i
  | _ => Np.full 1 w nan
  end.

Definition is_resolved (it : item) : bool :=
  match it with
  | ItSeries _ | ItArray _ | ItPair _ _ => true
  | _ => false
  end.

(** An element of the input of [from_list] that is [None], or that resolves
    to one row of [w] columns in both matrices: a Series, a container of one
    row, a pair of rows. *)
Definition row_or_none (w : nat) (it : item) : Prop :=
  match it with
  | ItNone => True
  | ItSeries _ | ItArray _ | ItPair _ _ =>
      shape (item_data w it) = (1, w) /\ shape (item_time_index w it) = (1, w)
  | _ => False
  end.

(** The value row and the time row of such an element. *)
Definition item_values (w : nat) (it : item) : list cell :=
  hd [] (rows (item_data w it)).

Definition item_times (w : nat) (it : item) : list cell :=
  hd [] (rows (item_time_index w it)).

(** What the loop of [from_list] appends to [out_d], [out_i] and [widths]
    for one such element, and the mask [np.isnan(widths)] of a list of
    them. *)
Definition appended (w : nat) (it : item)
  : option ndarray * option ndarray * option nat :=
  if is_resolved it
  then (Some (Nd2 (item_data w it)), Some (Nd2 (item_time_index w it)), Some w)
  else (None, None, None).

Definition missing_mask (w : nat) (items : list item) : list bool :=
  map is_none (map (fun x => snd x) (map (appended w) items)).

(** The public operations that return or mutate a container. *)
Inductive operation :=
| OpInit (d ti : pyobj) (copy_ : bool)
| OpFromList (items : list item)
| OpFromPandas (d : pandas_obj)
| OpGetItem (self : TimeArray) (idx : indexer)
| OpSetItem (self : TimeArray) (key : indexer) (value : setvalue)
| OpTake (self : TimeArray) (indices : list Z) (allow_fill : bool) (fill_value : fill)
| OpConcat (to_concat : list pyobj)
| OpAdd (self o : TimeArray)
| OpCopy (self : TimeArray)
| OpAstype (self : TimeArray) (dt : dtype) (copy_ : bool)
| OpUnique (TimeBase_str : TimeBase -> string) (self : TimeArray)
| OpSliceTime (self : TimeArray) (times : list cell).

Definition returned (r : result TimeArray) : option TimeArray :=
  match r with Ok c => Some c | Raise _ => None end.

(** The container an operation leaves: the one it returns, and for
    [__setitem__] the receiver after the call, whether the call raised or
    not. *)
Definition container_after (o : operation) : option TimeArray :=
  match o with
  | OpInit d ti cp => returned (TimeArray_init d ti cp)
  | OpFromList items => returned (from_list items)
  | OpFromPandas d => returned (from_pandas d)
  | OpGetItem self idx => returned (getitem_array self idx)
  | OpSetItem self key value => Some (fst (setitem self key value))
  | OpTake self indices allow_fill fill_value =>
      returned (take self indices allow_fill fill_value)
  | OpConcat to_concat => returned (concat_same_type to_concat)
  | OpAdd self o => returned (TimeArray_add self o)
  | OpCopy self => returned (copy self)
  | OpAstype self dt cp =>
      match astype self dt cp with
      | Ok (AsTimeArray c) => Some c
      | _ => None
      end
  | OpUnique TimeBase_str self => returned (unique TimeBase_str self)
  | OpSliceTime self times => returned (slice_time self times)
  end.

(** The containers an operation is called on. *)
Definition receivers (o : operation) : list TimeArray :=
  match o with
  | OpGetItem self _ | OpSetItem self _ _ | OpTake self _ _ _ | OpCopy self
  | OpAstype self _ _ | OpUnique _ self | OpSliceTime self _ => [self]
  | OpAdd self o => [self; o]
  | OpInit _ _ _ | OpFromList _ | OpFromPandas _ | OpConcat _ => []
  end.

(** No character of [chars] occurs in [s]. *)
Fixpoint free_of (chars s : string) : bool :=
  match s with
  | EmptyString => true
  | String c s' => negb (Str.in_chars c chars) && free_of chars s'
  end.

(** A string that starts with a character outside [chars]. *)
Definition starts_outside (chars s : string) : Prop :=
  exists c s', s = String c s' /\ Str.in_chars c chars = false.

(** A cell that the text form can carry: its string holds none of the
    characters of the syntax and reads back as the cell. *)
Definition printable (str : cell -> string)
  (float_of_string : string -> option cell) (x : cell) : Prop :=
  free_of "()," (str x) = true /\ float_of_string (str x) = Some x.

(** The text of one pair that [to_ts] writes. *)
Definition pair_text (str : cell -> string) (vt : cell * cell) : string :=
  (str (fst vt) ++ "," ++ str (snd vt))%string.

Definition both_printable (str : cell -> string)
  (float_of_string : string -> option cell) (vt : cell * cell) : Prop :=
  printable str float_of_string (fst vt) /\ printable str float_of_string (snd vt).

Definition cells_of (c : TimeArray) : list cell :=
  concat (rows (data c)) ++ concat (rows (time_index c)).

(** The container with the two matrices exchanged. *)
Definition exchanged (c : TimeArray) : TimeArray :=
  mkTimeArray (time_index c) (data c).

(** ** Further methods of the source *)

(** [__len__]: [self.shape[0]], the row count of the value matrix. *)
Definition len (self : TimeArray) : nat := nrows (data self).

(** [size]: [self.data.size]. *)
Definition size (self : TimeArray) : nat := nrows (data self) * ncols (data self).

(** The argument of [_from_sequence]: a container, or a sequence of
    elements. *)
Inductive scalars :=
| ScArray (t : TimeArray)
| ScList (l : list item).

(** [_from_sequence(scalars)] *)
Definition from_sequence (sc : scalars) : result TimeArray :=
  match sc with
  | ScArray t => Ok t
  | ScList l => from_list l
  end.

(** [_values_for_factorize]: the lines of [to_ts(self, False)], and [None]
    as missing marker. *)
Definition values_for_factorize (str : cell -> string) (self : TimeArray)
  : result (list string * option string) :=
  vals <- to_ts str (TsArray self) false ;; Ok (vals, None).

(** [_from_factorized(values, original)] *)
Definition from_factorized (float_of_string : string -> option cell)
  (values : list string) (original : TimeArray) : result TimeArray :=
  from_ts float_of_string values.

(** [check_equal_index]: the value it returns (and stores in
    [_equal_index]).  The time index of a container is 2-dimensional;
    [self.time_index == self.time_index[0]] compares every row with the first
    one. *)
Definition check_equal_index (self : TimeArray) : result bool :=
  if nrows (time_index self) =? 0 then Ok true
  else
    row0 <- NpIndex.getrow (time_index self) 0 ;;
    Ok (NpIndex.all_eq (time_index self) (Matrix (length row0) [row0])).

(** The argument [name] of [tabularise]: [None], a string, or the boolean
    that [tabularize] passes in its place. *)
Inductive name_arg :=
| NameNone
| NameStr (s : string)
| NameBool (b : bool).

(** What [tabularise] returns: the value matrix, or a data frame with its
    column labels. *)
Inductive tabular :=
| TabArray (m : matrix)
| TabFrame (columns : list string) (values : matrix).

(** [tabularise(name=None, return_array=False)].  [name + "_"] is a
    [TypeError] when [name] is a boolean; [pd.DataFrame] refuses column labels
    that do not match the columns of the data. *)
Definition tabularise (str : cell -> string) (self : TimeArray)
  (name : name_arg) (return_array : bool) : result tabular :=
  let name := match name with NameNone => NameStr "dim" | _ => name end in
  if return_array then Ok (TabArray (data self))
  else
    row0 <- NpIndex.getrow (time_index self) 0 ;;
    columns <- mapM (fun i => match name with
                              | NameStr s => Ok (s ++ "_" ++ str i)%string
                              | _ => Raise TypeError
                              end) row0 ;;
    if length columns =? ncols (data self)
    then Ok (TabFrame columns (data self))
    else Raise ValueError.

(** [tabularize(return_array=False)]: [self.tabularise(return_array)], which
    binds the flag to the first parameter, [name]. *)
Definition tabularize (str : cell -> string) (self : TimeArray)
  (return_array : bool) : result tabular :=
  tabularise str self (NameBool return_array) false.

(** The widths that [np.isnan(widths)] sees for an element. *)
Definition item_width (it : item) : option nat :=
  match it with
  | ItSeries s => Some (ncols (tb_data s))
  | ItArray t => Some (ncols (data t))
  | ItPair d _ => Some (ncols (ensure_2d d))
  | ItPdSeries v _ => Some (length v)
  | ItNone | ItOther => None
  end.

(** What the loop of [from_list] appends for an element that it accepts. *)
Definition accepted_entry (it : item)
  : option ndarray * option ndarray * option nat :=
  (match it with
   | ItSeries s => Some (Nd2 (tb_data s))
   | ItArray t => Some (Nd2 (data t))
   | ItPair d _ => Some (Nd2 (ensure_2d d))
   | ItPdSeries v _ => Some (Nd1 v)
   | _ => None
   end,
   match it with
   | ItSeries s => Some (Nd2 (tb_time_index s))
   | ItArray t => Some (Nd2 (time_index t))
   | ItPair _ i => Some (Nd2 (ensure_2d i))
   | ItPdSeries _ i => Some (Nd1 i)
   | _ => None
   end,
   item_width it).

(** The rows that [_concat_same_type] stacks for one container, in a batch
    of width [w]: sentinel rows for a container without columns, its own
    rows otherwise. *)
Definition stacked_rows (w : nat) (f : TimeArray -> matrix) (x : TimeArray)
  : list (list cell) :=
  if ncols (data x) =? 0 then repeat (repeat nan w) (nrows (data x))
  else rows (f x).

(** A Python object that is no container. *)
Definition not_a_container (x : pyobj) : Prop :=
  match x with PyTimeArray _ => False | _ => True end.

(** A container that satisfies I1 and has no column, or [w] columns. *)
Definition fits_width (w : nat) (x : TimeArray) : Prop :=
  I1 x /\ (ncols (data x) = 0 \/ ncols (data x) = w).

(** An index of [numpy] on an axis of length [n]. *)
Definition index_ok (n : nat) (i : Z) : Prop :=
  (- Z.of_nat n <= i < Z.of_nat n)%Z.

(** The row that an index of [numpy] selects on an axis of length [n]. *)
Definition row_position (n : nat) (i : Z) : nat :=
  if (i <? 0)%Z then Z.to_nat (i + Z.of_nat n) else Z.to_nat i.

(** The row that [take] with [allow_fill=True] gives for a position: a row
    of sentinels for [-1]. *)
Definition taken_row (arr : matrix) (i : Z) : list cell :=
  if (i =? -1)%Z then repeat nan (ncols arr) else nth (Z.to_nat i) (rows arr) [].

(** The same row after the fill row [x] was written under the mask
    [isna_row(taken) & out_of_range], where [out_of_range] compares the
    position with [k], the number of rows taken. *)
Definition filled_row (k : nat) (x : list cell) (arr : matrix) (i : Z)
  : list cell :=
  if forallb isnan (taken_row arr i) && ((i <? 0)%Z || (Z.of_nat k <=? i)%Z)
  then x else taken_row arr i.

(** * Properties *)

(** ** The error monad *)

Lemma bind_Ok {A B} (r : result A) (k : A -> result B) (b : B) :
  bind r k = Ok b -> exists a, r = Ok a /\ k a = Ok b.
Proof. destruct r as [a|e]; simpl; intros H; [eauto | discriminate]. Qed.

Tactic Notation "inv_bind" hyp(H) "as" ident(a) ident(Ha) :=
  apply bind_Ok in H; destruct H as (a & Ha & H).

Lemma mapM_Ok_map {A B} (f : A -> result B) (g : A -> B) (l : list A) :
  Forall (fun a => f a = Ok (g a)) l -> mapM f l = Ok (map g l).
Proof.
  induction 1 as [|a l Ha _ IH]; simpl; [reflexivity|].
  now rewrite Ha; simpl; rewrite IH.
Qed.

(** ** The constructor *)

Lemma check_data_index_Ok (d : matrix) (t : ndarray) :
  check_data_index (Nd2 d) t = Ok tt ->
  exists t', t = Nd2 t' /\ shape d = shape t'.
Proof.
  destruct t as [x|xs|t']; simpl; try discriminate.
  unfold shape_eqb, shape.
  destruct (nrows d =? nrows t') eqn:Hr; simpl; try discriminate.
  destruct (ncols d =? ncols t') eqn:Hc; simpl; try discriminate.
  apply Nat.eqb_eq in Hr, Hc. intros _. exists t'. now rewrite Hr, Hc.
Qed.

Lemma init_I1 (d ti : pyobj) (cp : bool) (c : TimeArray) :
  TimeArray_init d ti cp = Ok c -> I1 c.
Proof.
  unfold TimeArray_init. intros H.
  inv_bind H as p Hp. destruct p as [d' tidx].
  inv_bind H as tidx' Htidx. inv_bind H as u Hu. destruct u.
  apply check_data_index_Ok in Hu as (t' & -> & Hs).
  inversion H; subst. exact Hs.
Qed.

Lemma init_matrices (d t : matrix) (cp : bool) :
  shape d = shape t ->
  TimeArray_init (PyNdarray (Nd2 d)) (PyNdarray (Nd2 t)) cp = Ok (mkTimeArray d t).
Proof.
  unfold shape. intros H; inversion H as [[Hr Hc]].
  unfold TimeArray_init; simpl. unfold shape_eqb.
  now rewrite Hr, Hc, !Nat.eqb_refl.
Qed.

Lemma getitem_array_I1 (self : TimeArray) (idx : indexer) (c : TimeArray) :
  getitem_array self idx = Ok c -> I1 c.
Proof.
  unfold getitem_array. intros H. inv_bind H as r Hr.
  destruct r as [|s|t]; try discriminate. inversion H; subst.
  unfold getitem in Hr.
  destruct idx; try discriminate;
    inv_bind Hr as d Hd; inv_bind Hr as t Ht.
  - destruct (forallb isnan d && forallb isnan t); discriminate.
  - inv_bind Hr as c' Hc. inversion Hr; subst. eapply init_I1; eassumption.
  - inv_bind Hr as c' Hc. inversion Hr; subst. eapply init_I1; eassumption.
  - inv_bind Hr as c' Hc. inversion Hr; subst. eapply init_I1; eassumption.
Qed.

(** C10: constructing [TimeArray(None)] without a time index gives a
    container of one row and no column in both matrices, and [isna] reports
    that row as missing. *)
Theorem init_none_is_one_missing_row (copy_ : bool) :
  exists c,
    TimeArray_init PyNone PyNone copy_ = Ok c
    /\ shape (data c) = (1, 0)
    /\ shape (time_index c) = (1, 0)
    /\ isna c = Ok [true].
Proof. eexists; repeat split. Qed.

(** ** The text codec, on a container of one row *)

(** The line of a Series with the values [vs] at the times [ts]. *)
Lemma to_ts_line_pairs (str : cell -> string) (vs ts : list cell) :
  to_ts_line str (TimeBase_init vs ts)
  = Ok ("(" ++ Str.join "),("
               (map (fun vt => str (fst vt) ++ "," ++ str (snd vt)) (combine vs ts))
            ++ ")")%string.
Proof. reflexivity. Qed.

(** C2: the line that [to_ts] writes for the row with values [1, 2, 3] at
    times [0, 1, 2] has the value first and the time second in every pair:
    [zip(x.data[0], x.time_index[0])] binds [i] to the value and [d] to the
    time. *)
Theorem to_ts_writes_value_before_time :
  to_ts Repr.str (TsArray c_123) false
  = Ok ["(1.0,0.0),(2.0,1.0),(3.0,2.0)"%string].
Proof. vm_compute. reflexivity. Qed.

(** C1: reading back what [to_ts] wrote gives the container with the two
    matrices exchanged, which [__eq__] tells apart from the original. *)
Theorem round_trip_exchanges_values_and_times :
  to_ts Repr.str (TsArray c_123) false
  = Ok ["(1.0,0.0),(2.0,1.0),(3.0,2.0)"%string]
  /\ from_ts Repr.float_of_string ["(1.0,0.0),(2.0,1.0),(3.0,2.0)"%string]
     = Ok (mkTimeArray (matrix_of 3 [[0; 1; 2]]%Z) (matrix_of 3 [[1; 2; 3]]%Z))
  /\ TimeArray_eq (mkTimeArray (matrix_of 3 [[0; 1; 2]]%Z) (matrix_of 3 [[1; 2; 3]]%Z))
                  (OtherArray c_123)
     = Ok false.
Proof. repeat split; vm_compute; reflexivity. Qed.

(** ** [take] with a fill value that is no Series *)

Lemma take_fill_other (self : TimeArray) (indices : list Z) :
  take self indices true FillOther = take self indices true FillNone.
Proof. reflexivity. Qed.

(** C3: [take] with [allow_fill=True] and a fill value that is neither a
    Series nor [None] returns a container: the [TypeError] is built, and
    never raised. *)
Theorem take_invalid_fill_returns_container :
  take c_123 [0%Z] true FillOther = Ok c_123.
Proof. vm_compute. reflexivity. Qed.

(** ** [__add__] *)

(** [np.all] of an empty comparison is true: two containers without a time
    cell are never added. *)
Example add_rejects_empty_time_index :
  TimeArray_add (mkTimeArray (Np.full 1 0 nan) (Np.full 1 0 nan))
                (mkTimeArray (Np.full 1 0 nan) (Np.full 1 0 nan))
  = Raise ValueError.
Proof. reflexivity. Qed.

(** The error is raised when every time cell differs. *)
Example add_rejects_shifted_time_index :
  TimeArray_add c_123 (mkTimeArray (matrix_of 3 [[1; 2; 3]]%Z)
                                   (matrix_of 3 [[1; 2; 3]]%Z))
  = Raise ValueError.
Proof. vm_compute. reflexivity. Qed.

(** C4: two containers whose time indices agree in the first cell only are
    added without an error: the guard is [np.all(... != ...)], which holds
    only when every cell differs. *)
Theorem add_accepts_partly_different_time_index :
  NpIndex.all_eq (time_index c_123) (time_index c_123_at_056) = false
  /\ TimeArray_add c_123 c_123_at_056
     = Ok (mkTimeArray (matrix_of 3 [[2; 4; 6]]%Z) (matrix_of 3 [[0; 1; 2]]%Z)).
Proof. split; vm_compute; reflexivity. Qed.

(** ** [unique] *)

Lemma array_c_aab :
  array_ c_aab
  = Ok [series_of [1; 2] [0; 1]; series_of [1; 2] [0; 1]; series_of [5; 6] [0; 1]]%Z.
Proof. vm_compute. reflexivity. Qed.

(** C5: on the rows A, A, B [unique] returns A, A: [np.unique] of the codes
    [0, 0, 1] is [0, 1], used as row positions.  Whatever string [str] gives a
    Series, the result is A alone or A, A, and never holds B. *)
Theorem unique_returns_leading_rows :
  to_ts Repr.str (TsArray c_aab) false
  = Ok ["(1.0,0.0),(2.0,1.0)"; "(1.0,0.0),(2.0,1.0)"; "(5.0,0.0),(6.0,1.0)"]%string
  /\ unique Repr.TimeBase_str c_aab
     = Ok (mkTimeArray (matrix_of 2 [[1; 2]; [1; 2]]%Z)
                       (matrix_of 2 [[0; 1]; [0; 1]]%Z))
  /\ forall TimeBase_str : TimeBase -> string,
       unique TimeBase_str c_aab
       = Ok (mkTimeArray (matrix_of 2 [[1; 2]]%Z) (matrix_of 2 [[0; 1]]%Z))
       \/ unique TimeBase_str c_aab
          = Ok (mkTimeArray (matrix_of 2 [[1; 2]; [1; 2]]%Z)
                            (matrix_of 2 [[0; 1]; [0; 1]]%Z)).
Proof.
  split; [vm_compute; reflexivity|]. split; [vm_compute; reflexivity|].
  intros key. unfold unique. rewrite array_c_aab. cbn [bind map].
  unfold Pd.factorize. cbn [Pd.factorize_from Pd.index_of app length fst snd].
  rewrite String.eqb_refl. cbn [Pd.factorize_from Pd.index_of app length fst snd].
  destruct (String.eqb (key (series_of [5; 6] [0; 1])%Z)
                       (key (series_of [1; 2] [0; 1])%Z));
    cbn [Pd.factorize_from Pd.index_of app length fst snd];
    [left | right]; vm_compute; reflexivity.
Qed.


(** ** [__eq__] *)

Lemma cell_eq_refl (x : cell) : cell_eq x x = negb (isnan x).
Proof.
  unfold cell_eq, SFeqb.
  destruct x as [[]|[]| |[] m e]; simpl; try reflexivity;
    now rewrite Z.compare_refl, Pos.compare_cont_refl.
Qed.

Lemma cell_eq_sym (x y : cell) : cell_eq x y = cell_eq y x.
Proof.
  unfold cell_eq, SFeqb.
  destruct x as [[]|[]| |[] m e], y as [[]|[]| |[] m' e']; simpl; try reflexivity;
    rewrite (Z.compare_antisym e e');
    pose proof (Pos.compare_cont_antisym m m' Eq) as Hm; simpl in Hm;
    rewrite <- Hm;
    destruct (e ?= e')%Z; simpl; try reflexivity;
    destruct (Pos.compare_cont Eq m m'); reflexivity.
Qed.

Lemma bcast_dim_sym (a b : nat) : NpIndex.bcast_dim a b = NpIndex.bcast_dim b a.
Proof.
  unfold NpIndex.bcast_dim. rewrite (Nat.eqb_sym b a).
  destruct (a =? b) eqn:Hab.
  - apply Nat.eqb_eq in Hab. now subst.
  - destruct (a =? 1) eqn:Ha, (b =? 1) eqn:Hb; try reflexivity.
    apply Nat.eqb_eq in Ha, Hb. apply Nat.eqb_neq in Hab. lia.
Qed.

Lemma map2_flip {A B C} (f : A -> B -> C) (g : B -> A -> C) :
  (forall a b, f a b = g b a) ->
  forall l l', NpIndex.map2 f l l' = NpIndex.map2 g l' l.
Proof.
  intros Hfg. induction l as [|a l IH]; destruct l' as [|b l']; simpl;
    try reflexivity.
  now rewrite Hfg, IH.
Qed.

Lemma all_eq_sym (a b : matrix) : NpIndex.all_eq a b = NpIndex.all_eq b a.
Proof.
  unfold NpIndex.all_eq, NpIndex.elementwise.
  rewrite (bcast_dim_sym (nrows b)), (bcast_dim_sym (ncols b)).
  destruct (NpIndex.bcast_dim (nrows a) (nrows b)) as [n|]; [|reflexivity].
  destruct (NpIndex.bcast_dim (ncols a) (ncols b)) as [w|]; [|reflexivity].
  destruct (NpIndex.broadcast_to a n w) as [a'|], (NpIndex.broadcast_to b n w) as [b'|];
    try reflexivity.
  f_equal. apply map2_flip. intros r r'. apply map2_flip. apply cell_eq_sym.
Qed.

Lemma all_eq_refl (m : matrix) :
  NpIndex.all_eq m m = negb (existsb (existsb isnan) (rows m)).
Proof.
  unfold NpIndex.all_eq, NpIndex.elementwise, NpIndex.bcast_dim, NpIndex.broadcast_to.
  rewrite !Nat.eqb_refl. simpl. rewrite map_id.
  induction (rows m) as [|r rs IH]; simpl; [reflexivity|].
  rewrite IH, negb_orb. f_equal.
  clear. induction r as [|x r IH]; simpl; [reflexivity|].
  unfold Np.all in *. simpl. now rewrite IH, cell_eq_refl, negb_orb.
Qed.

(** C6, the counterexample: the container that [from_list] builds from a
    Series and [None] holds sentinel cells and is not equal to itself. *)
Lemma equals_is_not_reflexive_on_sentinels :
  exists c,
    from_list [ItSeries (series_of [1; 2; 3] [0; 1; 2])%Z; ItNone] = Ok c
    /\ TimeArray_eq c (OtherArray c) = Ok false.
Proof. eexists. split; vm_compute; reflexivity. Qed.

(** C6, amended: [equals] is symmetric on every two containers, and a
    container equals itself exactly when none of its cells is the sentinel. *)
Theorem equals_symmetric_and_reflexive_without_sentinel :
  (forall a b, TimeArray_eq a (OtherArray b) = TimeArray_eq b (OtherArray a))
  /\ (forall c, TimeArray_eq c (OtherArray c) = Ok (negb (has_nan c))).
Proof.
  split.
  - intros a b. unfold TimeArray_eq; simpl.
    now rewrite (all_eq_sym (data a)), (all_eq_sym (time_index a)).
  - intros c. unfold TimeArray_eq, has_nan; simpl.
    now rewrite !all_eq_refl, negb_orb.
Qed.


(** ** [take] with fill and no fill value *)

Lemma map_const_seq {A} (x : A) (k a : nat) :
  map (fun _ => x) (seq a k) = repeat x k.
Proof. revert a; induction k; simpl; intros; [reflexivity | now rewrite IHk]. Qed.

Lemma concat_repeat_singleton {A} (x : A) (k : nat) :
  concat (repeat [x] k) = repeat x k.
Proof. induction k; simpl; congruence. Qed.

Lemma init_no_columns (k : nat) (cp : bool) :
  TimeArray_init (PyNdarray (Nd2 (Np.full k 0 nan))) PyNone cp
  = Ok (mkTimeArray (Np.full k 0 nan) (Np.full k 0 nan)).
Proof.
  unfold TimeArray_init, Np.full; simpl. unfold nrows; simpl.
  rewrite repeat_length.
  destruct (k =? 1) eqn:H1.
  - apply Nat.eqb_eq in H1; subst. reflexivity.
  - destruct (1 <? k) eqn:H2.
    + rewrite map_const_seq. unfold Np.vstack.
      destruct k as [|k]; [discriminate|]. simpl.
      rewrite map_repeat; simpl. change (Np.arange 0) with (@nil cell).
      assert (Hall : forallb (fun m' => ncols m' =? 0) (repeat (Matrix 0 [[]]) k) = true).
      { clear. induction k; simpl; auto. }
      rewrite Hall; simpl. rewrite map_repeat; simpl.
      rewrite concat_repeat_singleton. unfold shape_eqb, nrows; simpl.
      now rewrite !repeat_length, Nat.eqb_refl.
    + apply Nat.eqb_neq in H1. apply Nat.ltb_ge in H2.
      assert (k = 0) by lia; subst. reflexivity.
Qed.

Lemma isna_no_columns (k : nat) :
  isna (mkTimeArray (Np.full k 0 nan) (Np.full k 0 nan)) = Ok (repeat true k).
Proof.
  unfold isna, isna_row, isna_grid, Np.isnan_grid, Np.and_; simpl.
  rewrite !map_repeat; simpl. rewrite Nat.eqb_refl. f_equal.
  induction k; simpl; congruence.
Qed.

Lemma fill_indices_ok_iff (n : nat) (indices : list Z) :
  Forall (fill_index_ok n) indices
  <-> existsb (fun i => (i <? -1)%Z) indices = false
      /\ existsb (fun i => (Z.of_nat n <=? i)%Z) indices = false.
Proof.
  unfold fill_index_ok. induction indices as [|i l IH]; simpl.
  - split; auto.
  - rewrite !orb_false_iff, Z.ltb_ge, Z.leb_gt. split.
    + intros H; inversion H; subst. apply IH in H3. intuition lia.
    + intros [[H1 H2] [H3 H4]]. constructor; [lia|]. apply IH; auto.
Qed.

Lemma nth_error_combine {A B} (l : list A) (l' : list B) (j : nat) a b :
  nth_error l j = Some a -> nth_error l' j = Some b ->
  nth_error (combine l l') j = Some (a, b).
Proof.
  revert l l'; induction j; intros [|x l] [|y l']; simpl; try discriminate.
  - now intros [= ->] [= ->].
  - apply IHj.
Qed.

Lemma all_isnan_repeat (w : nat) : Np.all (map isnan (repeat nan w)) = true.
Proof. induction w; simpl; auto. Qed.

(** The rows that [Pd.take] gathers when it fills. *)
Lemma take_fill_rows (arr : matrix) (indices : list Z) :
  Forall (fill_index_ok (nrows arr)) indices ->
  exists rs,
    Pd.take arr indices true = Ok (Matrix (ncols arr) rs)
    /\ length rs = length indices
    /\ forall j, nth_error indices j = Some (-1)%Z ->
                 nth_error (isna_row (Matrix (ncols arr) rs)) j = Some true.
Proof.
  intros H. apply fill_indices_ok_iff in H as [H1 H2].
  unfold Pd.take. rewrite H1, H2. eexists. split; [reflexivity|].
  split; [apply length_map|].
  intros j Hj. unfold isna_row, isna_grid, Np.isnan_grid; simpl.
  rewrite !nth_error_map, Hj; simpl. now rewrite all_isnan_repeat.
Qed.

(** C8, the counterexample: on a container of two rows [take([5],
    allow_fill=True)] raises; it returns no container with a missing row. *)
Lemma take_fill_rejects_position_after_the_end :
  take c_two_rows [5%Z] true FillNone = Raise IndexError
  /\ ~ (exists r, take c_two_rows [5%Z] true FillNone = Ok r
                  /\ isna r = Ok [true]).
Proof.
  split; [vm_compute; reflexivity|].
  intros (r & H & _). vm_compute in H. discriminate.
Qed.

(** C8, amended: with [allow_fill=True] and no fill value, [take] returns a
    container when every position is [-1] or a row of the container, and
    every position [-1] is a missing row of the result; any other position
    makes the call fail. *)
Theorem take_fill_none_marks_minus_one_missing
  (self : TimeArray) (indices : list Z) :
  I1 self ->
  (Forall (fill_index_ok (nrows (data self))) indices ->
   exists r na,
     take self indices true FillNone = Ok r
     /\ isna r = Ok na
     /\ length na = length indices
     /\ forall j, nth_error indices j = Some (-1)%Z -> nth_error na j = Some true)
  /\ (~ Forall (fill_index_ok (nrows (data self))) indices ->
      returns (take self indices true FillNone) = false).
Proof.
  intros HI. unfold I1, shape in HI. inversion HI as [[Hr Hc]]. split.
  - intros Hok.
    destruct (take_fill_rows (data self) Hok) as (rd & Hd & Hld & Hnd).
    rewrite Hr in Hok.
    destruct (take_fill_rows (time_index self) Hok) as (rt & Ht & Hlt & Hnt).
    unfold take. rewrite Hd, Ht. simpl.
    destruct (negb (nrows (Matrix (ncols (data self)) rd) =? 0)
              && Np.all_isnan (Matrix (ncols (data self)) rd)) eqn:Hcollapse.
    + rewrite init_no_columns. eexists. eexists.
      split; [reflexivity|]. split; [apply isna_no_columns|].
      unfold nrows; simpl. rewrite repeat_length. split; [exact Hld|].
      intros j Hj. apply nth_error_repeat. rewrite Hld.
      apply nth_error_Some. congruence.
    + rewrite init_matrices
        by (unfold shape, nrows; simpl; congruence).
      assert (Hlen : length (isna_row (Matrix (ncols (data self)) rd))
                     = length (isna_row (Matrix (ncols (time_index self)) rt))).
      { unfold isna_row, isna_grid, Np.isnan_grid; simpl.
        rewrite !length_map. congruence. }
      eexists. eexists. split; [reflexivity|].
      unfold isna, Np.and_; simpl. rewrite Hlen, Nat.eqb_refl.
      split; [reflexivity|]. split.
      * rewrite length_map, length_combine, <- Hlen, Nat.min_id.
        unfold isna_row, isna_grid, Np.isnan_grid; simpl.
        now rewrite !length_map.
      * intros j Hj. rewrite nth_error_map.
        rewrite (nth_error_combine _ _ _ (Hnd j Hj) (Hnt j Hj)). reflexivity.
  - intros Hbad. unfold take, Pd.take.
    destruct (existsb (fun i => (i <? -1)%Z) indices) eqn:H1; [reflexivity|].
    destruct (existsb (fun i => (Z.of_nat (nrows (data self)) <=? i)%Z) indices)
      eqn:H2; [reflexivity|].
    exfalso. apply Hbad. apply fill_indices_ok_iff. auto.
Qed.

(** [take([-1, 1], allow_fill=True)] on a container of two rows. *)
Lemma take_fill_none_marks_minus_one_missing_witness :
  I1 c_two_rows
  /\ Forall (fill_index_ok (nrows (data c_two_rows))) [-1; 1]%Z
  /\ exists r,
       take c_two_rows [-1; 1]%Z true FillNone = Ok r
       /\ isna r = Ok [true; false].
Proof.
  assert (HI : I1 c_two_rows) by reflexivity.
  assert (Hok : Forall (fill_index_ok (nrows (data c_two_rows))) [-1; 1]%Z).
  { repeat constructor; vm_compute; intuition discriminate. }
  split; [exact HI|]. split; [exact Hok|].
  destruct (proj1 (take_fill_none_marks_minus_one_missing [-1; 1]%Z HI) Hok)
    as (r & na & Hr & _).
  exists r. split; [exact Hr|].
  vm_compute in Hr. inversion Hr; subst. vm_compute. reflexivity.
Defined.

(** [take([-1], allow_fill=True)] on a container of two rows: the gathered
    matrix is all sentinel, and the result is the container of one row and no
    column. *)
Example take_fill_minus_one :
  take c_two_rows [-1]%Z true FillNone
  = Ok (mkTimeArray (Np.full 1 0 nan) (Np.full 1 0 nan))
  /\ isna (mkTimeArray (Np.full 1 0 nan) (Np.full 1 0 nan)) = Ok [true].
Proof. split; vm_compute; reflexivity. Qed.


(** ** [from_list] on rows and [None] *)

Section FromListPadding.

Variable w : nat.

Local Abbreviation conv := (appended w).
Local Abbreviation mask := (missing_mask w).

Lemma convert_rows (items : list item) :
  Forall (row_or_none w) items ->
  mapM convert items = Ok (map conv items).
Proof.
  intros H. apply mapM_Ok_map. eapply Forall_impl; [|exact H].
  intros [s|t|d i|v i| |]; simpl; try tauto; unfold appended; simpl;
    unfold shape; intros [Hd Ht]; injection Hd as Hr Hc;
    injection Ht as Hr' Hc'; unfold shape_eqb;
    try rewrite Hr, Hr'; rewrite Hc; try rewrite Hc', !Nat.eqb_refl;
    reflexivity.
Qed.

Lemma mask_not_all (items : list item) :
  (exists it, In it items /\ is_resolved it = true) ->
  Np.all (mask items) = false.
Proof.
  intros (it & Hin & Hres). unfold missing_mask, Np.all.
  induction items as [|it' items IH]; [destruct Hin|].
  destruct Hin as [-> | Hin]; simpl.
  - unfold appended. now rewrite Hres.
  - rewrite (IH Hin). apply andb_false_r.
Qed.

Lemma first_width_rows (items : list item) :
  Forall (row_or_none w) items ->
  (exists it, In it items /\ is_resolved it = true) ->
  first_width (mask items) (map (fun x => fst (fst x)) (map conv items)) = Ok w.
Proof.
  intros H (it & Hin & Hres). unfold missing_mask.
  induction H as [|it' items Hit _ IH]; [destruct Hin|].
  assert (Hw : forall m m' : matrix,
             shape m = (1, w) /\ shape m' = (1, w) -> Ok (ncols m) = Ok w :> result nat)
    by (unfold shape; intros m m' [Hm _]; now inversion Hm).
  destruct it' as [s'|t|d i|v i| |]; simpl in Hit; try tauto; simpl;
    [exact (Hw _ _ Hit) | exact (Hw _ _ Hit) | exact (Hw _ _ Hit) |].
  destruct Hin as [<- | Hin]; [discriminate|]. now apply IH.
Qed.

Section Stacked.

(** One of the two lists [out_d], [out_i]. *)
Variable f : item -> matrix.
Variable sel : option ndarray * option ndarray * option nat -> option ndarray.
Hypothesis sel_resolved :
  forall it, is_resolved it = true -> sel (conv it) = Some (Nd2 (f it)).
Hypothesis f_none : f ItNone = Np.full 1 w nan.

Lemma pad_missing_rows (items : list item) :
  Forall (row_or_none w) items ->
  stackable (pad_missing w (mask items) (map sel (map conv items)))
  = Ok (map (fun it => Nd2 (f it)) items).
Proof.
  intros H. unfold missing_mask. induction H as [|it items Hit _ IH]; [reflexivity|].
  unfold pad_missing, stackable in *. simpl.
  destruct it as [s'|t|d i|v i| |]; simpl in Hit; try tauto; simpl;
    try (rewrite sel_resolved by reflexivity; simpl; now rewrite IH).
  now rewrite IH, f_none.
Qed.

Lemma stackable_resolved (items : list item) :
  Forall (row_or_none w) items ->
  Np.any (mask items) = false ->
  stackable (map sel (map conv items))
  = Ok (map (fun it => Nd2 (f it)) items).
Proof.
  intros H. unfold stackable, Np.any, missing_mask.
  induction H as [|it items Hit _ IH]; [reflexivity|].
  destruct it as [s'|t|d i|v i| |]; simpl in Hit; try tauto; simpl;
    try discriminate;
    intros Hany; rewrite sel_resolved by reflexivity; simpl; now rewrite IH.
Qed.

Lemma stack_input (items : list item) :
  Forall (row_or_none w) items ->
  stackable (if Np.any (mask items)
             then pad_missing w (mask items) (map sel (map conv items))
             else map sel (map conv items))
  = Ok (map (fun it => Nd2 (f it)) items).
Proof.
  intros H. destruct (Np.any _) eqn:Hany.
  - now apply pad_missing_rows.
  - now apply stackable_resolved.
Qed.

End Stacked.

Lemma widths_agree_rows (items : list item) :
  widths_agree (map (fun x => snd x) (map conv items)) = true.
Proof.
  unfold widths_agree.
  assert (H : Forall (fun k => k = w)
                     (resolved_widths (map (fun x => snd x) (map conv items)))).
  { induction items as [|[s|t|d i|v i| |] items IH]; simpl; auto. }
  destruct (resolved_widths _) as [|w0 ws]; [reflexivity|].
  inversion H; subst. simpl. rewrite Nat.eqb_refl. simpl.
  apply forallb_forall. intros k Hk. apply Nat.eqb_eq.
  rewrite Forall_forall in H3. auto.
Qed.

Lemma concat_single_rows (ms : list matrix) :
  Forall (fun m => shape m = (1, w)) ms ->
  concat (map rows ms) = map (fun m => hd [] (rows m)) ms.
Proof.
  induction 1 as [|m ms Hm _ IH]; [reflexivity|].
  simpl. rewrite IH. unfold shape, nrows in Hm.
  destruct (rows m) as [|r [|r' rs]]; simpl in *; inversion Hm; reflexivity.
Qed.

Lemma vstack_single_rows (ms : list matrix) :
  ms <> [] ->
  Forall (fun m => shape m = (1, w)) ms ->
  Np.vstack (map Nd2 ms) = Ok (Matrix w (map (fun m => hd [] (rows m)) ms)).
Proof.
  intros Hne H. unfold Np.vstack. rewrite map_map; simpl. rewrite map_id.
  destruct ms as [|m ms]; [congruence|].
  inversion H as [|? ? Hm Hms]; subst.
  assert (Hc : forall m', shape m' = (1, w) -> ncols m' = w)
    by (unfold shape; intros m' Hm'; now inversion Hm').
  assert (Hall : forallb (fun m' => ncols m' =? ncols m) ms = true).
  { apply forallb_forall. intros m' Hin. apply Nat.eqb_eq.
    rewrite Forall_forall in Hms. rewrite (Hc m), (Hc m'); auto. }
  rewrite Hall, (Hc m Hm). do 2 f_equal.
  exact (concat_single_rows H).
Qed.

Lemma item_shapes (items : list item) :
  Forall (row_or_none w) items ->
  Forall (fun m => shape m = (1, w)) (map (item_data w) items)
  /\ Forall (fun m => shape m = (1, w)) (map (item_time_index w) items).
Proof.
  intros H. induction H as [|it items Hit _ [IHd IHt]]; simpl;
    [split; constructor|].
  split; constructor; auto; destruct it; simpl in *; tauto.
Qed.

(** The container that [from_list] builds from rows of one width, with or
    without [None] among them. *)
Lemma from_list_rows (items : list item) :
  Forall (row_or_none w) items ->
  (exists it, In it items /\ is_resolved it = true) ->
  from_list items
  = Ok (mkTimeArray (Matrix w (map (item_values w) items))
                    (Matrix w (map (item_times w) items))).
Proof.
  intros H Hsome. unfold from_list.
  rewrite (convert_rows H). cbn [bind].
  fold (missing_mask w items). rewrite mask_not_all by exact Hsome.
  assert (Hne : forall f : item -> matrix, map f items <> []).
  { intros f. destruct Hsome as (it & Hin & _).
    destruct items; [destruct Hin | discriminate]. }
  pose proof (@stack_input (item_data w) (fun x => fst (fst x))
                (fun it Hit => ltac:(unfold appended; now rewrite Hit)) eq_refl
                items H) as Hd.
  pose proof (@stack_input (item_time_index w) (fun x => snd (fst x))
                (fun it Hit => ltac:(unfold appended; now rewrite Hit)) eq_refl
                items H) as Ht.
  destruct (item_shapes H) as [Hsd Hst].
  destruct (Np.any _); [rewrite (first_width_rows H Hsome)|];
    cbn [bind fst snd]; rewrite widths_agree_rows; cbn [negb];
    rewrite Hd; cbn [bind];
    rewrite <- (map_map (item_data w) Nd2);
    rewrite (vstack_single_rows (Hne _) Hsd);
    cbn [bind]; rewrite Ht; cbn [bind];
    rewrite <- (map_map (item_time_index w) Nd2);
    rewrite (vstack_single_rows (Hne _) Hst);
    cbn [bind];
    (rewrite init_matrices
       by (unfold shape, nrows; simpl; now rewrite !length_map));
    now rewrite !map_map.
Qed.

End FromListPadding.

Lemma all_map_forallb {A} (f : A -> bool) (l : list A) :
  Np.all (map f l) = forallb f l.
Proof. unfold Np.all. induction l; simpl; congruence. Qed.

Lemma isna_same_rows (wd wt : nat) (rd rt : list (list cell)) :
  length rd = length rt ->
  isna (mkTimeArray (Matrix wd rd) (Matrix wt rt))
  = Ok (map (fun p => forallb isnan (fst p) && forallb isnan (snd p)) (combine rd rt)).
Proof.
  intros Hl. unfold isna, Np.and_, isna_row, isna_grid, Np.isnan_grid; simpl.
  rewrite !length_map, Hl, Nat.eqb_refl. f_equal.
  revert rt Hl. induction rd as [|r rd IH]; intros [|r' rt] Hl; simpl in *;
    try discriminate; [reflexivity|].
  rewrite !all_map_forallb. f_equal. apply IH. congruence.
Qed.

(** C7, the counterexample: a list with two Series of widths 3 and 4 and a
    [None] has a resolved element and a missing one, and [from_list] returns
    no container for it. *)
Lemma from_list_rejects_unequal_widths :
  let items := [ItSeries (series_of [1; 2; 3] [0; 1; 2])%Z;
                ItSeries (series_of [1; 2; 3; 4] [0; 1; 2; 3])%Z;
                ItNone] in
  In ItNone items
  /\ (exists it, In it items /\ is_resolved it = true)
  /\ from_list items = Raise ValueError.
Proof.
  cbv zeta. split; [right; right; left; reflexivity|].
  split; [eexists; split; [left; reflexivity | reflexivity]|].
  vm_compute. reflexivity.
Qed.

(** C7, amended: for a list of [None] and of elements that resolve to one
    row of one common width [w] (Series, containers of one row, pairs of
    rows), with at least one of each, [from_list] returns a container of [w]
    columns with one row per element; the row of every [None] is all
    sentinel in both matrices and reported missing, and the row of a resolved
    element holds its cells and is reported missing only when all of them are
    the sentinel. *)
Theorem from_list_pads_missing_rows (w : nat) (items : list item) :
  Forall (row_or_none w) items ->
  In ItNone items ->
  (exists it, In it items /\ is_resolved it = true) ->
  exists c na,
    from_list items = Ok c
    /\ shape (data c) = (length items, w)
    /\ shape (time_index c) = (length items, w)
    /\ isna c = Ok na
    /\ length na = length items
    /\ (forall j, nth_error items j = Some ItNone ->
          nth_error (rows (data c)) j = Some (repeat nan w)
          /\ nth_error (rows (time_index c)) j = Some (repeat nan w)
          /\ nth_error na j = Some true)
    /\ (forall j it, nth_error items j = Some it -> is_resolved it = true ->
          nth_error (rows (data c)) j = Some (item_values w it)
          /\ nth_error (rows (time_index c)) j = Some (item_times w it)
          /\ nth_error na j
             = Some (forallb isnan (item_values w it)
                     && forallb isnan (item_times w it))).
Proof.
  intros H Hnone Hsome.
  exists (mkTimeArray (Matrix w (map (item_values w) items))
                      (Matrix w (map (item_times w) items))).
  exists (map (fun p => forallb isnan (fst p) && forallb isnan (snd p))
              (combine (map (item_values w) items) (map (item_times w) items))).
  split; [exact (from_list_rows H Hsome)|].
  unfold shape, nrows; simpl. rewrite !length_map.
  split; [reflexivity|]. split; [reflexivity|].
  split; [apply isna_same_rows; now rewrite !length_map|].
  split; [now rewrite length_combine, !length_map, Nat.min_id|].
  assert (Hrow : forall j it, nth_error items j = Some it ->
            nth_error (map (item_values w) items) j = Some (item_values w it)
            /\ nth_error (map (item_times w) items) j = Some (item_times w it))
    by (intros j it Hj; now rewrite !nth_error_map, Hj).
  split.
  - intros j Hj. destruct (Hrow j _ Hj) as [Hd Ht].
    repeat split; auto.
    rewrite nth_error_map, (nth_error_combine _ _ _ Hd Ht).
    unfold item_values, item_times; simpl.
    rewrite <- all_map_forallb, all_isnan_repeat. reflexivity.
  - intros j it Hj _. destruct (Hrow j _ Hj) as [Hd Ht].
    repeat split; auto.
    now rewrite nth_error_map, (nth_error_combine _ _ _ Hd Ht).
Qed.

(** [from_list([s, None])] for a Series [s] of width 3. *)
Lemma from_list_pads_missing_rows_witness :
  let items := [ItSeries (series_of [1; 2; 3] [0; 1; 2])%Z; ItNone] in
  Forall (row_or_none 3) items
  /\ exists c,
       from_list items = Ok c
       /\ shape (data c) = (2, 3)
       /\ shape (time_index c) = (2, 3)
       /\ nth_error (rows (data c)) 1 = Some [nan; nan; nan]
       /\ nth_error (rows (time_index c)) 1 = Some [nan; nan; nan]
       /\ isna c = Ok [false; true].
Proof.
  intros items.
  assert (H : Forall (row_or_none 3) items)
    by (repeat constructor; vm_compute; auto).
  assert (Hnone : In ItNone items) by (right; left; reflexivity).
  assert (Hsome : exists it, In it items /\ is_resolved it = true)
    by (eexists; split; [left; reflexivity | reflexivity]).
  split; [exact H|].
  destruct (from_list_pads_missing_rows H Hnone Hsome)
    as (c & na & Hc & Hd & Ht & Hna & Hlen & Hmiss & Hres).
  exists c. split; [exact Hc|]. split; [exact Hd|]. split; [exact Ht|].
  destruct (Hmiss 1 eq_refl) as (Hd1 & Ht1 & Hn1).
  split; [exact Hd1|]. split; [exact Ht1|].
  destruct (Hres 0 _ eq_refl eq_refl) as (_ & _ & Hn0).
  rewrite Hna. f_equal.
  destruct na as [|b0 [|b1 [|b2 na]]]; try discriminate Hlen.
  vm_compute in Hn0, Hn1. congruence.
Defined.


(** ** Invariant I1 *)

Lemma returned_Some (r : result TimeArray) (c : TimeArray) :
  returned r = Some c -> r = Ok c.
Proof. destruct r; simpl; congruence. Qed.

Lemma replace_nth_length {A} (p : nat) (x : A) (l : list A) :
  length (NpIndex.replace_nth p x l) = length l.
Proof.
  revert p; induction l as [|y l IH]; intros [|p]; simpl; auto.
Qed.

Lemma fold_replace_length {A} (ws : list (nat * A)) (l : list A) :
  length (fold_left (fun acc pr => NpIndex.replace_nth (fst pr) (snd pr) acc) ws l)
  = length l.
Proof.
  revert l; induction ws as [|pr ws IH]; intros l; simpl; [reflexivity|].
  now rewrite IH, replace_nth_length.
Qed.

(** An assignment into an array leaves its shape as it is. *)
Lemma np_setitem_shape (arr : matrix) (key : indexer) (v arr' : matrix) :
  NpIndex.setitem arr key v = Ok arr' -> shape arr' = shape arr.
Proof.
  unfold NpIndex.setitem. intros H.
  inv_bind H as ps Hps. inv_bind H as v' Hv'. inversion H; subst.
  unfold shape, nrows; simpl. now rewrite fold_replace_length.
Qed.

Lemma setitem_I1 (self : TimeArray) (key : indexer) (value : setvalue) :
  I1 self -> I1 (fst (setitem self key value)).
Proof.
  intros HI. unfold setitem.
  destruct (bind (normalize_value value) _) as [[new_data new_time_index]|e];
    [|exact HI].
  destruct (NpIndex.setitem (data self) key _) as [d'|e] eqn:Hd; [|exact HI].
  apply np_setitem_shape in Hd.
  destruct (NpIndex.setitem (time_index self) key _) as [t'|e] eqn:Ht;
    unfold I1 in *; simpl.
  - apply np_setitem_shape in Ht. congruence.
  - congruence.
Qed.

(** C9: a container that an operation returns, and the receiver of
    [__setitem__] after the call, has a value matrix and a time-index matrix
    of one shape, when the containers the operation was called on had. *)
Theorem shape_invariant (o : operation) (c : TimeArray) :
  Forall I1 (receivers o) ->
  container_after o = Some c ->
  I1 c.
Proof.
  intros Hrec H. destruct o; simpl in H.
  - apply returned_Some in H. eapply init_I1; eassumption.
  - apply returned_Some in H. unfold from_list in H.
    inv_bind H as conv Hconv.
    destruct (Np.all _).
    + inv_bind H as c0 Hc0. eapply getitem_array_I1; eassumption.
    + inv_bind H as out Hout.
      destruct (negb _); [discriminate|].
      inv_bind H as ds Hds. inv_bind H as d Hd.
      inv_bind H as ts Hts. inv_bind H as t Ht.
      eapply init_I1; eassumption.
  - apply returned_Some in H. destruct d; simpl in H; try discriminate.
    + unfold from_list in H.
      inv_bind H as conv Hconv.
      destruct (Np.all _).
      * inv_bind H as c0 Hc0. eapply getitem_array_I1; eassumption.
      * inv_bind H as out Hout.
        destruct (negb _); [discriminate|].
        inv_bind H as ds Hds. inv_bind H as d Hd.
        inv_bind H as ts Hts. inv_bind H as t Ht.
        eapply init_I1; eassumption.
    + eapply init_I1; eassumption.
  - apply returned_Some in H. eapply getitem_array_I1; eassumption.
  - inversion H; subst. apply setitem_I1. now inversion Hrec.
  - apply returned_Some in H. unfold take in H.
    inv_bind H as d Hd. inv_bind H as t Ht. inv_bind H as dt Hdt.
    destruct (negb _ && _); eapply init_I1; eassumption.
  - apply returned_Some in H. unfold concat_same_type in H.
    inv_bind H as xs Hxs. inv_bind H as ref_width Href.
    inv_bind H as d Hd. inv_bind H as t Ht.
    eapply init_I1; eassumption.
  - apply returned_Some in H. unfold TimeArray_add in H.
    destruct (NpIndex.all_ne _ _); [discriminate|].
    inv_bind H as d Hd. eapply init_I1; eassumption.
  - apply returned_Some in H. unfold copy in H. eapply init_I1; exact H.
  - destruct dt; simpl in H; try discriminate.
    + destruct copy_.
      * destruct (copy self) as [c'|e] eqn:Hc; simpl in H; [|discriminate].
        inversion H; subst. unfold copy in Hc. eapply init_I1; exact Hc.
      * inversion H; subst. now inversion Hrec.
    + destruct (array_ self); discriminate.
    + destruct (array_ self); discriminate.
  - apply returned_Some in H. unfold unique in H.
    inv_bind H as objs Hobjs. eapply getitem_array_I1; eassumption.
  - apply returned_Some in H. unfold slice_time in H.
    inv_bind H as row0 Hrow. inv_bind H as d Hd. inv_bind H as t Ht.
    eapply init_I1; eassumption.
Qed.

(** Assigning [None] to row 1 of a container of two rows. *)
Lemma shape_invariant_witness :
  let o := OpSetItem c_two_rows (IxInt 1) SvNone in
  Forall I1 (receivers o)
  /\ exists c,
       container_after o = Some c
       /\ rows (data c) = [row_of [1; 2]%Z; [nan; nan]]
       /\ I1 c.
Proof.
  intros o.
  assert (Hrec : Forall I1 (receivers o)) by (repeat constructor).
  split; [exact Hrec|].
  eexists. split; [reflexivity|]. split; [vm_compute; reflexivity|].
  exact (shape_invariant o Hrec eq_refl).
Defined.


(** ** [unique] on every container: the leading rows *)

Lemma insert_In (x y : nat) (l : list nat) :
  In y (NpSet.insert x l) <-> y = x \/ In y l.
Proof.
  induction l as [|z l IH]; simpl; [intuition|].
  destruct (x <? z) eqn:Hlt; [simpl; intuition|].
  destruct (x =? z) eqn:Heq.
  - apply Nat.eqb_eq in Heq; subst. simpl. intuition.
  - simpl. rewrite IH. intuition.
Qed.

Lemma insert_sorted (x : nat) (l : list nat) :
  StronglySorted lt l -> StronglySorted lt (NpSet.insert x l).
Proof.
  induction 1 as [|z l Hs IH Hz]; simpl; [repeat constructor|].
  destruct (x <? z) eqn:Hlt.
  - apply Nat.ltb_lt in Hlt. constructor; [now constructor|].
    constructor; [exact Hlt|]. eapply Forall_impl; [|exact Hz]. simpl; lia.
  - destruct (x =? z) eqn:Heq; [now constructor|].
    apply Nat.ltb_ge in Hlt. apply Nat.eqb_neq in Heq.
    constructor; [exact IH|]. apply Forall_forall. intros y Hy.
    apply insert_In in Hy as [-> | Hy]; [lia|].
    rewrite Forall_forall in Hz. auto.
Qed.

Lemma np_unique_In (y : nat) (l : list nat) : In y (NpSet.unique l) <-> In y l.
Proof.
  unfold NpSet.unique. induction l as [|x l IH]; simpl; [tauto|].
  rewrite insert_In, IH. intuition.
Qed.

Lemma np_unique_sorted (l : list nat) : StronglySorted lt (NpSet.unique l).
Proof.
  unfold NpSet.unique. induction l; simpl; [constructor | now apply insert_sorted].
Qed.

Lemma sorted_same_elements (l l' : list nat) :
  StronglySorted lt l -> StronglySorted lt l' ->
  (forall x, In x l <-> In x l') -> l = l'.
Proof.
  intros Hl; revert l'. induction Hl as [|a l Hs IH Ha]; intros l' Hl' Hin.
  - destruct l' as [|b l']; [reflexivity|].
    destruct (proj2 (Hin b) (or_introl eq_refl)).
  - destruct Hl' as [|b l' Hs' Hb].
    + destruct (proj1 (Hin a) (or_introl eq_refl)).
    + rewrite Forall_forall in Ha, Hb.
      assert (a = b).
      { destruct (proj1 (Hin a) (or_introl eq_refl)) as [Hab | Hab]; [now subst|].
        destruct (proj2 (Hin b) (or_introl eq_refl)) as [Hba | Hba]; [now subst|].
        specialize (Ha _ Hba). specialize (Hb _ Hab). lia. }
      subst b. f_equal. apply IH; [exact Hs'|].
      intros x. split; intros Hx.
      * destruct (proj1 (Hin x) (or_intror Hx)) as [-> | H']; [|exact H'].
        specialize (Ha _ Hx). lia.
      * destruct (proj2 (Hin x) (or_intror Hx)) as [-> | H']; [|exact H'].
        specialize (Hb _ Hx). lia.
Qed.

Lemma seq_sorted (a k : nat) : StronglySorted lt (seq a k).
Proof.
  revert a; induction k as [|k IH]; intros a; simpl; constructor; [apply IH|].
  apply Forall_forall. intros x Hx. apply in_seq in Hx. lia.
Qed.

(** [np.unique] of a list that holds exactly the numbers below [k]. *)
Lemma np_unique_of_range (l : list nat) (k : nat) :
  (forall x, In x l <-> x < k) -> NpSet.unique l = seq 0 k.
Proof.
  intros H. apply sorted_same_elements.
  - apply np_unique_sorted.
  - apply seq_sorted.
  - intros x. rewrite np_unique_In, H, in_seq. lia.
Qed.

Lemma index_of_bound (s : string) (l : list string) (k : nat) :
  Pd.index_of s l = Some k -> k < length l.
Proof.
  revert k; induction l as [|x l IH]; simpl; intros k; [discriminate|].
  destruct (String.eqb s x); [intros [= <-]; lia|].
  destruct (Pd.index_of s l) as [j|]; [|discriminate].
  intros [= <-]. specialize (IH j eq_refl). lia.
Qed.

(** The codes of [factorize] number the distinct values as they appear. *)
Lemma factorize_from_codes (values uniques : list string) :
  let r := Pd.factorize_from uniques values in
  length uniques <= length (snd r)
  /\ (forall c, In c (fst r) -> c < length (snd r))
  /\ (forall c, length uniques <= c < length (snd r) -> In c (fst r)).
Proof.
  revert uniques; induction values as [|v vs IH]; intros u; simpl.
  - repeat split; [lia | tauto | lia].
  - destruct (Pd.index_of v u) as [k|] eqn:Hk; simpl.
    + destruct (IH u) as (H1 & H2 & H3). apply index_of_bound in Hk.
      repeat split; [exact H1 | | ].
      * intros c [<- | Hc]; [lia | auto].
      * intros c Hc. right. auto.
    + destruct (IH (u ++ [v])) as (H1 & H2 & H3).
      rewrite length_app in H1, H3; simpl in H1, H3.
      repeat split; [lia | | ].
      * intros c [<- | Hc]; [lia | auto].
      * intros c Hc. destruct (Nat.eq_dec c (length u)) as [-> | Hne];
          [now left | right; apply H3; lia].
Qed.

Lemma np_unique_of_codes (values : list string) :
  NpSet.unique (fst (Pd.factorize values))
  = seq 0 (length (snd (Pd.factorize values))).
Proof.
  apply np_unique_of_range. intros x.
  destruct (factorize_from_codes values []) as (_ & H2 & H3).
  unfold Pd.factorize.
  split; [apply H2 | intros Hx; apply H3; simpl; lia].
Qed.

(** [unique] returns the first [k] rows of the container, where [k] is the
    number of distinct keys among its rows. *)
Lemma unique_takes_leading_rows (TimeBase_str : TimeBase -> string)
  (self : TimeArray) (objs : list TimeBase) :
  array_ self = Ok objs ->
  unique TimeBase_str self
  = getitem_array self
      (IxArray (map Z.of_nat
                  (seq 0 (length (snd (Pd.factorize (map TimeBase_str objs))))))).
Proof.
  intros H. unfold unique. rewrite H. cbn [bind].
  now rewrite np_unique_of_codes.
Qed.


(** ** Strings: [strip], [split] and [join] *)

Section Strings.

Local Open Scope string_scope.

Lemma append_nil_r (s : string) : s ++ "" = s.
Proof. induction s; simpl; congruence. Qed.

Lemma append_assoc (a b c : string) : (a ++ b) ++ c = a ++ (b ++ c).
Proof. induction a; simpl; congruence. Qed.

Lemma rev_append_spec (s acc : string) :
  Str.rev_append s acc = Str.rev s ++ acc.
Proof.
  unfold Str.rev. revert acc. induction s as [|c s IH]; intros acc; simpl.
  - reflexivity.
  - rewrite IH, (IH (String c "")), append_assoc. reflexivity.
Qed.

Lemma rev_app (a b : string) : Str.rev (a ++ b) = Str.rev b ++ Str.rev a.
Proof.
  induction a as [|c a IH]; simpl.
  - now rewrite append_nil_r.
  - unfold Str.rev in *. simpl.
    rewrite (rev_append_spec (a ++ b)), (rev_append_spec a).
    unfold Str.rev. rewrite IH, append_assoc. reflexivity.
Qed.

Lemma rev_involutive (s : string) : Str.rev (Str.rev s) = s.
Proof.
  induction s as [|c s IH]; [reflexivity|].
  change (String c s) with (String c "" ++ s) at 1.
  rewrite rev_app, rev_app, IH. reflexivity.
Qed.

Lemma free_of_app (chars a b : string) :
  free_of chars (a ++ b) = free_of chars a && free_of chars b.
Proof. induction a; simpl; [reflexivity | now rewrite IHa, andb_assoc]. Qed.

Lemma free_of_rev (chars s : string) : free_of chars (Str.rev s) = free_of chars s.
Proof.
  induction s as [|c s IH]; [reflexivity|].
  change (String c s) with (String c "" ++ s) at 1.
  rewrite rev_app, free_of_app, IH. simpl. rewrite andb_true_r. apply andb_comm.
Qed.

Lemma free_of_weaken (c : ascii) (chars s : string) :
  Str.in_chars c chars = true -> free_of chars s = true ->
  free_of (String c "") s = true.
Proof.
  intros Hc. induction s as [|x s IH]; simpl; [reflexivity|].
  intros H. apply andb_true_iff in H as [Hx Hs]. rewrite (IH Hs), andb_true_r.
  unfold Str.in_chars; simpl. rewrite orb_false_r.
  destruct (Ascii.eqb x c) eqn:E; [|reflexivity].
  apply Ascii.eqb_eq in E. subst. now rewrite Hc in Hx.
Qed.

Lemma starts_outside_free (chars s : string) :
  s <> "" -> free_of chars s = true -> starts_outside chars s.
Proof.
  destruct s as [|c s]; [congruence|]. simpl. intros _ H.
  apply andb_true_iff in H as [H _]. exists c, s. split; [reflexivity|].
  now destruct (Str.in_chars c chars).
Qed.

Lemma starts_outside_app (chars a b : string) :
  starts_outside chars a -> starts_outside chars (a ++ b).
Proof. intros (c & s' & -> & H). exists c, (s' ++ b). auto. Qed.

Lemma lstrip_starts_outside (chars s : string) :
  starts_outside chars s -> Str.lstrip chars s = s.
Proof. intros (c & s' & -> & H). simpl. now rewrite H. Qed.

Lemma rev_nonempty (s : string) : s <> "" -> Str.rev s <> "".
Proof.
  destruct s as [|c s]; [congruence|]. intros _.
  change (String c s) with (String c "" ++ s). rewrite rev_app.
  destruct (Str.rev s); discriminate.
Qed.

(** [strip("()")] takes the outer parentheses off a line whose body starts
    and ends outside the parentheses. *)
Lemma strip_parens (body : string) :
  starts_outside "()" body -> starts_outside "()" (Str.rev body) ->
  Str.strip "()" ("(" ++ body ++ ")") = body.
Proof.
  intros Hb Hr. unfold Str.strip.
  change (Str.lstrip "()" ("(" ++ body ++ ")")) with (Str.lstrip "()" (body ++ ")")).
  rewrite (lstrip_starts_outside (starts_outside_app ")" Hb)).
  rewrite rev_app.
  change (Str.lstrip "()" (Str.rev ")" ++ Str.rev body))
    with (Str.lstrip "()" (Str.rev body)).
  rewrite (lstrip_starts_outside Hr). apply rev_involutive.
Qed.

Variable c0 : ascii.
Variable sep' : string.
Local Abbreviation sep := (String c0 sep').

Lemma prefix_sep_app (s : string) : String.prefix sep (sep ++ s) = true.
Proof.
  generalize (String c0 sep'). intros t.
  induction t as [|c t IH]; simpl; [now destruct s|].
  destruct (ascii_dec c c); [exact IH | congruence].
Qed.

(** Reading a piece that holds no first character of the separator. *)
Lemma split_from_piece (p acc rest : string) :
  free_of (String c0 "") p = true ->
  Str.split_from sep 0 acc (p ++ rest)
  = Str.split_from sep 0 (Str.rev_append p acc) rest.
Proof.
  revert acc. induction p as [|c p IH]; intros acc H; simpl; [reflexivity|].
  simpl in H. apply andb_true_iff in H as [Hc Hp].
  unfold Str.in_chars in Hc; simpl in Hc. rewrite orb_false_r in Hc.
  apply negb_true_iff in Hc.
  destruct (ascii_dec c0 c) as [E|_];
    [subst; now rewrite Ascii.eqb_refl in Hc|].
  now apply IH.
Qed.

Lemma split_from_skip (k : string) (acc rest : string) :
  Str.split_from sep (String.length k) acc (k ++ rest)
  = Str.split_from sep 0 acc rest.
Proof.
  induction k as [|c k IH]; simpl; [reflexivity | exact IH].
Qed.

Lemma split_from_sep (acc rest : string) :
  Str.split_from sep 0 acc (sep ++ rest)
  = Str.rev acc :: Str.split_from sep 0 "" rest.
Proof.
  pose proof (prefix_sep_app rest) as Hp.
  cbn [append Str.split_from]. cbn [append] in Hp.
  rewrite Hp. f_equal. cbn [String.length]. rewrite Nat.sub_1_r; simpl.
  apply split_from_skip.
Qed.

(** [split] undoes [join] when no piece holds the first character of the
    separator. *)
Lemma split_join (ps : list string) :
  ps <> [] ->
  Forall (fun p => free_of (String c0 "") p = true) ps ->
  Str.split sep (Str.join sep ps) = ps.
Proof.
  intros Hne H. unfold Str.split, Str.join.
  induction H as [|p ps Hp Hps IH]; [congruence|].
  destruct ps as [|q ps].
  - simpl. rewrite <- (append_nil_r p) at 1.
    rewrite split_from_piece by exact Hp. simpl.
    now rewrite rev_append_spec, append_nil_r, rev_involutive.
  - cbn [String.concat].
    rewrite split_from_piece by exact Hp. rewrite split_from_sep.
    rewrite rev_append_spec, append_nil_r, rev_involutive. f_equal.
    apply IH. discriminate.
Qed.

End Strings.


(** ** The round trip through the text form, on every container *)

Section RoundTrip.

Local Open Scope string_scope.

Variable str : cell -> string.
Variable float_of_string : string -> option cell.

Lemma free_of_syntax (s : string) :
  free_of "()," s = true ->
  free_of "()" s = true /\ free_of ")" s = true /\ free_of "," s = true.
Proof.
  induction s as [|c s IH]; simpl; [auto|].
  intros H. apply andb_true_iff in H as [Hc Hs].
  destruct (IH Hs) as (H1 & H2 & H3). rewrite H1, H2, H3, !andb_true_r.
  unfold Str.in_chars in *; simpl in *.
  destruct (Ascii.eqb c "("), (Ascii.eqb c ")"), (Ascii.eqb c ","); auto.
Qed.

Lemma pair_text_free (vt : cell * cell) :
  both_printable str float_of_string vt ->
  pair_text str vt <> ""
  /\ free_of "()" (pair_text str vt) = true
  /\ free_of ")" (pair_text str vt) = true.
Proof.
  intros [[Hv _] [Ht _]]. apply free_of_syntax in Hv as (Hv1 & Hv2 & _).
  apply free_of_syntax in Ht as (Ht1 & Ht2 & _). unfold pair_text.
  rewrite !free_of_app, Hv1, Hv2, Ht1, Ht2. repeat split.
  destruct (str (fst vt)); discriminate.
Qed.

Lemma split_pair_text (vt : cell * cell) :
  both_printable str float_of_string vt ->
  Str.split "," (pair_text str vt) = [str (fst vt); str (snd vt)].
Proof.
  intros [[Hv _] [Ht _]]. apply free_of_syntax in Hv as (_ & _ & Hv).
  apply free_of_syntax in Ht as (_ & _ & Ht).
  apply (@split_join "," "" [str (fst vt); str (snd vt)]); [discriminate|].
  repeat constructor; assumption.
Qed.

(** The body of a line starts and ends outside the parentheses. *)
Lemma join_starts_outside (ps : list string) :
  ps <> [] ->
  Forall (fun p => p <> "" /\ free_of "()" p = true) ps ->
  starts_outside "()" (Str.join "),(" ps)
  /\ starts_outside "()" (Str.rev (Str.join "),(" ps)).
Proof.
  intros Hne H. unfold Str.join.
  induction H as [|p ps [Hp Hf] Hps IH]; [congruence|].
  destruct ps as [|q ps].
  - cbn [String.concat].
    split; [now apply starts_outside_free|].
    apply starts_outside_free; [now apply rev_nonempty | now rewrite free_of_rev].
  - destruct IH as [_ IH]; [discriminate|].
    change (String.concat "),(" (p :: q :: ps))
      with (p ++ "),(" ++ String.concat "),(" (q :: ps)).
    split.
    + apply starts_outside_app. now apply starts_outside_free.
    + rewrite rev_app, rev_app.
      apply starts_outside_app, starts_outside_app. exact IH.
Qed.

Lemma float_array_printed (f : cell * cell -> cell) (pairs : list (cell * cell)) :
  Forall (fun vt => printable str float_of_string (f vt)) pairs ->
  float_array float_of_string (map (fun vt => str (f vt)) pairs) = Ok (map f pairs).
Proof.
  intros H. unfold float_array.
  induction H as [|vt pairs [_ Hvt] _ IH]; simpl; [reflexivity|].
  now rewrite Hvt; simpl; rewrite IH.
Qed.

Lemma min_length_two (parts : list (list string)) (k : nat) :
  Forall (fun p => length p = 2) parts ->
  fold_left Nat.min (map (@length string) parts) (Nat.min k 2) = Nat.min k 2.
Proof.
  induction 1 as [|p parts Hp _ IH]; simpl; [reflexivity|].
  rewrite Hp, <- Nat.min_assoc, Nat.min_id. exact IH.
Qed.

(** [parse_line] reads the first component of every pair as the time and
    the second as the value. *)
Lemma parse_line_pairs (pairs : list (cell * cell)) :
  pairs <> [] ->
  Forall (both_printable str float_of_string) pairs ->
  parse_line float_of_string
             ("(" ++ Str.join "),(" (map (pair_text str) pairs) ++ ")")
  = Ok (map snd pairs, map fst pairs).
Proof.
  intros Hne H. unfold parse_line.
  assert (Hps : Forall (fun p => p <> "" /\ free_of "()" p = true)
                       (map (pair_text str) pairs)).
  { apply Forall_map. eapply Forall_impl; [|exact H].
    intros vt Hvt. apply pair_text_free in Hvt. tauto. }
  assert (Hne' : map (pair_text str) pairs <> [])
    by (destruct pairs; [congruence|discriminate]).
  destruct (join_starts_outside Hne' Hps) as [Hb Hr].
  rewrite (strip_parens Hb Hr).
  rewrite (@split_join ")" ",(" (map (pair_text str) pairs) Hne')
    by (apply Forall_map; eapply Forall_impl; [|exact H];
        intros vt Hvt; apply pair_text_free in Hvt; tauto).
  rewrite map_map.
  rewrite (map_ext_Forall _ (fun vt => [str (fst vt); str (snd vt)]))
    by (eapply Forall_impl; [|exact H]; apply split_pair_text).
  unfold unzip2. destruct pairs as [|vt pairs]; [congruence|].
  cbn [map]. change (length [str (fst vt); str (snd vt)]) with (Nat.min 2 2).
  rewrite min_length_two by (apply Forall_map, Forall_forall; reflexivity).
  cbn [Nat.min Nat.eqb bind].
  rewrite <- !map_cons, !map_map. cbn [nth].
  change (str (snd vt) :: map (fun x : cell * cell => str (snd x)) pairs)
    with (map (fun x : cell * cell => str (snd x)) (vt :: pairs)).
  change (str (fst vt) :: map (fun x : cell * cell => str (fst x)) pairs)
    with (map (fun x : cell * cell => str (fst x)) (vt :: pairs)).
  rewrite (float_array_printed snd)
    by (eapply Forall_impl; [|exact H]; intros x Hx; apply Hx).
  cbn [bind].
  rewrite (float_array_printed fst)
    by (eapply Forall_impl; [|exact H]; intros x Hx; apply Hx).
  reflexivity.
Qed.

End RoundTrip.


Lemma getrow_nth (m : matrix) (i : nat) :
  i < nrows m -> NpIndex.getrow m (Z.of_nat i) = Ok (nth i (rows m) []).
Proof.
  intros Hi. unfold NpIndex.getrow, norm_index.
  assert (H0 : (0 <=? Z.of_nat i)%Z = true) by (apply Z.leb_le; lia).
  assert (H1 : (Z.of_nat i <? Z.of_nat (nrows m))%Z = true) by (apply Z.ltb_lt; lia).
  rewrite H0, H1. simpl. now rewrite Nat2Z.id.
Qed.

Lemma mapM_map {A B C} (f : B -> result C) (g : A -> B) (l : list A) :
  mapM f (map g l) = mapM (fun a => f (g a)) l.
Proof. induction l; simpl; [reflexivity | now rewrite IHl]. Qed.

Lemma mapM_seq_Ok {B} (f : nat -> result B) (g : nat -> B) (n : nat) :
  (forall i, i < n -> f i = Ok (g i)) ->
  mapM f (seq 0 n) = Ok (map g (seq 0 n)).
Proof.
  intros H. apply mapM_Ok_map, Forall_forall.
  intros i Hi. apply in_seq in Hi. apply H. lia.
Qed.

(** The rows of a container as Series: [np.array(self)]. *)
Lemma array_rows (c : TimeArray) :
  I1 c ->
  array_ c
  = Ok (map (fun i => TimeBase_init (nth i (rows (data c)) [])
                                    (nth i (rows (time_index c)) []))
            (seq 0 (nrows (data c)))).
Proof.
  intros HI. unfold I1, shape in HI. injection HI as Hr _.
  unfold array_. apply mapM_seq_Ok. intros i Hi.
  rewrite (getrow_nth _ Hi). rewrite Hr in Hi. now rewrite (getrow_nth _ Hi).
Qed.

Lemma map_nth_seq {A} (l : list A) (d : A) :
  map (fun i => nth i l d) (seq 0 (length l)) = l.
Proof.
  induction l as [|a l IH]; simpl; [reflexivity|].
  f_equal. rewrite <- seq_shift, map_map. exact IH.
Qed.

Lemma map_fst_combine {A B} (l : list A) (l' : list B) :
  length l = length l' -> map fst (combine l l') = l.
Proof.
  revert l'; induction l as [|a l IH]; intros [|b l'] H; simpl in *;
    try discriminate; [reflexivity|]. now rewrite IH by congruence.
Qed.

Lemma map_snd_combine {A B} (l : list A) (l' : list B) :
  length l = length l' -> map snd (combine l l') = l'.
Proof.
  revert l'; induction l as [|a l IH]; intros [|b l'] H; simpl in *;
    try discriminate; [reflexivity|]. now rewrite IH by congruence.
Qed.

Lemma Forall_combine {A} (P : A -> Prop) (l l' : list A) :
  Forall P l -> Forall P l' ->
  Forall (fun p => P (fst p) /\ P (snd p)) (combine l l').
Proof.
  intros H; revert l'. induction H as [|a l Ha _ IH]; intros l' H'; simpl;
    [constructor|].
  destruct H' as [|b l' Hb H']; constructor; auto.
Qed.

Lemma matrix_eta (m : matrix) : Matrix (ncols m) (rows m) = m.
Proof. now destruct m. Qed.

Section RoundTripContainer.

Variable str : cell -> string.
Variable float_of_string : string -> option cell.

(** The lines of a container: line [i] pairs the cells of row [i] of the
    value matrix, first, with those of row [i] of the time index, second. *)
Lemma to_ts_container (c : TimeArray) :
  I1 c ->
  to_ts str (TsArray c) false
  = Ok (map (fun i =>
               ("(" ++ Str.join "),("
                         (map (pair_text str)
                              (combine (nth i (rows (data c)) [])
                                       (nth i (rows (time_index c)) [])))
                    ++ ")")%string)
            (seq 0 (nrows (data c)))).
Proof.
  intros HI. unfold to_ts; simpl. rewrite (array_rows HI). cbn [bind].
  rewrite mapM_map. apply mapM_seq_Ok. intros i Hi. apply to_ts_line_pairs.
Qed.

(** The round trip on a container of the claim's kind: what comes back is the
    container with the value matrix and the time-index matrix exchanged. *)
Theorem round_trip_exchanges_matrices (c : TimeArray) :
  well_formed c ->
  0 < nrows (data c) ->
  0 < ncols (data c) ->
  Forall (printable str float_of_string) (cells_of c) ->
  exists lines,
    to_ts str (TsArray c) false = Ok lines
    /\ from_ts float_of_string lines = Ok (exchanged c).
Proof.
  intros (Hrd & Hrt & HI) Hn Hw Hp.
  pose proof HI as HI'. unfold I1, shape in HI'. injection HI' as Hrows Hcols.
  unfold cells_of in Hp. apply Forall_app in Hp as [Hpd Hpt].
  rewrite Forall_concat in Hpd, Hpt.
  unfold rectangular in Hrd, Hrt. rewrite Forall_forall in Hrd, Hrt, Hpd, Hpt.
  set (rd := fun i => nth i (rows (data c)) []).
  set (rt := fun i => nth i (rows (time_index c)) []).
  assert (Hin_d : forall i, i < nrows (data c) -> In (rd i) (rows (data c)))
    by (intros i Hi; apply nth_In; exact Hi).
  assert (Hin_t : forall i, i < nrows (data c) -> In (rt i) (rows (time_index c)))
    by (intros i Hi; apply nth_In; unfold nrows in *; lia).
  assert (Hlen : forall i, i < nrows (data c) -> length (rd i) = length (rt i))
    by (intros i Hi; rewrite (Hrd _ (Hin_d i Hi)), (Hrt _ (Hin_t i Hi)); exact Hcols).
  eexists. split; [exact (to_ts_container HI)|].
  - unfold from_ts. rewrite mapM_map.
    rewrite (mapM_seq_Ok _ (fun i => ItSeries (TimeBase_init (rt i) (rd i)))).
    + cbn [bind].
      rewrite (@from_list_rows (ncols (data c))).
      * unfold exchanged. rewrite !map_map.
        change (fun x : nat => item_values (ncols (data c))
                                 (ItSeries (TimeBase_init (rt x) (rd x))))
          with rt.
        change (fun x : nat => item_times (ncols (data c))
                                 (ItSeries (TimeBase_init (rt x) (rd x))))
          with rd.
        unfold rt, rd. rewrite Hrows at 1. unfold nrows.
        rewrite !map_nth_seq. rewrite Hcols at 1. now rewrite !matrix_eta.
      * apply Forall_map, Forall_forall. intros i Hi. apply in_seq in Hi.
        simpl. unfold shape, nrows; simpl.
        rewrite (Hrt _ (Hin_t i (proj2 Hi))), (Hrd _ (Hin_d i (proj2 Hi))).
        now rewrite Hcols.
      * exists (ItSeries (TimeBase_init (rt 0) (rd 0))).
        split; [|reflexivity].
        apply in_map_iff. exists 0. split; [reflexivity|]. apply in_seq. lia.
    + intros i Hi.
      rewrite parse_line_pairs with (str := str).
      * cbn [bind]. rewrite map_snd_combine, map_fst_combine by (apply Hlen, Hi).
        reflexivity.
      * specialize (Hlen i Hi). pose proof (Hrd _ (Hin_d i Hi)) as Hd.
        fold (rd i) (rt i).
        destruct (rd i), (rt i); simpl in *; try discriminate; lia.
      * apply Forall_combine; [apply Hpd, Hin_d | apply Hpt, Hin_t]; exact Hi.
Qed.

End RoundTripContainer.

(** The round trip of the container with values [1, 2, 3] at times
    [0, 1, 2]. *)
Lemma round_trip_exchanges_matrices_witness :
  well_formed c_123
  /\ Forall (printable Repr.str Repr.float_of_string) (cells_of c_123)
  /\ exists lines,
       to_ts Repr.str (TsArray c_123) false = Ok lines
       /\ from_ts Repr.float_of_string lines = Ok (exchanged c_123).
Proof.
  assert (Hwf : well_formed c_123).
  { repeat split; repeat constructor. }
  assert (Hp : Forall (printable Repr.str Repr.float_of_string) (cells_of c_123)).
  { repeat constructor; vm_compute; reflexivity. }
  split; [exact Hwf|]. split; [exact Hp|].
  apply (round_trip_exchanges_matrices Hwf); [vm_compute; lia | vm_compute; lia | exact Hp].
Defined.


(** ** [__add__] on containers of one shape *)

Lemma map2_length {A B C} (f : A -> B -> C) (l : list A) (l' : list B) :
  length l = length l' -> length (NpIndex.map2 f l l') = length l.
Proof.
  revert l'; induction l as [|a l IH]; intros [|b l'] H; simpl in *;
    try discriminate; [reflexivity|]. now rewrite IH by congruence.
Qed.

Lemma elementwise_same_shape {B} (f : cell -> cell -> B) (a b : matrix) :
  shape a = shape b ->
  NpIndex.elementwise f a b
  = Some (ncols a, NpIndex.map2 (NpIndex.map2 f) (rows a) (rows b)).
Proof.
  unfold shape. intros H. injection H as Hr Hc.
  unfold NpIndex.elementwise, NpIndex.bcast_dim, NpIndex.broadcast_to.
  rewrite <- Hr, <- Hc, !Nat.eqb_refl. simpl. now rewrite !map_id.
Qed.

(** X1: on two containers of one shape the only guard of [__add__] is
    [np.all(self.time_index != o.time_index)]: the sum is refused when every
    pair of time cells differs, also when there is no time cell at all, and
    returned with the time index of the receiver in every other case. *)
Lemma add_same_shape (self o : TimeArray) :
  I1 self ->
  shape (data self) = shape (data o) ->
  shape (time_index self) = shape (time_index o) ->
  TimeArray_add self o
  = if forallb Np.all (NpIndex.map2 (NpIndex.map2 cell_ne)
                                    (rows (time_index self)) (rows (time_index o)))
    then Raise ValueError
    else Ok (mkTimeArray
               (Matrix (ncols (data self))
                       (NpIndex.map2 (NpIndex.map2 cell_add)
                                     (rows (data self)) (rows (data o))))
               (time_index self)).
Proof.
  intros HI Hd Ht. unfold TimeArray_add, NpIndex.all_ne, NpIndex.add.
  rewrite (elementwise_same_shape cell_ne Ht), (elementwise_same_shape cell_add Hd).
  destruct (forallb _ _); [reflexivity|]. cbn [bind].
  apply init_matrices. unfold I1 in HI. rewrite <- HI.
  unfold shape, nrows in *; simpl. injection Hd as Hr _.
  now rewrite map2_length.
Qed.


(** * Further properties of the code *)

(** ** Indexing with slices, integers and masks *)

Lemma map_range_seq (n : nat) :
  map Z.to_nat (map (fun k => (0 + Z.of_nat k * 1)%Z) (seq 0 n)) = seq 0 n.
Proof.
  rewrite map_map. rewrite <- (map_id (seq 0 n)) at 2.
  apply map_ext. intros k. rewrite Z.add_0_l, Z.mul_1_r. apply Nat2Z.id.
Qed.

(** The slices [[:]] and [[:n]] select every row of an axis of length [n]. *)
Lemma positions_slice_all (n : nat) (stop : option Z) :
  stop = None \/ stop = Some (Z.of_nat n) ->
  positions n (IxSlice None stop None) = Ok (seq 0 n).
Proof.
  intros Hstop. unfold positions, slice_indices.
  change (1 =? 0)%Z with false. change (1 <? 0)%Z with false. cbn [bind].
  assert (Hs : match stop with
               | Some v => if (v <? 0)%Z then Z.max (v + Z.of_nat n) 0
                           else Z.min v (Z.of_nat n)
               | None => Z.of_nat n
               end = Z.of_nat n).
  { destruct Hstop as [-> | ->]; [reflexivity|].
    destruct (Z.of_nat n <? 0)%Z eqn:E; [apply Z.ltb_lt in E; lia|].
    apply Z.min_id. }
  rewrite Hs. f_equal. unfold py_range, range_len.
  change (0 <? 1)%Z with true.
  assert (Hn : Z.to_nat (if (0 <? Z.of_nat n)%Z
                         then ((Z.of_nat n - 0 - 1) / 1 + 1)%Z else 0%Z) = n).
  { destruct (0 <? Z.of_nat n)%Z eqn:E.
    - rewrite Z.div_1_r. lia.
    - apply Z.ltb_ge in E. lia. }
  cbv iota. rewrite Hn. apply map_range_seq.
Qed.

Lemma getrows_all (m : matrix) (stop : option Z) :
  stop = None \/ stop = Some (Z.of_nat (nrows m)) ->
  NpIndex.getrows m (IxSlice None stop None) = Ok m.
Proof.
  intros H. unfold NpIndex.getrows. rewrite (positions_slice_all _ H).
  cbn [bind]. unfold nrows. rewrite map_nth_seq. now rewrite matrix_eta.
Qed.

(** X2: [c[:]] and [c[:len(c)]] return a container with the rows of [c]. *)
Theorem getitem_full_slice (c : TimeArray) (stop : option Z) :
  I1 c ->
  stop = None \/ stop = Some (Z.of_nat (len c)) ->
  getitem c (IxSlice None stop None) = Ok (GotArray c).
Proof.
  intros HI H. unfold getitem, len in *.
  rewrite (getrows_all _ H).
  assert (H' : stop = None \/ stop = Some (Z.of_nat (nrows (time_index c)))).
  { unfold I1, shape in HI. injection HI as Hr _. now rewrite <- Hr. }
  rewrite (getrows_all _ H'). cbn [bind].
  rewrite (init_matrices _ HI). cbn [bind]. now destruct c.
Qed.

(** [c[:]] on a container of two rows. *)
Lemma getitem_full_slice_witness :
  I1 c_two_rows /\ getitem c_two_rows (IxSlice None None None) = Ok (GotArray c_two_rows).
Proof.
  assert (HI : I1 c_two_rows) by reflexivity.
  split; [exact HI|]. apply (getitem_full_slice HI). now left.
Defined.

(** ** [from_list] without a resolved element *)

Lemma getitem_array_all (c : TimeArray) :
  I1 c ->
  getitem_array c (IxSlice None (Some (Z.of_nat (nrows (data c)))) None) = Ok c.
Proof.
  intros HI. unfold getitem_array, getitem.
  rewrite getrows_all by now right.
  rewrite getrows_all
    by (right; unfold I1, shape in HI; injection HI as Hr _; now rewrite Hr).
  cbn [bind]. rewrite (init_matrices _ HI). cbn [bind]. now destruct c.
Qed.

Lemma convert_nones (n : nat) :
  mapM convert (repeat ItNone n) = Ok (repeat (None, None, None) n).
Proof. induction n; simpl; [reflexivity | now rewrite IHn]. Qed.

(** X3: [from_list] of [n] times [None], and of the empty list for [n = 0],
    is the container of [n] rows and no column, every row missing. *)
Theorem from_list_all_none (n : nat) :
  from_list (repeat ItNone n)
  = Ok (mkTimeArray (Np.full n 0 nan) (Np.full n 0 nan))
  /\ isna (mkTimeArray (Np.full n 0 nan) (Np.full n 0 nan)) = Ok (repeat true n).
Proof.
  split; [|apply isna_no_columns].
  unfold from_list. rewrite convert_nones. cbn [bind].
  rewrite !map_repeat. cbn [snd is_none].
  assert (Hall : Np.all (repeat true (length (repeat ItNone n))) = true)
    by (unfold Np.all; induction (length (repeat ItNone n)); simpl; auto).
  rewrite repeat_length in *. rewrite Hall.
  rewrite init_no_columns. cbn [bind].
  rewrite <- (repeat_length (repeat nan 0) n) at 3.
  now apply (@getitem_array_all (mkTimeArray (Np.full n 0 nan) (Np.full n 0 nan))).
Qed.

(** ** Scalar indexing *)

Lemma norm_index_negative (n : nat) (k : Z) :
  (1 <= k <= Z.of_nat n)%Z ->
  norm_index n (- k) = norm_index n (Z.of_nat n - k).
Proof.
  intros H. unfold norm_index.
  assert (H1 : ((0 <=? - k) && (- k <? Z.of_nat n))%Z = false).
  { apply andb_false_iff. left. apply Z.leb_gt. lia. }
  assert (H2 : ((- Z.of_nat n <=? - k) && (- k <? 0))%Z = true).
  { apply andb_true_iff. split; [apply Z.leb_le | apply Z.ltb_lt]; lia. }
  assert (H3 : ((0 <=? Z.of_nat n - k) && (Z.of_nat n - k <? Z.of_nat n))%Z = true).
  { apply andb_true_iff. split; [apply Z.leb_le | apply Z.ltb_lt]; lia. }
  rewrite H1, H2, H3. do 2 f_equal. lia.
Qed.

Lemma norm_index_outside (n : nat) (i : Z) :
  ~ index_ok n i -> norm_index n i = Raise IndexError.
Proof.
  unfold index_ok, norm_index. intros H.
  destruct ((0 <=? i) && (i <? Z.of_nat n))%Z eqn:E1.
  - apply andb_true_iff in E1 as [A B]. apply Z.leb_le in A. apply Z.ltb_lt in B. lia.
  - destruct ((- Z.of_nat n <=? i) && (i <? 0))%Z eqn:E2; [|reflexivity].
    apply andb_true_iff in E2 as [A B]. apply Z.leb_le in A. apply Z.ltb_lt in B. lia.
Qed.

(** X4: an integer index counts from the end when it is negative, and raises
    [IndexError] outside [-len, len). *)
Theorem getitem_integer_bounds (c : TimeArray) :
  I1 c ->
  (forall k, (1 <= k <= Z.of_nat (len c))%Z ->
             getitem c (IxInt (- k)) = getitem c (IxInt (Z.of_nat (len c) - k)))
  /\ (forall i, ~ index_ok (len c) i -> getitem c (IxInt i) = Raise IndexError).
Proof.
  intros HI. unfold I1, shape in HI. injection HI as Hr _. unfold len. split.
  - intros k Hk. unfold getitem, NpIndex.getrow.
    rewrite (norm_index_negative _ Hk). rewrite Hr in *.
    now rewrite (norm_index_negative _ Hk).
  - intros i Hi. unfold getitem, NpIndex.getrow.
    now rewrite (norm_index_outside Hi).
Qed.

(** [c[-1]] and [c[2]] on a container of two rows. *)
Lemma getitem_integer_bounds_witness :
  I1 c_two_rows
  /\ getitem c_two_rows (IxInt (-1)) = getitem c_two_rows (IxInt 1)
  /\ getitem c_two_rows (IxInt 2) = Raise IndexError.
Proof.
  assert (HI : I1 c_two_rows) by reflexivity.
  destruct (getitem_integer_bounds HI) as [Hneg Hout].
  split; [exact HI|]. split.
  - apply (Hneg 1%Z). vm_compute. intuition discriminate.
  - apply Hout. unfold index_ok. vm_compute. intros [_ H]. discriminate.
Defined.

Lemma isna_rows (c : TimeArray) :
  I1 c ->
  isna c = Ok (map (fun p => forallb isnan (fst p) && forallb isnan (snd p))
                   (combine (rows (data c)) (rows (time_index c)))).
Proof.
  intros HI. unfold I1, shape in HI. injection HI as Hr _.
  destruct c as [[wd rd] [wt rt]]. now apply isna_same_rows.
Qed.

Lemma nth_error_nth_default {A} (l : list A) (i : nat) (d : A) :
  i < length l -> nth_error l i = Some (nth i l d).
Proof.
  revert i; induction l as [|a l IH]; intros [|i] H; simpl in *; try lia;
    [reflexivity | apply IH; lia].
Qed.

(** X5: [isna] gives one flag per row, true exactly when the row is all
    sentinel in the value matrix and in the time index; [c[i]] is [None]
    exactly for the rows that [isna] flags, and a Series of the two rows
    otherwise. *)
Theorem getitem_none_iff_isna (c : TimeArray) (i : nat) :
  I1 c ->
  i < len c ->
  let d := nth i (rows (data c)) [] in
  let t := nth i (rows (time_index c)) [] in
  exists na,
    isna c = Ok na
    /\ length na = len c
    /\ nth_error na i = Some (forallb isnan d && forallb isnan t)
    /\ getitem c (IxInt (Z.of_nat i))
       = Ok (if forallb isnan d && forallb isnan t then GotNone
             else GotSeries (TimeBase_init d t)).
Proof.
  intros HI Hi d t. pose proof HI as HI'. unfold I1, shape in HI'.
  injection HI' as Hr _. unfold len in *.
  eexists. split; [apply (isna_rows HI)|]. split; [|split].
  - rewrite length_map, length_combine. unfold nrows in *. lia.
  - rewrite nth_error_map.
    rewrite (@nth_error_combine _ _ _ _ i d t); [reflexivity | |];
      apply nth_error_nth_default; unfold nrows in *; lia.
  - unfold getitem. rewrite (getrow_nth _ Hi). rewrite Hr in Hi.
    rewrite (getrow_nth _ Hi). cbn [bind]. fold d t.
    now destruct (forallb isnan d && forallb isnan t).
Qed.

(** The rows of [from_list([s, None])]: a Series, then [None]. *)
Lemma getitem_none_iff_isna_witness :
  let c := mkTimeArray (Matrix 2 [row_of [1; 2]%Z; [nan; nan]])
                       (Matrix 2 [row_of [0; 1]%Z; [nan; nan]]) in
  I1 c
  /\ isna c = Ok [false; true]
  /\ getitem c (IxInt 1) = Ok GotNone
  /\ getitem c (IxInt 0) = Ok (GotSeries (series_of [1; 2] [0; 1])%Z).
Proof.
  intros c. assert (HI : I1 c) by reflexivity.
  split; [exact HI|].
  destruct (@getitem_none_iff_isna c 1 HI) as (na & Hna & _ & _ & H1);
    [vm_compute; lia|].
  destruct (@getitem_none_iff_isna c 0 HI) as (_ & _ & _ & _ & H0);
    [vm_compute; lia|].
  split; [vm_compute; reflexivity|]. split; [exact H1 | exact H0].
Defined.


(** ** Errors of [from_list] *)

Lemma mapM_app_raise {A B} (f : A -> result B) (l1 l2 : list A) (x : A) (e : exn) :
  Forall (fun a => returns (f a) = true) l1 ->
  f x = Raise e ->
  mapM f (l1 ++ x :: l2) = Raise e.
Proof.
  intros H Hx. induction H as [|a l1 Ha _ IH]; simpl.
  - now rewrite Hx.
  - destruct (f a); [|discriminate]. simpl. now rewrite IH.
Qed.

(** X6: an element that is no Series, container, pair, pandas Series or
    [None] makes [from_list] raise [TypeError], when the elements before it
    are accepted. *)
Theorem from_list_unsupported_element (l1 l2 : list item) :
  Forall (fun it => returns (convert it) = true) l1 ->
  from_list (l1 ++ ItOther :: l2) = Raise TypeError.
Proof.
  intros H. unfold from_list.
  now rewrite (mapM_app_raise convert l2 ItOther H eq_refl).
Qed.

(** A string between a Series and [None]. *)
Lemma from_list_unsupported_element_witness :
  from_list ([ItSeries (series_of [1; 2] [0; 1])%Z] ++ ItOther :: [ItNone])
  = Raise TypeError.
Proof.
  apply from_list_unsupported_element. repeat constructor.
Defined.

Section UnequalWidths.

Local Abbreviation entry := accepted_entry.

Lemma convert_accepted (items : list item) :
  Forall (fun it => returns (convert it) = true) items ->
  mapM convert items = Ok (map entry items).
Proof.
  intros H. apply mapM_Ok_map. eapply Forall_impl; [|exact H].
  intros [s|t|d i|v i| |]; simpl; try reflexivity; try discriminate.
  - destruct (shape_eqb (tb_data s) (tb_time_index s)); [reflexivity|discriminate].
  - destruct (shape_eqb (data t) (time_index t)); [reflexivity|discriminate].
Qed.

Lemma first_width_found (items : list item) :
  Forall (fun it => is_resolved it = true \/ it = ItNone) items ->
  Np.all (map is_none (map (fun x => snd x) (map entry items))) = false ->
  exists w,
    first_width (map is_none (map (fun x => snd x) (map entry items)))
                (map (fun x => fst (fst x)) (map entry items)) = Ok w.
Proof.
  unfold Np.all. induction 1 as [|it items Hit _ IH]; simpl; [discriminate|].
  destruct Hit as [Hit | ->].
  - destruct it; try discriminate; simpl; eauto.
  - simpl. exact IH.
Qed.

Lemma resolved_width_In (items : list item) (it : item) (a : nat) :
  In it items -> item_width it = Some a ->
  In a (resolved_widths (map (fun x => snd x) (map entry items))).
Proof.
  intros Hin Ha. unfold resolved_widths. apply in_flat_map.
  exists (Some a). split; [|now left].
  rewrite map_map. apply in_map_iff. exists it. split; [exact Ha | exact Hin].
Qed.

Lemma widths_disagree (widths : list (option nat)) (a b : nat) :
  In a (resolved_widths widths) -> In b (resolved_widths widths) -> a <> b ->
  widths_agree widths = false.
Proof.
  unfold widths_agree. destruct (resolved_widths widths) as [|w0 ws];
    [intros []|].
  intros Ha Hb Hab.
  destruct (forallb (fun w => w =? w0) (w0 :: ws)) eqn:E; [|reflexivity].
  rewrite forallb_forall in E.
  apply E, Nat.eqb_eq in Ha. apply E, Nat.eqb_eq in Hb. congruence.
Qed.

(** X7: when two resolved elements differ in width, [from_list] raises
    [ValueError], whether or not the list holds [None]. *)
Theorem from_list_unequal_widths (items : list item) (it1 it2 : item) (a b : nat) :
  Forall (fun it => returns (convert it) = true) items ->
  Forall (fun it => is_resolved it = true \/ it = ItNone) items ->
  In it1 items -> In it2 items ->
  item_width it1 = Some a -> item_width it2 = Some b -> a <> b ->
  from_list items = Raise ValueError.
Proof.
  intros Hacc Hkind H1 H2 Ha Hb Hab. unfold from_list.
  rewrite (convert_accepted Hacc). cbn [bind].
  assert (Hall : Np.all (map is_none (map (fun x => snd x) (map entry items))) = false).
  { unfold Np.all. apply not_true_is_false. intros E.
    rewrite forallb_forall in E.
    assert (Hin : In false (map is_none (map (fun x => snd x) (map entry items)))).
    { rewrite !map_map. apply in_map_iff. exists it1. split; [|exact H1].
      simpl. now rewrite Ha. }
    specialize (E _ Hin). discriminate. }
  rewrite Hall.
  pose proof (resolved_width_In items _ H1 Ha) as Hina.
  pose proof (resolved_width_In items _ H2 Hb) as Hinb.
  rewrite (widths_disagree _ Hina Hinb Hab).
  destruct (Np.any _); [|reflexivity].
  destruct (first_width_found Hkind Hall) as (w & ->). reflexivity.
Qed.

End UnequalWidths.

(** Series of widths 3 and 4. *)
Lemma from_list_unequal_widths_witness :
  from_list [ItSeries (series_of [1; 2; 3] [0; 1; 2])%Z;
             ItSeries (series_of [1; 2; 3; 4] [0; 1; 2; 3])%Z]
  = Raise ValueError.
Proof.
  apply (@from_list_unequal_widths _
           (ItSeries (series_of [1; 2; 3] [0; 1; 2])%Z)
           (ItSeries (series_of [1; 2; 3; 4] [0; 1; 2; 3])%Z) 3 4).
  - repeat constructor.
  - repeat constructor; left; reflexivity.
  - left; reflexivity.
  - right; left; reflexivity.
  - reflexivity.
  - reflexivity.
  - discriminate.
Defined.

(** ** Indexing with a boolean mask *)

Lemma mask_positions_rows {A} (d : A) (m : list bool) (pre l : list A) :
  length m = length l ->
  map (fun p => nth p (pre ++ l) d) (mask_positions (length pre) m)
  = NpIndex.compress m l.
Proof.
  revert pre l. induction m as [|b m IH]; intros pre [|x l] H; simpl in *;
    try discriminate; [reflexivity|].
  assert (Hnext : map (fun p => nth p (pre ++ x :: l) d)
                      (mask_positions (S (length pre)) m)
                  = NpIndex.compress m l).
  { replace (pre ++ x :: l) with ((pre ++ [x]) ++ l) by now rewrite <- app_assoc.
    replace (S (length pre)) with (length (pre ++ [x]))
      by (rewrite length_app; simpl; lia).
    apply IH. congruence. }
  destruct b; simpl; [|exact Hnext].
  rewrite Hnext. f_equal. rewrite nth_middle. reflexivity.
Qed.

Lemma compress_length {A} (m : list bool) (l : list A) :
  length m = length l ->
  length (NpIndex.compress m l) = length (filter (fun b => b) m).
Proof.
  revert l; induction m as [|b m IH]; intros [|x l] H; simpl in *;
    try discriminate; [reflexivity|].
  destruct b; simpl; rewrite IH; congruence.
Qed.

Lemma getrows_mask (arr : matrix) (m : list bool) :
  length m = nrows arr ->
  NpIndex.getrows arr (IxMask m)
  = Ok (Matrix (ncols arr) (NpIndex.compress m (rows arr))).
Proof.
  intros H. unfold NpIndex.getrows, positions. rewrite H, Nat.eqb_refl.
  cbn [bind]. do 2 f_equal.
  exact (mask_positions_rows [] m [] (rows arr) H).
Qed.

(** X8: a boolean mask as long as the container selects the rows at its
    true entries, in order, in both matrices; a mask of another length raises
    [IndexError]. *)
Theorem getitem_mask (c : TimeArray) (m : list bool) :
  I1 c ->
  (length m = len c ->
   getitem c (IxMask m)
   = Ok (GotArray
           (mkTimeArray
              (Matrix (ncols (data c)) (NpIndex.compress m (rows (data c))))
              (Matrix (ncols (time_index c))
                      (NpIndex.compress m (rows (time_index c)))))))
  /\ (length m <> len c -> getitem c (IxMask m) = Raise IndexError).
Proof.
  intros HI. pose proof HI as HI'. unfold I1, shape in HI'.
  injection HI' as Hr Hc. unfold len. split; intros H.
  - unfold getitem. rewrite getrows_mask by exact H. rewrite Hr in H.
    rewrite getrows_mask by exact H. cbn [bind].
    rewrite init_matrices; [reflexivity|].
    unfold shape, nrows; cbn [rows ncols]. rewrite Hc.
    rewrite !compress_length; unfold nrows in *; congruence.
  - unfold getitem, NpIndex.getrows, positions.
    apply Nat.eqb_neq in H. now rewrite H.
Qed.

(** The mask [True, False, True] on the rows A, A, B. *)
Lemma getitem_mask_witness :
  I1 c_aab
  /\ getitem c_aab (IxMask [true; false; true])
     = Ok (GotArray (mkTimeArray (matrix_of 2 [[1; 2]; [5; 6]]%Z)
                                 (matrix_of 2 [[0; 1]; [0; 1]]%Z)))
  /\ getitem c_aab (IxMask [true]) = Raise IndexError.
Proof.
  assert (HI : I1 c_aab) by reflexivity.
  destruct (getitem_mask [true; false; true] HI) as [Hsel _].
  destruct (getitem_mask [true] HI) as [_ Hbad].
  split; [exact HI|]. split.
  - rewrite Hsel by reflexivity. reflexivity.
  - apply Hbad. vm_compute. discriminate.
Defined.

(** ** [copy] and [astype] *)

(** X9: [copy()] and [astype] to the container's own type, with or without
    copy, return a container with the matrices of the receiver; [astype] to a
    type that is neither the own one, a string type nor the object type raises
    [ValueError]. *)
Theorem copy_and_astype (c : TimeArray) :
  I1 c ->
  copy c = Ok c
  /\ (forall cp, astype c DtTime cp = Ok (AsTimeArray c))
  /\ (forall cp, astype c DtOther cp = Raise ValueError).
Proof.
  intros HI.
  assert (Hcopy : copy c = Ok c).
  { unfold copy. rewrite (init_matrices _ HI). now destruct c. }
  split; [exact Hcopy|]. split; [|reflexivity].
  intros [|]; simpl; [now rewrite Hcopy | reflexivity].
Qed.

Lemma copy_and_astype_witness :
  I1 c_two_rows /\ copy c_two_rows = Ok c_two_rows.
Proof.
  assert (HI : I1 c_two_rows) by reflexivity.
  split; [exact HI | exact (proj1 (copy_and_astype HI))].
Defined.


(** ** [_concat_same_type] *)

Lemma vstack_matrices (w : nat) (ms : list matrix) :
  ms <> [] ->
  Forall (fun m => ncols m = w) ms ->
  Np.vstack (map Nd2 ms) = Ok (Matrix w (concat (map rows ms))).
Proof.
  intros Hne H. unfold Np.vstack. rewrite map_map; simpl. rewrite map_id.
  destruct ms as [|m ms]; [congruence|].
  inversion H as [|? ? Hm Hms]; subst.
  assert (Hall : forallb (fun m' => ncols m' =? ncols m) ms = true).
  { apply forallb_forall. intros m' Hin. apply Nat.eqb_eq.
    rewrite Forall_forall in Hms. auto. }
  now rewrite Hall.
Qed.

Lemma np_unique_constant (w : nat) (l : list nat) :
  l <> [] -> Forall (fun x => x = w) l -> NpSet.unique l = [w].
Proof.
  intros Hne H. apply sorted_same_elements.
  - apply np_unique_sorted.
  - repeat constructor.
  - intros x. rewrite np_unique_In. rewrite Forall_forall in H. split.
    + intros Hx. left. symmetry. auto.
    + intros [<- | []]. destruct l as [|y l]; [congruence|].
      left. apply H. now left.
Qed.

Lemma mapM_containers (xs : list TimeArray) :
  mapM (fun x => match x with
                 | PyTimeArray t => Ok t
                 | _ => Raise TypeError
                 end) (map PyTimeArray xs) = Ok xs.
Proof. induction xs; simpl; [reflexivity | now rewrite IHxs]. Qed.

Lemma mapM_not_container (l : list pyobj) :
  Exists not_a_container l ->
  mapM (fun x => match x with
                 | PyTimeArray t => Ok t
                 | _ => Raise TypeError
                 end) l = Raise TypeError.
Proof.
  induction l as [|x l IH]; intros H; [inversion H|].
  simpl. destruct x; try reflexivity. simpl.
  inversion H as [? ? Hx | ? ? Hl]; subst; [destruct Hx|].
  now rewrite (IH Hl).
Qed.

(** X10: [_concat_same_type] raises [TypeError] when an input is no container,
    and [ValueError] when the list is empty (nothing to stack) or two inputs
    have different widths above zero. *)
Theorem concat_errors :
  (forall l, Exists not_a_container l -> concat_same_type l = Raise TypeError)
  /\ concat_same_type [] = Raise ValueError
  /\ (forall xs a b,
        In a xs -> In b xs ->
        0 < ncols (data a) -> 0 < ncols (data b) ->
        ncols (data a) <> ncols (data b) ->
        concat_same_type (map PyTimeArray xs) = Raise ValueError).
Proof.
  split; [|split].
  - intros l H. unfold concat_same_type. now rewrite (mapM_not_container H).
  - reflexivity.
  - intros xs a b Ha Hb Hpa Hpb Hab. unfold concat_same_type.
    rewrite mapM_containers. cbn [bind].
    set (u := NpSet.unique _).
    assert (Hin : forall x, In x xs -> 0 < ncols (data x) -> In (ncols (data x)) u).
    { intros x Hx Hp. unfold u. apply np_unique_In, filter_In. split.
      - apply in_map_iff. now exists x.
      - now apply Nat.ltb_lt. }
    pose proof (Hin a Ha Hpa) as Hua. pose proof (Hin b Hb Hpb) as Hub.
    destruct u as [|x [|y u']]; [destruct Hua | | reflexivity].
    destruct Hua as [Ea | []]. destruct Hub as [Eb | []]. congruence.
Qed.

Section ConcatWidth.

Variable w : nat.

Local Abbreviation fits := (fits_width w).

Lemma ref_width_found (xs : list TimeArray) :
  Forall fits xs ->
  w = 0 \/ (exists x, In x xs /\ ncols (data x) = w) ->
  match NpSet.unique (filter (fun k => 0 <? k) (map (fun x => ncols (data x)) xs)) with
  | [] => Ok 0
  | [k] => Ok k
  | _ => Raise ValueError
  end = Ok w.
Proof.
  intros H Hw.
  assert (Hall : Forall (fun k => k = w)
                        (filter (fun k => 0 <? k) (map (fun x => ncols (data x)) xs))).
  { apply Forall_forall. intros k Hk. apply filter_In in Hk as [Hk Hpos].
    apply in_map_iff in Hk as (x & <- & Hx). apply Nat.ltb_lt in Hpos.
    rewrite Forall_forall in H. destruct (H x Hx) as [_ [E | E]]; [lia | exact E]. }
  destruct (filter _ _) as [|k0 ks] eqn:E.
  - simpl. destruct Hw as [-> | (x & Hx & Hxw)]; [reflexivity|].
    destruct (Nat.eq_dec w 0) as [-> | Hne]; [reflexivity|].
    exfalso. assert (Hin : In w (filter (fun k => 0 <? k)
                                        (map (fun x => ncols (data x)) xs))).
    { apply filter_In. split; [apply in_map_iff; now exists x|].
      apply Nat.ltb_lt. lia. }
    rewrite E in Hin. destruct Hin.
  - rewrite (@np_unique_constant w); [reflexivity | discriminate | exact Hall].
Qed.

Lemma stacked_ncols (f : TimeArray -> matrix) (xs : list TimeArray) :
  (forall x, fits x -> ncols (f x) = ncols (data x)) ->
  Forall fits xs ->
  Forall (fun m => ncols m = w)
         (map (fun x => if ncols (data x) =? 0
                        then empty (nrows (data x)) w else f x) xs).
Proof.
  intros Hf H. apply Forall_map. eapply Forall_impl; [|exact H].
  intros x Hx. destruct (ncols (data x) =? 0) eqn:E; [reflexivity|].
  apply Nat.eqb_neq in E. rewrite (Hf x Hx).
  destruct Hx as [_ [E' | E']]; [contradiction | exact E'].
Qed.

Lemma stacked_rows_spec (f : TimeArray -> matrix) (xs : list TimeArray) :
  map rows (map (fun x => if ncols (data x) =? 0
                          then empty (nrows (data x)) w else f x) xs)
  = map (stacked_rows w f) xs.
Proof.
  rewrite map_map. apply map_ext. intros x. unfold stacked_rows.
  now destruct (ncols (data x) =? 0).
Qed.

Lemma stacked_rows_length (f : TimeArray -> matrix) (xs : list TimeArray) :
  (forall x, fits x -> nrows (f x) = nrows (data x)) ->
  Forall fits xs ->
  length (concat (map (stacked_rows w f) xs)) = list_sum (map len xs).
Proof.
  intros Hf H. induction H as [|x xs Hx _ IH]; [reflexivity|].
  simpl. rewrite length_app, IH. f_equal. unfold stacked_rows, len.
  destruct (ncols (data x) =? 0); [apply repeat_length | apply (Hf x Hx)].
Qed.

Lemma concat_stacked (xs : list TimeArray) :
  xs <> [] ->
  Forall fits xs ->
  w = 0 \/ (exists x, In x xs /\ ncols (data x) = w) ->
  exists r,
    concat_same_type (map PyTimeArray xs) = Ok r
    /\ data r = Matrix w (concat (map (stacked_rows w data) xs))
    /\ time_index r = Matrix w (concat (map (stacked_rows w time_index) xs))
    /\ len r = list_sum (map len xs).
Proof.
  intros Hne H Hw. unfold concat_same_type.
  rewrite mapM_containers. cbn [bind].
  rewrite (ref_width_found H Hw). cbn [bind].
  assert (Hne' : forall g : TimeArray -> matrix, map g xs <> [])
    by (intros g; destruct xs; [congruence | discriminate]).
  assert (HfI : forall x, fits x -> ncols (time_index x) = ncols (data x)
                                    /\ nrows (time_index x) = nrows (data x)).
  { intros x [HI _]. unfold I1, shape in HI. injection HI as Hr Hc. auto. }
  assert (Hpick : forall f : TimeArray -> matrix,
             map (fun x => if ncols (data x) =? 0
                           then Nd2 (empty (nrows (data x)) w) else Nd2 (f x)) xs
             = map Nd2 (map (fun x => if ncols (data x) =? 0
                                      then empty (nrows (data x)) w else f x) xs)).
  { intros f. rewrite map_map. apply map_ext. intros x.
    now destruct (ncols (data x) =? 0). }
  rewrite !Hpick.
  rewrite (@vstack_matrices w); [| apply Hne' | now apply stacked_ncols].
  cbn [bind].
  rewrite (@vstack_matrices w);
    [| apply Hne' | apply stacked_ncols; [intros x Hx; apply (HfI x Hx) | exact H]].
  cbn [bind]. rewrite !stacked_rows_spec.
  assert (Hld : length (concat (map (stacked_rows w data) xs)) = list_sum (map len xs))
    by (apply stacked_rows_length; auto).
  assert (Hlt : length (concat (map (stacked_rows w time_index) xs))
                = list_sum (map len xs))
    by (apply stacked_rows_length; [intros x Hx; apply (HfI x Hx) | exact H]).
  rewrite init_matrices
    by (unfold shape, nrows; cbn [rows ncols]; congruence).
  eexists. split; [reflexivity|]. cbn [data time_index].
  split; [reflexivity|]. split; [reflexivity|]. exact Hld.
Qed.

(** X11: the concatenation of containers that have no column or [w] columns
    has [w] columns and as many rows as the inputs together; it stacks their
    rows in order, a container without columns giving as many rows of
    sentinels as it has rows. *)
Theorem concat_pads_and_stacks (xs : list TimeArray) :
  xs <> [] ->
  Forall fits xs ->
  w = 0 \/ (exists x, In x xs /\ ncols (data x) = w) ->
  exists r,
    concat_same_type (map PyTimeArray xs) = Ok r
    /\ I1 r
    /\ shape (data r) = (list_sum (map len xs), w)
    /\ rows (data r) = concat (map (stacked_rows w data) xs)
    /\ rows (time_index r) = concat (map (stacked_rows w time_index) xs).
Proof.
  intros Hne H Hw.
  destruct (concat_stacked Hne H Hw) as (r & Hr & Hd & Ht & Hl).
  exists r. split; [exact Hr|].
  assert (Hs : shape (data r) = (list_sum (map len xs), w))
    by (unfold shape; rewrite <- Hl; unfold len; now rewrite Hd).
  split; [|split; [exact Hs | now rewrite Hd, Ht]].
  unfold concat_same_type in Hr.
  inv_bind Hr as ys Hys. inv_bind Hr as k Hk. inv_bind Hr as d' Hd'.
  inv_bind Hr as t' Ht'. eapply init_I1; exact Hr.
Qed.

End ConcatWidth.

(** A container of two missing rows before one of two rows of width 2. *)
Lemma concat_pads_and_stacks_witness :
  let missing := mkTimeArray (Np.full 2 0 nan) (Np.full 2 0 nan) in
  exists r,
    concat_same_type [PyTimeArray missing; PyTimeArray c_two_rows] = Ok r
    /\ rows (data r) = [[nan; nan]; [nan; nan]; row_of [1; 2]%Z; row_of [5; 6]%Z]
    /\ len r = 4.
Proof.
  intros missing.
  destruct (@concat_pads_and_stacks 2 [missing; c_two_rows])
    as (r & Hr & _ & Hs & Hd & _).
  - discriminate.
  - repeat constructor; (left; reflexivity) || (right; reflexivity).
  - right. exists c_two_rows. split; [right; left; reflexivity | reflexivity].
  - exists r. split; [exact Hr|]. rewrite Hd. split; [reflexivity|].
    unfold len. unfold shape in Hs. now injection Hs as -> _.
Defined.

Lemma rows_without_columns (m : matrix) :
  rectangular m -> ncols m = 0 -> rows m = repeat [] (nrows m).
Proof.
  unfold rectangular, nrows. intros H Hc. rewrite Hc in H.
  induction H as [|r rs Hr _ IH]; [reflexivity|].
  simpl. rewrite <- IH. destruct r; [reflexivity | discriminate].
Qed.

(** X12: concatenating a single container gives that container back. *)
Theorem concat_single (c : TimeArray) :
  well_formed c ->
  concat_same_type [PyTimeArray c] = Ok c.
Proof.
  intros (Hrd & Hrt & HI).
  destruct (@concat_stacked (ncols (data c)) [c]) as (r & Hr & Hd & Ht & _).
  - discriminate.
  - constructor; [split; [exact HI | now right] | constructor].
  - right. exists c. split; [now left | reflexivity].
  - change (map PyTimeArray [c]) with [PyTimeArray c] in Hr. rewrite Hr. f_equal.
    pose proof HI as HI'. unfold I1, shape in HI'. injection HI' as Hrows Hcols.
    destruct r as [rd rt]. cbn [data time_index] in Hd, Ht. subst rd rt.
    cbn [map concat]. rewrite !app_nil_r. unfold stacked_rows.
    destruct (ncols (data c) =? 0) eqn:E.
    + apply Nat.eqb_eq in E. rewrite E. change (repeat nan 0) with (@nil cell).
      assert (E' : ncols (time_index c) = 0) by congruence.
      pose proof (rows_without_columns Hrd E) as Hd0.
      pose proof (rows_without_columns Hrt E') as Ht0.
      rewrite Hrows at 2. rewrite <- Hd0, <- Ht0.
      destruct c as [[wd rd] [wt rt]]. cbn [data time_index ncols rows] in *.
      now subst wd wt.
    + rewrite Hcols at 2. rewrite !matrix_eta. now destruct c.
Qed.

Lemma concat_single_witness :
  well_formed c_two_rows /\ concat_same_type [PyTimeArray c_two_rows] = Ok c_two_rows.
Proof.
  assert (H : well_formed c_two_rows) by (repeat split; repeat constructor).
  split; [exact H | exact (concat_single H)].
Defined.


(** ** The constructor *)

Lemma arange_length (w : nat) : length (Np.arange w) = w.
Proof. unfold Np.arange. now rewrite length_map, length_seq. Qed.

Lemma vstack_rows (r : list cell) (k : nat) :
  Np.vstack (map (fun _ => Nd1 r) (seq 0 (S k)))
  = Ok (Matrix (length r) (repeat r (S k))).
Proof.
  rewrite map_const_seq. unfold Np.vstack. rewrite map_repeat.
  cbn [Np.atleast_2d repeat].
  assert (Hall : forallb (fun m' => ncols m' =? ncols (Matrix (length r) [r]))
                         (repeat (Matrix (length r) [r]) k) = true).
  { induction k; simpl; [reflexivity|]. rewrite Nat.eqb_refl. exact IHk. }
  rewrite Hall. cbn [ncols]. do 2 f_equal.
  change (Matrix (length r) [r] :: repeat (Matrix (length r) [r]) k)
    with (repeat (Matrix (length r) [r]) (S k)).
  rewrite map_repeat. cbn [rows]. exact (concat_repeat_singleton r (S k)).
Qed.

(** X13: built from a value matrix alone, a container gets the time index
    [0, 1, ..., w-1] in every row, whatever the number of rows and the copy
    flag; the constructor never fails on a 2-dimensional array without a
    time index. *)
Theorem init_default_time_index (m : matrix) (cp : bool) :
  TimeArray_init (PyNdarray (Nd2 m)) PyNone cp
  = Ok (mkTimeArray m (Matrix (ncols m) (repeat (Np.arange (ncols m)) (nrows m)))).
Proof.
  unfold TimeArray_init. cbn [bind].
  destruct (nrows m =? 1) eqn:H1; [|destruct (1 <? nrows m) eqn:H2].
  - apply Nat.eqb_eq in H1. rewrite H1. cbn [bind repeat check_data_index].
    unfold shape_eqb. cbn [ncols]. unfold nrows at 2. cbn [rows length].
    now rewrite H1, !Nat.eqb_refl.
  - apply Nat.ltb_lt in H2. destruct (nrows m) as [|k] eqn:En; [lia|].
    rewrite vstack_rows. cbn [bind check_data_index]. rewrite arange_length.
    unfold shape_eqb. cbn [ncols]. unfold nrows at 2. cbn [rows].
    now rewrite repeat_length, En, !Nat.eqb_refl.
  - apply Nat.eqb_neq in H1. apply Nat.ltb_ge in H2.
    assert (E : nrows m = 0) by lia. rewrite E. cbn [bind repeat check_data_index].
    unfold shape_eqb. rewrite !Nat.eqb_refl. cbn [andb].
    destruct m as [w rs]. unfold nrows in E. cbn [rows ncols] in *.
    now destruct rs.
Qed.

(** X14: the constructor checks the value argument first: what is neither
    [None], a container nor an array is a [TypeError], an array that is not
    2-dimensional a [ValueError], whatever the time index; a time index that
    is given and is no array is a [TypeError]. *)
Theorem init_rejects (ti : pyobj) (cp : bool) :
  TimeArray_init PyOther ti cp = Raise TypeError
  /\ (forall a, ndim a <> 2 -> TimeArray_init (PyNdarray a) ti cp = Raise ValueError)
  /\ (forall m, ti = PyOther \/ (exists t, ti = PyTimeArray t) ->
                TimeArray_init (PyNdarray (Nd2 m)) ti cp = Raise TypeError
                /\ TimeArray_init PyNone ti cp = Raise TypeError).
Proof.
  split; [reflexivity|]. split.
  - intros [x|xs|m] H; [reflexivity | reflexivity | now contradiction H].
  - intros m [-> | (t & ->)]; split; reflexivity.
Qed.

(** A row as value argument; a container as time index. *)
Lemma init_rejects_witness :
  TimeArray_init (PyNdarray (Nd1 (row_of [1; 2]%Z))) PyNone false = Raise ValueError
  /\ TimeArray_init (PyNdarray (Nd2 (data c_123))) (PyTimeArray c_123) false
     = Raise TypeError.
Proof.
  destruct (init_rejects PyNone false) as (_ & H1 & _).
  destruct (init_rejects (PyTimeArray c_123) false) as (_ & _ & H2).
  split.
  - apply H1. discriminate.
  - apply (H2 (data c_123)). right. now exists c_123.
Defined.

(** X15: built from a container, the new container has the same two
    matrices; a time index given besides replaces that of the container, and
    is accepted when it has the shape of the values. *)
Theorem init_from_container (c : TimeArray) (cp : bool) :
  I1 c ->
  TimeArray_init (PyTimeArray c) PyNone cp = Ok c
  /\ (forall t, shape t = shape (data c) ->
                TimeArray_init (PyTimeArray c) (PyNdarray (Nd2 t)) cp
                = Ok (mkTimeArray (data c) t)).
Proof.
  intros HI. unfold I1, shape in HI. injection HI as Hr Hc. split.
  - unfold TimeArray_init. cbn [bind check_data_index]. unfold shape_eqb.
    rewrite Hr, Hc, !Nat.eqb_refl. now destruct c.
  - intros t Ht. unfold shape in Ht. injection Ht as Hr' Hc'.
    unfold TimeArray_init. cbn [bind check_data_index]. unfold shape_eqb.
    now rewrite Hr', Hc', !Nat.eqb_refl.
Qed.

Lemma init_from_container_witness :
  I1 c_123
  /\ TimeArray_init (PyTimeArray c_123) PyNone true = Ok c_123
  /\ TimeArray_init (PyTimeArray c_123) (PyNdarray (Nd2 (time_index c_123_at_056))) true
     = Ok c_123_at_056.
Proof.
  assert (HI : I1 c_123) by reflexivity.
  destruct (init_from_container true HI) as [H1 H2].
  split; [exact HI|]. split; [exact H1|].
  apply (H2 (time_index c_123_at_056)). reflexivity.
Defined.


(** ** [slice_time] *)

Lemma getrow_first (m : matrix) :
  0 < nrows m -> NpIndex.getrow m 0 = Ok (nth 0 (rows m) []).
Proof. intros H. exact (getrow_nth m H). Qed.

Lemma getrow_no_row (m : matrix) :
  nrows m = 0 -> NpIndex.getrow m 0 = Raise IndexError.
Proof. intros H. unfold NpIndex.getrow. now rewrite H. Qed.

Lemma first_row_length (m : matrix) :
  rectangular m -> 0 < nrows m -> length (nth 0 (rows m) []) = ncols m.
Proof.
  unfold rectangular, nrows. intros H Hn. rewrite Forall_forall in H.
  apply H, nth_In, Hn.
Qed.

Lemma compress_filter {A} (f : A -> bool) (l : list A) :
  NpIndex.compress (map f l) l = filter f l.
Proof. induction l as [|x l IH]; simpl; [reflexivity|]. now rewrite IH. Qed.

Lemma filter_true_length {A} (f : A -> bool) (l : list A) :
  length (filter (fun b => b) (map f l)) = length (filter f l).
Proof.
  induction l as [|x l IH]; simpl; [reflexivity|].
  destruct (f x); simpl; now rewrite IH.
Qed.

(** X16: [slice_time] keeps, in every row of both matrices, the columns at
    which the first time row holds one of the requested times; the first time
    row of the result is the requested part of the first time row of the
    receiver, in its order.  The other rows are cut at the same columns,
    whatever times they hold.  A container without rows has no first time row:
    [IndexError]. *)
Theorem slice_time_columns (c : TimeArray) (times : list cell) :
  I1 c ->
  rectangular (time_index c) ->
  let row0 := nth 0 (rows (time_index c)) [] in
  let sel := NpSet.isin row0 times in
  (len c = 0 -> slice_time c times = Raise IndexError)
  /\ (0 < len c ->
      exists r,
        slice_time c times = Ok r
        /\ I1 r
        /\ rows (data r) = map (NpIndex.compress sel) (rows (data c))
        /\ rows (time_index r) = map (NpIndex.compress sel) (rows (time_index c))
        /\ nth 0 (rows (time_index r)) []
           = filter (fun x => existsb (cell_eq x) times) row0).
Proof.
  intros HI Hrt row0 sel. pose proof HI as HI'. unfold I1, shape in HI'.
  injection HI' as Hr Hc. unfold len. split; intros Hn.
  - unfold slice_time. rewrite getrow_no_row by congruence. reflexivity.
  - rewrite Hr in Hn. unfold slice_time. rewrite (getrow_first _ Hn).
    cbn [bind]. fold row0. fold sel.
    assert (Hsel : length sel = ncols (time_index c)).
    { unfold sel, NpSet.isin. rewrite length_map. now apply first_row_length. }
    unfold NpIndex.getcols. rewrite Hsel, Hc, Nat.eqb_refl. cbn [bind].
    rewrite init_matrices
      by (unfold shape, nrows; cbn [rows ncols]; rewrite !length_map;
          unfold nrows in Hr; now rewrite Hr).
    eexists. split; [reflexivity|]. cbn [data time_index rows].
    split; [|split; [reflexivity | split; [reflexivity|]]].
    + unfold I1, shape, nrows; cbn [data time_index rows ncols].
      rewrite !length_map. unfold nrows in Hr. now rewrite Hr.
    + unfold nrows in Hn. destruct (rows (time_index c)) as [|r0 rs] eqn:E;
        [simpl in Hn; lia|].
      cbn [map nth]. unfold sel, NpSet.isin. subst row0. cbn [nth].
      apply compress_filter.
Qed.

(** The times [0] and [6] of the row with the times [0, 5, 6]. *)
Lemma slice_time_columns_witness :
  I1 c_123_at_056
  /\ rectangular (time_index c_123_at_056)
  /\ exists r,
       slice_time c_123_at_056 (row_of [6; 0; 7]%Z) = Ok r
       /\ rows (data r) = [row_of [1; 3]%Z]
       /\ rows (time_index r) = [row_of [0; 6]%Z].
Proof.
  assert (HI : I1 c_123_at_056) by reflexivity.
  assert (Hrt : rectangular (time_index c_123_at_056)) by (repeat constructor).
  split; [exact HI|]. split; [exact Hrt|].
  destruct (slice_time_columns (row_of [6; 0; 7]%Z) HI Hrt) as [_ H].
  destruct H as (r & Hr & _ & Hd & Ht & _); [vm_compute; lia|].
  exists r. split; [exact Hr|]. rewrite Hd, Ht. split; vm_compute; reflexivity.
Defined.


(** ** [check_equal_index] *)

Lemma map2_repeat {A B C} (f : A -> B -> C) (l : list A) (x : B) :
  NpIndex.map2 f l (repeat x (length l)) = map (fun a => f a x) l.
Proof. induction l as [|a l IH]; simpl; [reflexivity | now rewrite IH]. Qed.

Lemma broadcast_row (r : list cell) (n : nat) :
  NpIndex.broadcast_to (Matrix (length r) [r]) n (length r)
  = Ok (Matrix (length r) (repeat r n)).
Proof.
  unfold NpIndex.broadcast_to, nrows. cbn [rows ncols length].
  rewrite !Nat.eqb_refl, !orb_true_r. cbn [andb orb].
  destruct (1 =? n) eqn:E.
  - apply Nat.eqb_eq in E. subst n. cbn [map repeat]. reflexivity.
  - cbn [hd]. now rewrite map_id.
Qed.

(** [np.all(m == m[0])] on a matrix with a first row. *)
Lemma all_eq_first_row (m : matrix) :
  rectangular m -> 0 < nrows m ->
  NpIndex.all_eq m (Matrix (length (nth 0 (rows m) [])) [nth 0 (rows m) []])
  = forallb (fun r => Np.all (NpIndex.map2 cell_eq r (nth 0 (rows m) []))) (rows m).
Proof.
  intros Hrect Hn. set (row0 := nth 0 (rows m) []).
  assert (Hw : length row0 = ncols m) by now apply first_row_length.
  unfold NpIndex.all_eq, NpIndex.elementwise.
  assert (Hd : NpIndex.bcast_dim (nrows m) (nrows (Matrix (length row0) [row0]))
               = Some (nrows m)).
  { unfold NpIndex.bcast_dim, nrows at 2. cbn [rows length].
    destruct (nrows m =? 1) eqn:E; [reflexivity|]. reflexivity. }
  rewrite Hd. cbn [ncols]. rewrite Hw. unfold NpIndex.bcast_dim at 1.
  rewrite Nat.eqb_refl.
  assert (Hm : NpIndex.broadcast_to m (nrows m) (ncols m) = Ok m).
  { unfold NpIndex.broadcast_to. rewrite !Nat.eqb_refl. cbn [orb andb].
    rewrite map_id. now rewrite matrix_eta. }
  rewrite Hm. rewrite <- Hw. rewrite (broadcast_row row0). cbn [rows].
  unfold nrows. clear. clearbody row0.
  induction (rows m) as [|r l IH]; [reflexivity|].
  cbn [length repeat NpIndex.map2 forallb]. now rewrite IH.
Qed.

Lemma all_eq_self_row (r : list cell) :
  Np.all (NpIndex.map2 cell_eq r r) = forallb (fun x => negb (isnan x)) r.
Proof.
  unfold Np.all. induction r as [|x r IH]; [reflexivity|].
  cbn [NpIndex.map2 forallb]. now rewrite IH, cell_eq_refl.
Qed.

(** X17: [check_equal_index] is true on a container without rows; with rows
    it compares every time row with the first one, cell by cell, so it is
    false as soon as the first time row holds a sentinel, also when all rows
    are the same. *)
Theorem check_equal_index_rows (c : TimeArray) :
  rectangular (time_index c) ->
  let row0 := nth 0 (rows (time_index c)) [] in
  check_equal_index c
  = Ok (forallb (fun r => Np.all (NpIndex.map2 cell_eq r row0)) (rows (time_index c)))
  /\ (0 < nrows (time_index c) -> existsb isnan row0 = true ->
      check_equal_index c = Ok false).
Proof.
  intros Hrt row0.
  assert (H : check_equal_index c
              = Ok (forallb (fun r => Np.all (NpIndex.map2 cell_eq r row0))
                            (rows (time_index c)))).
  { unfold check_equal_index. destruct (nrows (time_index c) =? 0) eqn:E.
    - apply Nat.eqb_eq in E. unfold nrows in E.
      now destruct (rows (time_index c)).
    - apply Nat.eqb_neq in E. assert (Hn : 0 < nrows (time_index c)) by lia.
      rewrite (getrow_first _ Hn). cbn [bind].
      now rewrite (all_eq_first_row Hrt Hn). }
  split; [exact H|]. intros Hn Hnan. rewrite H. f_equal.
  unfold nrows in Hn. subst row0.
  destruct (rows (time_index c)) as [|r0 rs]; [simpl in Hn; lia|].
  cbn [nth forallb]. cbn [nth] in Hnan. rewrite all_eq_self_row.
  assert (Hf : forallb (fun x => negb (isnan x)) r0 = false).
  { clear -Hnan. induction r0 as [|x r IH]; [discriminate|]. simpl in *.
    destruct (isnan x); [reflexivity|]. simpl in *. auto. }
  now rewrite Hf.
Qed.

(** Two equal rows whose first time is the sentinel. *)
Lemma check_equal_index_rows_witness :
  let t := Matrix 2 [[nan; of_Z 1]; [nan; of_Z 1]] in
  rectangular t /\ check_equal_index (mkTimeArray t t) = Ok false.
Proof.
  intros t. assert (Hrt : rectangular t) by (repeat constructor).
  split; [exact Hrt|].
  apply (@check_equal_index_rows (mkTimeArray t t) Hrt); [vm_compute; lia | reflexivity].
Defined.

(** ** [tabularise] and [tabularize] *)

(** X18: [tabularise] returns the value matrix when [return_array] is set,
    whatever the name; otherwise a frame of the value matrix whose column
    labels are the name (["dim"] when none is given), ["_"] and the string of
    each time of the first time row. *)
Theorem tabularise_frame (str : cell -> string) (c : TimeArray) (name : string) :
  I1 c ->
  rectangular (time_index c) ->
  0 < len c ->
  let row0 := nth 0 (rows (time_index c)) [] in
  tabularise str c (NameStr name) false
  = Ok (TabFrame (map (fun i => name ++ "_" ++ str i)%string row0) (data c))
  /\ tabularise str c NameNone false = tabularise str c (NameStr "dim") false
  /\ (forall nm, tabularise str c nm true = Ok (TabArray (data c))).
Proof.
  intros HI Hrt Hn row0. unfold I1, shape in HI. injection HI as Hr Hc.
  unfold len in Hn. rewrite Hr in Hn.
  split; [|split; [reflexivity | intros nm; reflexivity]].
  unfold tabularise. rewrite (getrow_first _ Hn). cbn [bind]. fold row0.
  rewrite (mapM_Ok_map _ (fun i => name ++ "_" ++ str i)%string)
    by (apply Forall_forall; reflexivity).
  cbn [bind]. rewrite length_map. unfold row0.
  rewrite (first_row_length Hrt Hn), Hc, Nat.eqb_refl. reflexivity.
Qed.

Lemma tabularise_frame_witness :
  I1 c_123_at_056
  /\ tabularise Repr.str c_123_at_056 NameNone false
     = Ok (TabFrame ["dim_0.0"; "dim_5.0"; "dim_6.0"]%string (data c_123_at_056)).
Proof.
  assert (HI : I1 c_123_at_056) by reflexivity.
  assert (Hrt : rectangular (time_index c_123_at_056)) by (repeat constructor).
  assert (Hn : 0 < len c_123_at_056) by (vm_compute; lia).
  destruct (tabularise_frame Repr.str "dim" HI Hrt Hn) as (H1 & H2 & _).
  split; [exact HI|]. rewrite H2, H1. vm_compute. reflexivity.
Defined.

(** X19: [tabularize] passes its flag as the name: it never returns the value
    matrix, and on a container with rows and columns it raises [TypeError],
    whatever the flag. *)
Theorem tabularize_drops_flag (str : cell -> string) (c : TimeArray)
  (return_array : bool) :
  I1 c ->
  rectangular (time_index c) ->
  tabularize str c return_array
  = if len c =? 0 then Raise IndexError
    else if ncols (data c) =? 0 then Ok (TabFrame [] (data c))
    else Raise TypeError.
Proof.
  intros HI Hrt. unfold I1, shape in HI. injection HI as Hr Hc.
  unfold tabularize, tabularise, len.
  destruct (nrows (data c) =? 0) eqn:E.
  - apply Nat.eqb_eq in E. rewrite getrow_no_row by congruence. reflexivity.
  - apply Nat.eqb_neq in E.
    assert (Hn : 0 < nrows (time_index c)) by lia.
    rewrite (getrow_first _ Hn). cbn [bind].
    pose proof (first_row_length Hrt Hn) as Hw. rewrite <- Hc in Hw.
    destruct (nth 0 (rows (time_index c)) []) as [|x r].
    + simpl in Hw. rewrite <- Hw. reflexivity.
    + simpl in Hw. rewrite <- Hw. reflexivity.
Qed.

Lemma tabularize_drops_flag_witness :
  I1 c_123
  /\ tabularize Repr.str c_123 true = Raise TypeError
  /\ tabularize Repr.str c_123 false = Raise TypeError.
Proof.
  assert (HI : I1 c_123) by reflexivity.
  assert (Hrt : rectangular (time_index c_123)) by (repeat constructor).
  split; [exact HI|].
  split; [exact (tabularize_drops_flag Repr.str true HI Hrt)
         | exact (tabularize_drops_flag Repr.str false HI Hrt)].
Defined.


(** ** [from_pandas] on a data frame *)

Lemma forallb_repeat {A} (f : A -> bool) (x : A) (n : nat) :
  0 < n -> forallb f (repeat x n) = f x.
Proof.
  intros Hn. destruct n as [|n]; [lia|]. clear Hn. simpl.
  induction n as [|n IH]; simpl; [apply andb_true_r|].
  rewrite IH. now destruct (f x).
Qed.

(** X20: [from_pandas] on a data frame takes the values of the frame as value
    matrix and repeats the column labels as time row of every row; on a frame
    with rows, [tabularise] gives the values back under the labels ["dim_"]
    and label, and [check_equal_index] is true exactly when no label is the
    sentinel. *)
Theorem from_pandas_frame (str : cell -> string) (columns : list cell)
  (values : matrix) :
  length columns = ncols values ->
  exists c,
    from_pandas (PdDataFrame columns values) = Ok c
    /\ data c = values
    /\ rows (time_index c) = repeat columns (nrows values)
    /\ (0 < nrows values ->
        tabularise str c NameNone false
        = Ok (TabFrame (map (fun i => "dim_" ++ str i)%string columns) values)
        /\ check_equal_index c = Ok (forallb (fun x => negb (isnan x)) columns)).
Proof.
  intros Hw. unfold from_pandas.
  rewrite init_matrices
    by (unfold shape, nrows; cbn [rows ncols]; now rewrite repeat_length, Hw).
  eexists. split; [reflexivity|]. cbn [data time_index rows].
  split; [reflexivity|]. split; [reflexivity|]. intros Hn.
  set (t := Matrix (length columns) (repeat columns (nrows values))).
  assert (Hnt : 0 < nrows t) by (unfold t, nrows; cbn [rows]; now rewrite repeat_length).
  assert (Hrt : rectangular t).
  { unfold rectangular, t. cbn [rows ncols]. apply Forall_forall.
    intros r Hr. now apply repeat_spec in Hr as ->. }
  assert (H0 : nth 0 (rows t) [] = columns).
  { unfold t. cbn [rows]. destruct (nrows values); [lia | reflexivity]. }
  split.
  - unfold tabularise. cbn [data time_index]. rewrite (getrow_first _ Hnt), H0.
    cbn [bind].
    rewrite (mapM_Ok_map _ (fun i => "dim_" ++ str i)%string)
      by (apply Forall_forall; reflexivity).
    cbn [bind]. now rewrite length_map, Hw, Nat.eqb_refl.
  - unfold check_equal_index. cbn [time_index].
    destruct (nrows t =? 0) eqn:E; [apply Nat.eqb_eq in E; lia|].
    rewrite (getrow_first _ Hnt). cbn [bind].
    rewrite (all_eq_first_row Hrt Hnt), H0. f_equal. unfold t. cbn [rows].
    rewrite forallb_repeat by exact Hn. apply all_eq_self_row.
Qed.

(** A frame of two rows under the labels [0] and [1]. *)
Lemma from_pandas_frame_witness :
  exists c,
    from_pandas (PdDataFrame (row_of [0; 1]%Z) (matrix_of 2 [[1; 2]; [5; 6]]%Z)) = Ok c
    /\ c = c_two_rows
    /\ check_equal_index c = Ok true.
Proof.
  destruct (@from_pandas_frame Repr.str (row_of [0; 1]%Z)
              (matrix_of 2 [[1; 2]; [5; 6]]%Z) eq_refl)
    as (c & Hc & Hd & Ht & H).
  exists c. split; [exact Hc|].
  destruct H as [_ He]; [vm_compute; lia|].
  split; [|rewrite He; reflexivity].
  destruct c as [d [w t]]. cbn [data time_index rows] in *. subst d t.
  unfold from_pandas in Hc. vm_compute in Hc. inversion Hc. reflexivity.
Defined.

(** ** [__array__], [_from_sequence] and the factorization hooks *)

Lemma rectangular_nth (m : matrix) (i : nat) :
  rectangular m -> i < nrows m -> length (nth i (rows m) []) = ncols m.
Proof.
  unfold rectangular, nrows. intros H Hi. rewrite Forall_forall in H.
  apply H, nth_In, Hi.
Qed.

(** X21: the rows that [__array__] lists are as many as the container is
    long, and [_from_sequence] builds the container again from them, also
    from rows that are all sentinel; given a container, [_from_sequence]
    returns it. *)
Theorem from_sequence_of_rows (c : TimeArray) :
  well_formed c ->
  0 < len c ->
  exists objs,
    array_ c = Ok objs
    /\ length objs = len c
    /\ from_sequence (ScList (map ItSeries objs)) = Ok c
    /\ from_sequence (ScArray c) = Ok c.
Proof.
  intros (Hrd & Hrt & HI) Hn. pose proof HI as HI'. unfold I1, shape in HI'.
  injection HI' as Hr Hc. unfold len in *.
  eexists. split; [apply (array_rows HI)|].
  split; [now rewrite length_map, length_seq|]. split; [|reflexivity].
  cbn [from_sequence]. rewrite map_map.
  rewrite (@from_list_rows (ncols (data c))).
  - rewrite !map_map.
    change (fun x : nat => item_values (ncols (data c))
              (ItSeries (TimeBase_init (nth x (rows (data c)) [])
                                       (nth x (rows (time_index c)) []))))
      with (fun x : nat => nth x (rows (data c)) []).
    change (fun x : nat => item_times (ncols (data c))
              (ItSeries (TimeBase_init (nth x (rows (data c)) [])
                                       (nth x (rows (time_index c)) []))))
      with (fun x : nat => nth x (rows (time_index c)) []).
    rewrite Hr at 2. unfold nrows. rewrite !map_nth_seq.
    rewrite Hc at 2. rewrite !matrix_eta. now destruct c.
  - apply Forall_map, Forall_forall. intros i Hi. apply in_seq in Hi.
    simpl. unfold shape, nrows; simpl.
    rewrite (rectangular_nth Hrd) by lia.
    rewrite (rectangular_nth Hrt) by lia. now rewrite Hc.
  - exists (ItSeries (TimeBase_init (nth 0 (rows (data c)) [])
                                    (nth 0 (rows (time_index c)) []))).
    split; [|reflexivity].
    apply in_map_iff. exists 0. split; [reflexivity|]. apply in_seq. lia.
Qed.

Lemma from_sequence_of_rows_witness :
  well_formed c_aab
  /\ exists objs,
       array_ c_aab = Ok objs
       /\ from_sequence (ScList (map ItSeries objs)) = Ok c_aab.
Proof.
  assert (H : well_formed c_aab) by (repeat split; repeat constructor).
  split; [exact H|].
  destruct (from_sequence_of_rows H) as (objs & Ha & _ & Hs & _); [vm_compute; lia|].
  exists objs. split; [exact Ha | exact Hs].
Defined.

Section Factorize.

Variable str : cell -> string.
Variable float_of_string : string -> option cell.

(** X22: [_from_factorized] applied to the values of [_values_for_factorize]
    returns the container with values and times exchanged: the hooks are
    [to_ts] and [from_ts], which disagree on the order in a pair. *)
Theorem factorize_hooks_exchange (c : TimeArray) :
  well_formed c ->
  0 < len c ->
  0 < ncols (data c) ->
  Forall (printable str float_of_string) (cells_of c) ->
  exists vals,
    values_for_factorize str c = Ok (vals, None)
    /\ from_factorized float_of_string vals c = Ok (exchanged c).
Proof.
  intros Hwf Hn Hw Hp.
  destruct (round_trip_exchanges_matrices Hwf Hn Hw Hp) as (lines & Hto & Hfrom).
  exists lines. unfold values_for_factorize, from_factorized.
  rewrite Hto. split; [reflexivity | exact Hfrom].
Qed.

(** X23: a container with rows and without columns, such as
    [TimeArray(None)] or [from_list([None, None])], is written as the lines
    ["()"], which [_from_factorized] cannot read: [ValueError]. *)
Theorem factorize_hooks_without_columns (n : nat) :
  let c := mkTimeArray (Np.full (S n) 0 nan) (Np.full (S n) 0 nan) in
  values_for_factorize str c = Ok (repeat "()"%string (S n), None)
  /\ from_factorized float_of_string (repeat "()"%string (S n)) c = Raise ValueError.
Proof.
  intros c. split; [|reflexivity].
  unfold values_for_factorize.
  rewrite (@to_ts_container str c) by reflexivity. cbn [bind]. do 2 f_equal.
  unfold c, Np.full, nrows. cbn [data time_index rows]. rewrite repeat_length.
  rewrite <- (map_const_seq "()"%string (S n) 0).
  apply map_ext_in. intros i Hi. apply in_seq in Hi.
  change (repeat nan 0) with (@nil cell).
  now rewrite nth_repeat_lt by lia.
Qed.

End Factorize.

Lemma factorize_hooks_exchange_witness :
  well_formed c_123
  /\ exists vals,
       values_for_factorize Repr.str c_123 = Ok (vals, None)
       /\ from_factorized Repr.float_of_string vals c_123 = Ok (exchanged c_123).
Proof.
  assert (Hwf : well_formed c_123) by (repeat split; repeat constructor).
  assert (Hp : Forall (printable Repr.str Repr.float_of_string) (cells_of c_123)).
  { repeat constructor; vm_compute; reflexivity. }
  split; [exact Hwf|].
  apply (factorize_hooks_exchange Hwf); [vm_compute; lia | vm_compute; lia | exact Hp].
Defined.


(** ** [take] without fill *)

Lemma norm_index_ok (n : nat) (i : Z) :
  index_ok n i -> norm_index n i = Ok (row_position n i).
Proof.
  unfold index_ok, norm_index, row_position. intros H.
  destruct (i <? 0)%Z eqn:E.
  - apply Z.ltb_lt in E.
    assert (H1 : (0 <=? i)%Z = false) by (apply Z.leb_gt; lia).
    assert (H2 : (- Z.of_nat n <=? i)%Z = true) by (apply Z.leb_le; lia).
    now rewrite H1, H2.
  - apply Z.ltb_ge in E.
    assert (H1 : (0 <=? i)%Z = true) by (apply Z.leb_le; lia).
    assert (H2 : (i <? Z.of_nat n)%Z = true) by (apply Z.ltb_lt; lia).
    now rewrite H1, H2.
Qed.

Lemma index_ok_dec (n : nat) (i : Z) : {index_ok n i} + {~ index_ok n i}.
Proof.
  unfold index_ok.
  destruct (Z_le_dec (- Z.of_nat n) i); [|right; lia].
  destruct (Z_lt_dec i (Z.of_nat n)); [left; lia | right; lia].
Qed.

Lemma take_rows (arr : matrix) (indices : list Z) :
  (Forall (index_ok (nrows arr)) indices ->
   Pd.take arr indices false
   = Ok (Matrix (ncols arr)
           (map (fun i => nth (row_position (nrows arr) i) (rows arr) []) indices)))
  /\ (~ Forall (index_ok (nrows arr)) indices ->
      Pd.take arr indices false = Raise IndexError).
Proof.
  unfold Pd.take. split.
  - intros H.
    rewrite (mapM_Ok_map _ (fun i => nth (row_position (nrows arr) i) (rows arr) []));
      [reflexivity|].
    eapply Forall_impl; [|exact H]. intros i Hi. unfold NpIndex.getrow.
    now rewrite (norm_index_ok Hi).
  - intros H. induction indices as [|i l IH]; [contradiction H; constructor|].
    cbn [mapM]. destruct (index_ok_dec (nrows arr) i) as [Hi | Hi].
    + unfold NpIndex.getrow at 1. rewrite (norm_index_ok Hi). cbn [bind].
      assert (Hl : ~ Forall (index_ok (nrows arr)) l)
        by (intros Hl; apply H; now constructor).
      specialize (IH Hl).
      destruct (mapM (NpIndex.getrow arr) l); [discriminate|].
      cbn [bind] in *. exact IH.
    + unfold NpIndex.getrow at 1. now rewrite (norm_index_outside Hi).
Qed.

(** X24: [take] without fill returns one row per position, negative positions
    counting from the end, and ignores the fill value; the rows taken
    collapse to a container without columns when every value cell is the
    sentinel; a position outside [-len, len) raises [IndexError]. *)
Theorem take_positions (c : TimeArray) (indices : list Z) (fill_value : fill) :
  I1 c ->
  let k := length indices in
  let d := Matrix (ncols (data c))
             (map (fun i => nth (row_position (len c) i) (rows (data c)) []) indices) in
  let t := Matrix (ncols (time_index c))
             (map (fun i => nth (row_position (len c) i) (rows (time_index c)) [])
                  indices) in
  (Forall (index_ok (len c)) indices ->
   take c indices false fill_value
   = Ok (if negb (k =? 0) && Np.all_isnan d
         then mkTimeArray (Np.full k 0 nan) (Np.full k 0 nan)
         else mkTimeArray d t))
  /\ (~ Forall (index_ok (len c)) indices ->
      take c indices false fill_value = Raise IndexError).
Proof.
  intros HI k d t. unfold I1, shape in HI. injection HI as Hr Hc.
  unfold len in *. split; intros H.
  - unfold take. rewrite (proj1 (take_rows (data c) indices) H).
    rewrite Hr in H. rewrite (proj1 (take_rows (time_index c) indices) H).
    rewrite <- Hr. fold d t. cbn [bind fst snd].
    assert (Hk : nrows d = k) by apply length_map.
    rewrite Hk.
    destruct (negb (k =? 0) && Np.all_isnan d).
    + apply init_no_columns.
    + apply init_matrices. unfold shape, d, t, nrows; cbn [rows ncols].
      now rewrite !length_map, Hc.
  - unfold take. now rewrite (proj2 (take_rows (data c) indices) H).
Qed.

(** The rows at [-1] and [0] of two rows; the position [2]. *)
Lemma take_positions_witness :
  I1 c_two_rows
  /\ take c_two_rows [-1; 0]%Z false FillOther
     = Ok (mkTimeArray (matrix_of 2 [[5; 6]; [1; 2]]%Z)
                       (matrix_of 2 [[0; 1]; [0; 1]]%Z))
  /\ take c_two_rows [0; 2]%Z false FillNone = Raise IndexError.
Proof.
  assert (HI : I1 c_two_rows) by reflexivity.
  split; [exact HI|]. split.
  - rewrite (proj1 (take_positions [-1; 0]%Z FillOther HI)).
    + vm_compute. reflexivity.
    + repeat constructor; vm_compute; intuition discriminate.
  - apply (proj2 (take_positions [0; 2]%Z FillNone HI)).
    intros H. inversion H as [|? ? _ H1]; subst. inversion H1 as [|? ? H2 _]; subst.
    destruct H2 as [_ H2]. vm_compute in H2. discriminate.
Defined.


(** ** [take] with a Series as fill value *)

Lemma replace_nth_app {A} (pre : list A) (x a : A) (l : list A) :
  NpIndex.replace_nth (length pre) x (pre ++ a :: l) = pre ++ x :: l.
Proof. induction pre as [|y pre IH]; simpl; [reflexivity | now rewrite IH]. Qed.

(** Writing one row under a mask replaces the rows at the true entries. *)
Lemma fold_replace_mask {A} (x : A) (m : list bool) (pre l : list A) :
  length m = length l ->
  fold_left (fun acc pr => NpIndex.replace_nth (fst pr) (snd pr) acc)
            (combine (mask_positions (length pre) m)
                     (repeat x (length (mask_positions (length pre) m))))
            (pre ++ l)
  = pre ++ map (fun br : bool * A => if fst br then x else snd br) (combine m l).
Proof.
  revert pre l. induction m as [|b m IH]; intros pre [|a l] H; simpl in H;
    try discriminate; [reflexivity|].
  assert (Hnext : forall y,
             fold_left (fun acc pr => NpIndex.replace_nth (fst pr) (snd pr) acc)
               (combine (mask_positions (S (length pre)) m)
                        (repeat x (length (mask_positions (S (length pre)) m))))
               (pre ++ y :: l)
             = pre ++ y :: map (fun br : bool * A => if fst br then x else snd br)
                               (combine m l)).
  { intros y.
    replace (pre ++ y :: l) with ((pre ++ [y]) ++ l) by now rewrite <- app_assoc.
    replace (S (length pre)) with (length (pre ++ [y]))
      by (rewrite length_app; simpl; lia).
    rewrite IH by congruence. now rewrite <- app_assoc. }
  destruct b; cbn [mask_positions length repeat combine fold_left fst snd map].
  - rewrite replace_nth_app. apply Hnext.
  - apply Hnext.
Qed.

Lemma setitem_mask_row (arr : matrix) (m : list bool) (x : list cell) :
  length m = nrows arr -> length x = ncols arr ->
  NpIndex.setitem arr (IxMask m) (Matrix (length x) [x])
  = Ok (Matrix (ncols arr)
          (map (fun br : bool * list cell => if fst br then x else snd br)
               (combine m (rows arr)))).
Proof.
  intros Hm Hx. unfold NpIndex.setitem, positions. rewrite Hm, Nat.eqb_refl.
  cbn [bind]. rewrite <- Hx. rewrite broadcast_row. cbn [bind rows]. do 2 f_equal.
  exact (fold_replace_mask x m [] (rows arr) Hm).
Qed.

Lemma take_fill_taken (arr : matrix) (indices : list Z) :
  Forall (fill_index_ok (nrows arr)) indices ->
  Pd.take arr indices true = Ok (Matrix (ncols arr) (map (taken_row arr) indices)).
Proof.
  intros H. apply fill_indices_ok_iff in H as [H1 H2].
  unfold Pd.take. now rewrite H1, H2.
Qed.

Lemma fill_mask (arr : matrix) (indices : list Z) (k : nat) :
  Np.and_ (isna_row (Matrix (ncols arr) (map (taken_row arr) indices)))
          (map (fun i => (i <? 0)%Z || (Z.of_nat k <=? i)%Z) indices)
  = Ok (map (fun i => forallb isnan (taken_row arr i)
                      && ((i <? 0)%Z || (Z.of_nat k <=? i)%Z)) indices).
Proof.
  unfold Np.and_, isna_row, isna_grid, Np.isnan_grid. cbn [rows].
  rewrite !length_map, Nat.eqb_refl. f_equal.
  induction indices as [|i l IH]; [reflexivity|].
  cbn [map combine fst snd]. now rewrite all_map_forallb, IH.
Qed.

Lemma filled_rows (arr : matrix) (indices : list Z) (k : nat) (x : list cell) :
  map (fun br : bool * list cell => if fst br then x else snd br)
      (combine (map (fun i => forallb isnan (taken_row arr i)
                              && ((i <? 0)%Z || (Z.of_nat k <=? i)%Z)) indices)
               (map (taken_row arr) indices))
  = map (filled_row k x arr) indices.
Proof.
  induction indices as [|i l IH]; [reflexivity|].
  cbn [map combine fst snd]. now rewrite IH.
Qed.

Lemma filled_row_minus_one (k : nat) (x : list cell) (arr : matrix) :
  filled_row k x arr (-1) = x.
Proof.
  unfold filled_row, taken_row. change (-1 =? -1)%Z with true.
  change (-1 <? 0)%Z with true. cbv iota.
  assert (H : forallb isnan (repeat nan (ncols arr)) = true)
    by (induction (ncols arr); simpl; auto).
  now rewrite H.
Qed.

(** X25: [take] with [allow_fill=True] and a Series as fill value writes the
    values of the Series into the rows taken whose value cells are all
    sentinel and whose position is negative or not below the number of rows
    taken, and its times into the rows selected the same way in the time
    index: the rows at [-1], and also an all-sentinel row of the receiver
    taken from a position that is at least the number of positions. *)
Theorem take_fill_series (c : TimeArray) (indices : list Z) (sd st : list cell) :
  I1 c ->
  Forall (fill_index_ok (len c)) indices ->
  length sd = ncols (data c) ->
  length st = ncols (data c) ->
  let k := length indices in
  let d := Matrix (ncols (data c)) (map (filled_row k sd (data c)) indices) in
  let t := Matrix (ncols (time_index c))
                  (map (filled_row k st (time_index c)) indices) in
  take c indices true (FillSeries (TimeBase_init sd st))
  = Ok (if negb (k =? 0) && Np.all_isnan d
        then mkTimeArray (Np.full k 0 nan) (Np.full k 0 nan)
        else mkTimeArray d t).
Proof.
  intros HI Hok Hsd Hst k d t. unfold I1, shape in HI. injection HI as Hr Hc.
  unfold len in Hok. unfold take.
  rewrite (take_fill_taken (data c) Hok). rewrite Hr in Hok.
  rewrite (take_fill_taken (time_index c) Hok). cbn [bind].
  assert (Hnk : nrows (Matrix (ncols (data c)) (map (taken_row (data c)) indices)) = k)
    by apply length_map.
  rewrite !Hnk. rewrite !fill_mask. cbn [bind tb_data tb_time_index TimeBase_init].
  rewrite setitem_mask_row
    by (unfold nrows; cbn [rows ncols]; rewrite ?length_map; congruence).
  cbn [bind ncols rows].
  rewrite setitem_mask_row
    by (unfold nrows; cbn [rows ncols]; rewrite ?length_map; congruence).
  cbn [bind ncols rows fst snd]. rewrite !filled_rows. fold d t.
  assert (Hk : nrows d = k) by apply length_map.
  rewrite Hk.
  destruct (negb (k =? 0) && Np.all_isnan d).
  - apply init_no_columns.
  - apply init_matrices. unfold shape, d, t, nrows; cbn [rows ncols].
    now rewrite !length_map, Hc.
Qed.

(** The positions [-1] and [0] of two rows, filled with a Series. *)
Lemma take_fill_series_witness :
  I1 c_two_rows
  /\ take c_two_rows [-1; 0]%Z true (FillSeries (series_of [7; 8] [3; 4])%Z)
     = Ok (mkTimeArray (matrix_of 2 [[7; 8]; [1; 2]]%Z)
                       (matrix_of 2 [[3; 4]; [0; 1]]%Z)).
Proof.
  assert (HI : I1 c_two_rows) by reflexivity.
  split; [exact HI|].
  unfold series_of.
  rewrite (@take_fill_series c_two_rows [-1; 0]%Z (row_of [7; 8]%Z) (row_of [3; 4]%Z) HI).
  - vm_compute. reflexivity.
  - repeat constructor; vm_compute; intuition discriminate.
  - reflexivity.
  - reflexivity.
Defined.


(** ** [__setitem__] at one position *)



Lemma norm_index_nat (n i : nat) : i < n -> norm_index n (Z.of_nat i) = Ok i.
Proof.
  intros H. rewrite norm_index_ok by (unfold index_ok; lia).
  unfold row_position.
  assert (E : (Z.of_nat i <? 0)%Z = false) by (apply Z.ltb_ge; lia).
  now rewrite E, Nat2Z.id.
Qed.












(** ** [unique] *)

Lemma map_nth_firstn {A} (l : list A) (d : A) (k : nat) :
  k <= length l -> map (fun p => nth p l d) (seq 0 k) = firstn k l.
Proof.
  revert k; induction l as [|x l IH]; intros [|k] H; simpl in *; try lia;
    try reflexivity.
  f_equal. rewrite <- seq_shift, map_map. apply IH. lia.
Qed.

Lemma getrows_leading (arr : matrix) (k : nat) :
  k <= nrows arr ->
  NpIndex.getrows arr (IxArray (map Z.of_nat (seq 0 k)))
  = Ok (Matrix (ncols arr) (firstn k (rows arr))).
Proof.
  intros H. unfold NpIndex.getrows, positions. rewrite mapM_map.
  rewrite (mapM_seq_Ok _ (fun i => i))
    by (intros i Hi; apply norm_index_nat; lia).
  cbn [bind]. rewrite map_id. now rewrite map_nth_firstn.
Qed.

Lemma factorize_uniques_bound (values uniques : list string) :
  length (snd (Pd.factorize_from uniques values)) <= length uniques + length values.
Proof.
  revert uniques; induction values as [|v vs IH]; intros u; simpl; [lia|].
  destruct (Pd.index_of v u); simpl.
  - specialize (IH u). lia.
  - specialize (IH (u ++ [v])). rewrite length_app in IH. simpl in IH. lia.
Qed.

(** X28: [unique] returns the first [k] rows of the container, where [k] is
    the number of distinct strings among its rows: at most the length, and at
    least one on a container with rows.  Which rows repeat plays no part. *)
Theorem unique_first_rows (TimeBase_str : TimeBase -> string) (c : TimeArray) :
  I1 c ->
  exists objs k,
    array_ c = Ok objs
    /\ k = length (snd (Pd.factorize (map TimeBase_str objs)))
    /\ k <= len c
    /\ (0 < len c -> 0 < k)
    /\ unique TimeBase_str c
       = Ok (mkTimeArray
               (Matrix (ncols (data c)) (firstn k (rows (data c))))
               (Matrix (ncols (time_index c)) (firstn k (rows (time_index c))))).
Proof.
  intros HI. pose proof HI as HI'. unfold I1, shape in HI'.
  injection HI' as Hr Hc. unfold len.
  eexists. eexists. split; [apply (array_rows HI)|]. split; [reflexivity|].
  set (objs := map _ (seq 0 (nrows (data c)))).
  set (k := length (snd (Pd.factorize (map TimeBase_str objs)))).
  assert (Hlen : length objs = nrows (data c))
    by (unfold objs; now rewrite length_map, length_seq).
  assert (Hk : k <= nrows (data c)).
  { unfold k, Pd.factorize.
    pose proof (factorize_uniques_bound (map TimeBase_str objs) []) as H.
    rewrite length_map, Hlen in H. exact H. }
  split; [exact Hk|]. split.
  - intros Hn. unfold k, Pd.factorize.
    destruct objs as [|o os]; [simpl in Hlen; lia|].
    cbn [map Pd.factorize_from Pd.index_of app length snd].
    pose proof (factorize_from_codes (map TimeBase_str os) [TimeBase_str o])
      as (H1 & _). simpl in H1. exact H1.
  - unfold unique. rewrite (array_rows HI). fold objs. cbn [bind].
    rewrite np_unique_of_codes. fold k.
    unfold getitem_array, getitem.
    rewrite (getrows_leading _ Hk). rewrite Hr in Hk.
    rewrite (getrows_leading _ Hk). cbn [bind].
    rewrite init_matrices; [reflexivity|].
    unfold shape, nrows; cbn [rows ncols]. rewrite !length_firstn.
    unfold nrows in Hr. now rewrite Hr, Hc.
Qed.

(** The rows A, B, A: two distinct strings, and the rows A, B returned. *)
Lemma unique_first_rows_witness :
  let c := mkTimeArray (matrix_of 2 [[1; 2]; [5; 6]; [1; 2]]%Z)
                       (matrix_of 2 [[0; 1]; [0; 1]; [0; 1]]%Z) in
  I1 c /\ unique Repr.TimeBase_str c = Ok c_two_rows.
Proof.
  intros c. assert (HI : I1 c) by reflexivity.
  split; [exact HI|].
  destruct (unique_first_rows Repr.TimeBase_str HI) as (objs & k & Ha & Hk & _ & _ & Hu).
  rewrite Hu.
  assert (Hobjs : objs = [series_of [1; 2] [0; 1]; series_of [5; 6] [0; 1];
                          series_of [1; 2] [0; 1]]%Z).
  { vm_compute in Ha. inversion Ha. reflexivity. }
  subst objs. vm_compute in Hk. subst k. reflexivity.
Defined.

(** ** [__eq__] with a pandas Series *)

Lemma all_eq_rows (m : matrix) (v : list cell) :
  NpIndex.all_eq m (Matrix (ncols m) (repeat v (nrows m)))
  = forallb (fun r => Np.all (NpIndex.map2 cell_eq r v)) (rows m).
Proof.
  unfold NpIndex.all_eq. rewrite elementwise_same_shape
    by (unfold shape, nrows; cbn [rows ncols]; now rewrite repeat_length).
  cbn [rows]. unfold nrows.
  induction (rows m) as [|r l IH]; [reflexivity|].
  cbn [length repeat NpIndex.map2 forallb]. now rewrite IH.
Qed.

(** X29: a container is equal to a pandas Series as long as the container is
    wide when every value row equals the values of the Series and every time
    row equals its index, cell by cell; a Series of another length, unless
    its length is one, cannot be broadcast: [ValueError]. *)
Theorem eq_series (c : TimeArray) (values index : list cell) :
  I1 c ->
  (length values = ncols (data c) -> length index = ncols (data c) ->
   TimeArray_eq c (OtherPdSeries values index)
   = Ok (forallb (fun r => Np.all (NpIndex.map2 cell_eq r values)) (rows (data c))
         && forallb (fun r => Np.all (NpIndex.map2 cell_eq r index))
                    (rows (time_index c))))
  /\ (length values <> ncols (data c) -> length values <> 1 ->
      TimeArray_eq c (OtherPdSeries values index) = Raise ValueError).
Proof.
  intros HI. unfold I1, shape in HI. injection HI as Hr Hc. split.
  - intros Hv Hi. unfold TimeArray_eq.
    rewrite <- Hv at 1. rewrite broadcast_row. cbn [bind].
    rewrite <- Hc, <- Hi. rewrite broadcast_row. cbn [bind fst snd].
    rewrite Hv. rewrite all_eq_rows.
    rewrite Hi, Hc. now rewrite all_eq_rows.
  - intros Hv H1. unfold TimeArray_eq, NpIndex.broadcast_to at 1. cbn [ncols].
    apply Nat.eqb_neq in Hv, H1. rewrite Hv, H1. cbn [orb].
    now rewrite andb_false_r.
Qed.

(** The row with values [1, 2, 3] at times [0, 1, 2] against its Series and
    against a Series of length 2. *)
Lemma eq_series_witness :
  I1 c_123
  /\ TimeArray_eq c_123 (OtherPdSeries (row_of [1; 2; 3]%Z) (row_of [0; 1; 2]%Z))
     = Ok true
  /\ TimeArray_eq c_123 (OtherPdSeries (row_of [1; 2]%Z) (row_of [0; 1]%Z))
     = Raise ValueError.
Proof.
  assert (HI : I1 c_123) by reflexivity.
  split; [exact HI|]. split.
  - rewrite (proj1 (eq_series (row_of [1; 2; 3]%Z) (row_of [0; 1; 2]%Z) HI));
      [vm_compute; reflexivity | reflexivity | reflexivity].
  - apply (proj2 (eq_series (row_of [1; 2]%Z) (row_of [0; 1]%Z) HI));
      vm_compute; discriminate.
Defined.

(** ** Witnesses of [__add__] and [_concat_same_type] *)

(** The sum of the row with values [1, 2, 3] with itself. *)
Lemma add_same_shape_witness :
  I1 c_123
  /\ TimeArray_add c_123 c_123
     = Ok (mkTimeArray (matrix_of 3 [[2; 4; 6]]%Z) (matrix_of 3 [[0; 1; 2]]%Z)).
Proof.
  assert (HI : I1 c_123) by reflexivity.
  split; [exact HI|].
  rewrite (@add_same_shape c_123 c_123 HI eq_refl eq_refl).
  vm_compute. reflexivity.
Defined.

(** A string among containers; the widths 2 and 3. *)
Lemma concat_errors_witness :
  concat_same_type [PyTimeArray c_123; PyOther] = Raise TypeError
  /\ concat_same_type [PyTimeArray c_two_rows; PyTimeArray c_123] = Raise ValueError.
Proof.
  destruct concat_errors as (H1 & _ & H3). split.
  - apply H1. right. left. exact I.
  - apply (H3 [c_two_rows; c_123] c_two_rows c_123);
      [now left | right; now left | vm_compute; lia | vm_compute; lia
      | vm_compute; discriminate].
Defined.
